(** * Century: the registrar's course listings ([lib/tasks/registrar/course_listings.py])

    A shallow embedding of [CourseReader] and [Department]: the grouped
    prefix index, the assembly of table rows into course records, the
    construction of departments from matched names, the constructor's
    argument checks and the lazy loading of both classes.

    Python values are modelled as follows.
    - [str] is [string]; one character is one code point below 256.
    - [None]-or-[str] cells are [option string].
    - a [dict] is a [gmap]; a missing key raises [KeyError].
    - a raised exception is a value of [exn], carried by [result]. *)

From Stdlib Require Import ZArith Ascii String List.
From stdpp Require Import base option list gmap strings fin_maps pretty.

Open Scope string_scope.
Open Scope list_scope.
Open Scope Z_scope.

(** ** Exceptions and results *)

(** A raised exception: the name of its class and its argument. *)
Record exn := Raise { exc_class : string; exc_arg : string }.

Inductive result (A : Type) : Type :=
| Ok (a : A)
| Err (e : exn).
Arguments Ok {A} a.
Arguments Err {A} e.

#[global] Instance result_ret : MRet result := fun A a => Ok a.
#[global] Instance result_bind : MBind result := fun A B f m =>
  match m with
  | Ok a => f a
  | Err e => Err e
  end.

#[global] Instance result_fmap : FMap result := fun A B f m =>
  match m with
  | Ok a => Ok (f a)
  | Err e => Err e
  end.

Definition KeyError (arg : string) : exn := Raise "KeyError" arg.
Definition IndexError : exn := Raise "IndexError" "list index out of range".
Definition ValueError (arg : string) : exn := Raise "ValueError" arg.
Definition AttributeError (attr : string) : exn := Raise "AttributeError" attr.
Definition TypeError : exn := Raise "TypeError" EmptyString.
Definition AssertionError : exn := Raise "AssertionError" EmptyString.
Definition StopIteration : exn := Raise "StopIteration" EmptyString.
Definition UnboundLocalError (var : string) : exn := Raise "UnboundLocalError" var.
Definition RuntimeError (arg : string) : exn := Raise "RuntimeError" arg.

Definition is_ok {A} (r : result A) : bool :=
  match r with Ok _ => true | Err _ => false end.

(** ** Python's [str] and [int] built-ins *)

Module Py.

(** The line break ["\n"]. *)
Definition newline : ascii := "010"%char.

Definition code (c : ascii) : N := N_of_ascii c.

(** [c.lower()] on one character: A-Z and the Latin-1 capitals
    U+00C0..U+00DE (but not the multiplication sign U+00D7) move up by 32. *)
Definition chr_lower (c : ascii) : ascii :=
  let n := code c in
  if ((65 <=? n) && (n <=? 90) || (192 <=? n) && (n <=? 222) && negb (n =? 215))%N
  then ascii_of_N (n + 32)
  else c.

(** [s.lower()] *)
Fixpoint lower (s : string) : string :=
  match s with
  | EmptyString => EmptyString
  | String c s' => String (chr_lower c) (lower s')
  end.

Fixpoint startswith (p s : string) : bool :=
  match p, s with
  | EmptyString, _ => true
  | String a p', String b s' => if decide (a = b) then startswith p' s' else false
  | String _ _, EmptyString => false
  end.

(** [p in s] on strings: [p] occurs in [s] as a substring. *)
Fixpoint contains (p s : string) : bool :=
  startswith p s ||
  match s with
  | EmptyString => false
  | String _ s' => contains p s'
  end.

(** [c.isspace()] for code points below 256. *)
Definition isspace (c : ascii) : bool :=
  let n := code c in
  ((9 <=? n) && (n <=? 13) || (28 <=? n) && (n <=? 32) || (n =? 133) || (n =? 160))%N.

Fixpoint lstrip_with (space : ascii → bool) (s : string) : string :=
  match s with
  | EmptyString => EmptyString
  | String c s' => if space c then lstrip_with space s' else s
  end.

Definition strip_with (space : ascii → bool) (s : string) : string :=
  String.rev (lstrip_with space (String.rev (lstrip_with space s))).

(** [s.strip()] *)
Definition strip (s : string) : string := strip_with isspace s.

(** [s.split(sep)] for a one-character separator. *)
Fixpoint split (sep : ascii) (s : string) : list string :=
  match s with
  | EmptyString => [EmptyString]
  | String c s' =>
      if decide (c = sep) then EmptyString :: split sep s'
      else match split sep s' with
           | h :: t => String c h :: t
           | [] => [String c EmptyString]
           end
  end.

Definition isdigit (c : ascii) : bool := ((48 <=? code c) && (code c <=? 57))%N.
Definition digit (c : ascii) : Z := Z.of_N (code c) - 48.

(** The digits of a base-10 literal; single underscores may separate
    digits, and at least one digit is required. [seen] tells whether the
    previous character was a digit. *)
Fixpoint int_digits (acc : Z) (seen : bool) (s : string) : option Z :=
  match s with
  | EmptyString => if seen then Some acc else None
  | String c s' =>
      if isdigit c then int_digits (10 * acc + digit c) true s'
      else if decide (c = "_"%char) then
             if seen then int_digits acc false s' else None
           else None
  end.

Definition int_signed (s : string) : option Z :=
  match s with
  | String "-" s' => Z.opp <$> int_digits 0 false s'
  | String "+" s' => int_digits 0 false s'
  | _ => int_digits 0 false s
  end.

(** The white space [int] ignores around a literal: what [isspace]
    accepts, but for the separators U+001C..U+001F. *)
Definition int_isspace (c : ascii) : bool :=
  let n := code c in
  ((9 <=? n) && (n <=? 13) || (n =? 32) || (n =? 133) || (n =? 160))%N.

(** [int(s)] for a [str]: surrounding white space is ignored, then an
    optional sign and a base-10 literal; anything else is a [ValueError].
    (The digit-count limit of recent interpreters is not modelled.) *)
Definition int (s : string) : result Z :=
  match int_signed (strip_with int_isspace s) with
  | Some z => Ok z
  | None => Err (ValueError s)
  end.

(** Truth value of a [None]-or-[str] cell. *)
Definition truthy (v : option string) : bool :=
  match v with
  | Some (String _ _) => true
  | _ => false
  end.

(** [d[k]] *)
Definition getitem {V} (d : gmap string V) (k : string) : result V :=
  match d !! k with
  | Some v => Ok v
  | None => Err (KeyError k)
  end.

(** [v.lower()] on a cell: [None] has no such attribute. *)
Definition cell_lower (v : option string) : result string :=
  match v with
  | Some s => Ok (lower s)
  | None => Err (AttributeError "lower")
  end.

(** ["%d" % z] *)
Definition fmt_d (z : Z) : string := pretty z.

End Py.

(** ** The grouped index: [CourseReader.__parallel_lists_to_tuple_dict] *)

Section ParallelLists.
Context {K V : Type} `{Countable K}.

(** [tuple(l)]: tuples and lists are both [list]. *)
Definition tuple (l : list V) : list V := l.

(** One turn of the first loop:
    [b_list = tuple_dict.get(a, []); b_list.append(b); tuple_dict[a] = b_list]. *)
Definition add_pair (tuple_dict : gmap K (list V)) (ab : K * V) : gmap K (list V) :=
  let b_list := default [] (tuple_dict !! ab.1) in
  <[ab.1 := b_list ++ [ab.2]]> tuple_dict.

Definition parallel_lists_to_tuple_dict (list_a : list K) (list_b : list V)
  : gmap K (list V) :=
  let tuple_dict := foldl add_pair ∅ (zip list_a list_b) in
  tuple <$> tuple_dict.

(** The values that stand next to key [k], in their original order. *)
Definition values_of (k : K) (list_a : list K) (list_b : list V) : list V :=
  (filter (λ ab, ab.1 = k) (zip list_a list_b)).*2.

End ParallelLists.

(** ** Rows and course records *)

(** One of the "little dicts" of [Department.force_load]: column header to
    cell, the cell being [None] when its text is empty. *)
Abbreviation Row := (gmap string (option string)).

(** Modelled from the spec: the class [CourseMeeting] of [lib.tasks.courses]
    is not among the sources. A meeting record keeps the four cells it is
    built from, and, being a plain object, is true in a condition. *)
Record CourseMeeting := {
  days : option string;
  periods : option string;
  building : option string;
  room : option string
}.

(** [x[-1] = f(x[-1])] on a non-empty list; nothing on the empty one. *)
Fixpoint alter_last {A} (f : A → A) (l : list A) : list A :=
  match l with
  | [] => []
  | [x] => [f x]
  | x :: l' => x :: alter_last f l'
  end.

Section Assembler.

(** The class [CourseCode] of [lib.tasks.courses] is not among the
    sources: its values, its constructor from a string (which may raise)
    and its [prefix] attribute are parameters. *)
Context {CourseCode : Type}.
Variable CourseCode_init : string → result CourseCode.
Variable prefix : CourseCode → string.

(** Modelled from the spec: the class [Course] of [lib.tasks.courses] is
    not among the sources. A course record keeps the fields the
    constructor call names, with the course code made a [CourseCode]. *)
Record Course := {
  course_code : CourseCode;
  section_number : option string;
  title : option string;
  credits : Z;
  meetings : list CourseMeeting;
  gen_ed_credit : option string;
  gordon_rule : option string;
  instructors : list string
}.

(** [c.meetings.append(m)] *)
Definition meetings_append (m : CourseMeeting) (c : Course) : Course :=
  {| course_code := course_code c; section_number := section_number c;
     title := title c; credits := credits c;
     meetings := meetings c ++ [m];
     gen_ed_credit := gen_ed_credit c; gordon_rule := gordon_rule c;
     instructors := instructors c |}.

(** The local function [build_meeting] of [Department.force_load]. *)
Definition build_meeting (d : Row) : result (option CourseMeeting) :=
  day ← Py.getitem d "day(s)";
  if negb (Py.truthy day) then Ok None
  else
    lowered ← Py.cell_lower day;
    if Py.contains "tba" lowered then Ok None
    else
      days ← Py.getitem d "day(s)";
      periods ← Py.getitem d "period";
      building ← Py.getitem d "bldg";
      room ← Py.getitem d "room";
      Ok (Some {| days := days; periods := periods;
                  building := building; room := room |}).

(** [int(cred) if "var" not in cred.lower() else -1] *)
Definition parse_credits (cred : option string) : result Z :=
  lowered ← Py.cell_lower cred;
  if negb (Py.contains "var" lowered)
  then match cred with
       | Some s => Py.int s
       | None => Err TypeError
       end
  else Ok (-1).

(** [[i.strip() for i in cell.split("\n")]] *)
Definition split_instructors (cell : option string) : result (list string) :=
  match cell with
  | Some s => Ok (Py.strip <$> Py.split Py.newline s)
  | None => Err (AttributeError "split")
  end.

(** The [if d["course"]:] branch: the record of a primary row. *)
Definition new_course (d : Row) (code : string) : result Course :=
  cred ← Py.getitem d "cred";
  credits ← parse_credits cred;
  meeting ← build_meeting d;
  sect ← Py.getitem d "sect";
  title ← Py.getitem d "course title & textbook(s)";
  ge ← Py.getitem d "ge";
  wm ← Py.getitem d "wm";
  instructor ← Py.getitem d "instructor(s)";
  instructors ← split_instructors instructor;
  cc ← CourseCode_init code;
  Ok {| course_code := cc; section_number := sect; title := title;
        credits := credits;
        meetings := match meeting with Some m => [m] | None => [] end;
        gen_ed_credit := ge; gordon_rule := wm;
        instructors := instructors |}.

(** One turn of the loop [for d in course_dicts]. *)
Definition process_row (base_course_list : list Course) (d : Row)
  : result (list Course) :=
  course ← Py.getitem d "course";
  match course with
  | Some (String _ _ as code) =>
      c ← new_course d code;
      Ok (base_course_list ++ [c])
  | _ =>
      meeting ← build_meeting d;
      match meeting with
      | Some m =>
          match base_course_list with
          | [] => Err IndexError
          | _ => Ok (alter_last (meetings_append m) base_course_list)
          end
      | None => Ok base_course_list
      end
  end.

Fixpoint process_rows (base_course_list : list Course) (course_dicts : list Row)
  : result (list Course) :=
  match course_dicts with
  | [] => Ok base_course_list
  | d :: rest =>
      base' ← process_row base_course_list d;
      process_rows base' rest
  end.

(** Lines 417-440 of [Department.force_load]: from the row dicts to
    [base_course_list]. *)
Definition assemble (course_dicts : list Row) : result (list Course) :=
  process_rows [] course_dicts.

(** The loop that collects the prefixes of the loaded courses, each once,
    in order of first appearance. *)
Definition collect_prefixes (cl : list Course) : list string :=
  foldl (λ ps c, if decide (prefix (course_code c) ∈ ps) then ps
                 else ps ++ [prefix (course_code c)]) [] cl.

End Assembler.

Arguments Course : clear implicits.

(** ** The assembly, in the words of the specification *)

(** A row is a primary row when its course-code cell is not empty, and a
    continuation row otherwise. *)
Definition is_primary (d : Row) : bool :=
  match d !! "course" with
  | Some v => Py.truthy v
  | None => false
  end.

Definition is_continuation (d : Row) : bool :=
  match d !! "course" with
  | Some v => negb (Py.truthy v)
  | None => false
  end.

(** The continuation rows at the head of [rows], up to the next primary row. *)
Fixpoint continuation_rows (rows : list Row) : list Row :=
  match rows with
  | [] => []
  | d :: rest => if is_primary d then [] else d :: continuation_rows rest
  end.

(** Every primary row with the continuation rows that belong to it, in the
    order of the primary rows. *)
Fixpoint blocks (rows : list Row) : list (Row * list Row) :=
  match rows with
  | [] => []
  | d :: rest =>
      if is_primary d then (d, continuation_rows rest) :: blocks rest
      else blocks rest
  end.

(** The meeting a row yields: one or none. *)
Definition row_meetings (d : Row) : list CourseMeeting :=
  match build_meeting d with
  | Ok (Some m) => [m]
  | _ => []
  end.

Section AssemblerSpec.

Context {CourseCode : Type}.
Variable CourseCode_init : string → result CourseCode.

Definition meetings_extend (ms : list CourseMeeting) (c : Course CourseCode)
  : Course CourseCode :=
  {| course_code := course_code c; section_number := section_number c;
     title := title c; credits := credits c;
     meetings := meetings c ++ ms;
     gen_ed_credit := gen_ed_credit c; gordon_rule := gordon_rule c;
     instructors := instructors c |}.

(** The course record of a block: the record of its primary row, then the
    meetings of its continuation rows appended in order. *)
Definition block_record (blk : Row * list Row) : result (Course CourseCode) :=
  match blk.1 !! "course" with
  | Some (Some code) =>
      c ← new_course CourseCode_init blk.1 code;
      Ok (meetings_extend (flat_map row_meetings blk.2) c)
  | _ => Err (KeyError "course")
  end.

(** A row that is read without an exception: a primary row gives its
    record, a continuation row its meeting or none. *)
Definition row_parses (d : Row) : bool :=
  match d !! "course" with
  | Some (Some (String _ _ as code)) => is_ok (new_course CourseCode_init d code)
  | Some _ => is_ok (build_meeting d)
  | None => false
  end.

End AssemblerSpec.

(** ** The browser *)

(** The page-fetching collaborator, shared by a reader and its
    departments. What it answers may depend on the requests made so far;
    every request is recorded in [history]. A department page is handed
    over as the row dicts it parses to (lines 385-412), the main page as the
    parsed drop-down menu and prefix table (lines 135-146); a failure to
    fetch or to parse is the exception in the answer. *)
Record Browser := {
  main_pages : list string → string → result (list (string * string) * list (list string));
  department_pages : list string → string → result (list Row);
  expand_relative_url : string → string → string;
  history : list string
}.

Definition visit (b : Browser) (url : string) : Browser :=
  {| main_pages := main_pages b; department_pages := department_pages b;
     expand_relative_url := expand_relative_url b;
     history := history b ++ [url] |}.

Definition load_main_page (b : Browser) (url : string)
  : result (list (string * string) * list (list string)) * Browser :=
  (main_pages b (history b) url, visit b url).

Definition load_department_page (b : Browser) (url : string)
  : result (list Row) * Browser :=
  (department_pages b (history b) url, visit b url).

(** ** [Department] *)

Module Department.
Section Department.

Context {CourseCode : Type}.
Variable CourseCode_init : string → result CourseCode.
Variable prefix : CourseCode → string.
(** [department_matching.replace_abbreviations], not among the sources. *)
Variable replace_abbreviations : string → string.

Record t := {
  name : string;
  alternate_names : list string;
  abbreviated_names : list string;
  prefixes : list string;
  base_url : string;
  relative_url : string;
  course_list : option (list (Course CourseCode));
  loaded : bool
}.

(** [Department.__init__]; the browser is the shared one, passed to the
    methods that use it. *)
Definition init (name : string) (alternate_names : list string)
    (prefixes : list string) (base_url relative_url : string) : t :=
  {| name := name;
     alternate_names := alternate_names;
     abbreviated_names := replace_abbreviations <$> (name :: alternate_names);
     prefixes := prefixes;
     base_url := base_url;
     relative_url := relative_url;
     course_list := None;
     loaded := false |}.

Definition all_names (self : t) : list string := name self :: alternate_names self.

Definition url (self : t) (b : Browser) : string :=
  expand_relative_url b (relative_url self) (base_url self).

(** The assignments that end [force_load]. *)
Definition set_course_list (self : t) (cl : list (Course CourseCode)) : t :=
  {| name := name self;
     alternate_names := alternate_names self;
     abbreviated_names := abbreviated_names self;
     prefixes := collect_prefixes prefix cl;
     base_url := base_url self;
     relative_url := relative_url self;
     course_list := Some cl;
     loaded := true |}.

(** [force_load]: the object after the call, or the exception that left
    it as it was; and the browser after the call. *)
Definition force_load (self : t) (b : Browser) : result t * Browser :=
  let '(page, b') := load_department_page b (url self b) in
  (course_dicts ← page;
   base_course_list ← assemble CourseCode_init course_dicts;
   Ok (set_course_list self base_course_list), b').

Definition auto_load (self : t) (b : Browser) : result t * Browser :=
  if negb (loaded self) then force_load self b else (Ok self, b).

(** [get_course_list]: the object, the value returned, the browser. *)
Definition get_course_list (self : t) (b : Browser)
  : result (t * option (list (Course CourseCode))) * Browser :=
  let '(r, b') := auto_load self b in
  (self' ← r; Ok (self', course_list self'), b').

(** [get_prefixes] *)
Definition get_prefixes (self : t) (fast : bool) (b : Browser)
  : result (t * list string) * Browser :=
  let '(r, b') := if negb fast then auto_load self b else (Ok self, b) in
  (self' ← r; Ok (self', prefixes self'), b').

End Department.
End Department.

Arguments Department.t : clear implicits.

(** ** [CourseReader] *)

(** [zip] of the unpacked [rows]: the columns of [rows], as many as the
    shortest row has. *)
Definition zip_star {A} (rows : list (list A)) : list (list A) :=
  match rows with
  | [] => []
  | r :: rs =>
      let n := foldr (λ x acc, Nat.min (length x) acc) (length r) rs in
      (λ i, omap (λ row, row !! i) rows) <$> seq 0 n
  end.

(** [dict(pairs)]: a later pair replaces an earlier one with the same key. *)
Definition dict {V} (pairs : list (string * V)) : gmap string V :=
  foldl (λ m kv, <[kv.1 := kv.2]> m) ∅ pairs.

(** The [year] argument: "either a string or an int". *)
Inductive YearArg :=
| YearInt (y : Z)
| YearStr (s : string).

Module CourseReader.
Section CourseReader.

Context {CourseCode : Type}.
Variable replace_abbreviations : string → string.
(** The values of [lib.tasks.courses.Semesters], not among the sources:
    any type of values that [==] decides, with the three constants. *)
Context {Semester : Type} `{EqDecision Semester}.
Variables SPRING SUMMER FALL : Semester.
(** [fuzzy_match.similar_zip] with the keyword arguments of the call in
    [force_load], not among the sources: from the menu's names and the
    set of the table's names to a list of pairs, or an exception. *)
Variable similar_zip : list string → gset string → result (list (string * string)).

Record t := {
  base_url : string;
  departments : option (list (Department.t CourseCode));
  loaded : bool
}.

(** [int(year)] *)
Definition int_year (year : YearArg) : result Z :=
  match year with
  | YearInt y => Ok y
  | YearStr s => Py.int s
  end.

(** The [if]/[elif] chain on [semester]: [month] stays unbound ([None])
    when no branch is taken. *)
Definition month_of (semester : Semester) : option string :=
  if decide (semester = SPRING) then Some "01"
  else if decide (semester = SUMMER) then Some "06"
  else if decide (semester = FALL) then Some "08"
  else None.

(** [CourseReader.__init__]: the new object or the exception raised, and
    the browser after the call. *)
Definition init (year : YearArg) (semester : Semester) (full : bool) (b : Browser)
  : result t * Browser :=
  (year ← int_year year;
   if year <? 2001 then
     Err (KeyError ("Course listings are unavailable for the year "
                    +:+ Py.fmt_d year +:+ "."))
   else if negb full && (year <? 2005) then
     Err (KeyError ("Web-Course listings are unavailable for the year "
                    +:+ Py.fmt_d year +:+ "."))
   else
     match month_of semester with
     | None => Err (UnboundLocalError "month")
     | Some month =>
         Ok {| base_url := "http://www.registrar.ufl.edu/soc/" +:+ Py.fmt_d year
                           +:+ month +:+ "/" +:+ (if full then "all" else "web") +:+ "/";
               departments := None;
               loaded := false |}
     end, b).

(** The body of the loop over [matched_depts]. *)
Definition new_department (base_url : string)
    (prefix_lookup : gmap string (list string)) (url_lookup : gmap string string)
    (names : string * string) : result (Department.t CourseCode) :=
  let '(department_menu_name, prefix_table_name) := names in
  let alternate_names :=
    if decide (department_menu_name ≠ prefix_table_name)
    then [department_menu_name] else [] in
  prefixes ← Py.getitem prefix_lookup prefix_table_name;
  relative_url ← Py.getitem url_lookup department_menu_name;
  Ok (Department.init replace_abbreviations prefix_table_name alternate_names
        (tuple prefixes) base_url relative_url).

Fixpoint new_departments (base_url : string)
    (prefix_lookup : gmap string (list string)) (url_lookup : gmap string string)
    (matched_depts : list (string * string)) : result (list (Department.t CourseCode)) :=
  match matched_depts with
  | [] => Ok []
  | names :: rest =>
      dep ← new_department base_url prefix_lookup url_lookup names;
      deps ← new_departments base_url prefix_lookup url_lookup rest;
      Ok (dep :: deps)
  end.

(** [force_load] after the page is parsed: matching the names and
    building the departments. *)
Definition build_departments (base_url : string)
    (department_menu : list (string * string)) (prefix_table : list (list string))
  : result (list (Department.t CourseCode)) :=
  department_menu_department_names ←
    match department_menu with
    | [] => Err StopIteration
    | _ => Ok (department_menu.*1)
    end;
  prefix_table_department_names ←
    match zip_star prefix_table !! 1%nat with
    | Some column => Ok column
    | None => Err IndexError
    end;
  matched_depts ← similar_zip department_menu_department_names
                     (list_to_set prefix_table_department_names);
  if decide (length matched_depts = length department_menu_department_names) then
    let url_lookup := dict department_menu in
    prefix_lookup ←
      match reverse (zip_star prefix_table) with
      | [list_a; list_b] => Ok (parallel_lists_to_tuple_dict list_a list_b)
      | _ => Err TypeError
      end;
    new_departments base_url prefix_lookup url_lookup matched_depts
  else Err AssertionError.

Definition set_departments (self : t) (deps : list (Department.t CourseCode)) : t :=
  {| base_url := base_url self; departments := Some deps; loaded := true |}.

Definition force_load (self : t) (b : Browser) : result t * Browser :=
  let '(page, b') := load_main_page b (base_url self) in
  (parsed ← page;
   deps ← build_departments (base_url self) parsed.1 parsed.2;
   Ok (set_departments self deps), b').

Definition auto_load (self : t) (b : Browser) : result t * Browser :=
  if negb (loaded self) then force_load self b else (Ok self, b).

(** [get_departments]: the object, the value returned, the browser. *)
Definition get_departments (self : t) (b : Browser)
  : result (t * option (list (Department.t CourseCode))) * Browser :=
  let '(r, b') := auto_load self b in
  (self' ← r; Ok (self', departments self'), b').

End CourseReader.
End CourseReader.

Arguments CourseReader.t : clear implicits.

(** ** Departments and names, in the words of the specification *)

(** The department of a matched pair (menu-side name, table-side name):
    named by the table-side name, with the menu-side name as its one
    alternate name when the two differ; and not loaded yet. *)
Definition named_after {CourseCode : Type} (names : string * string)
    (dep : Department.t CourseCode) : Prop :=
  Department.name dep = names.2
  ∧ Department.alternate_names dep
    = (if decide (names.1 = names.2) then [] else [names.1])
  ∧ Department.loaded dep = false.

(** ** Lazy loading, in the words of the specification *)

(** The number of populations run so far: every population fetches one page. *)
Definition populations (b : Browser) : nat := length (history b).

(** The contract of a lazily loaded object with a [loaded] flag, a forced
    load, an automatic load and an accessor: the automatic load does nothing
    on a loaded object and is the forced load on an unloaded one; the forced
    load runs the population whatever the flag, and the flag is set whenever
    it returns; an automatic load or an accessor that has returned returns
    the same again without a further population. *)
Definition loads_lazily {T V : Type} (loaded : T → bool)
    (force_load auto_load : T → Browser → result T * Browser)
    (get : T → Browser → result (T * V) * Browser) : Prop :=
  (∀ self b, loaded self = true → auto_load self b = (Ok self, b))
  ∧ (∀ self b, loaded self = false → auto_load self b = force_load self b)
  ∧ (∀ self b, populations (force_load self b).2 = S (populations b))
  ∧ (∀ self b self', (force_load self b).1 = Ok self' → loaded self' = true)
  ∧ (∀ self b,
       populations (auto_load self b).2
       = (populations b + if loaded self then 0 else 1)%nat)
  ∧ (∀ self b self1 b1,
       auto_load self b = (Ok self1, b1) →
       auto_load self1 b1 = (Ok self1, b1)
       ∧ populations b1 = (populations b + if loaded self then 0 else 1)%nat)
  ∧ (∀ self b self1 v1 b1,
       get self b = (Ok (self1, v1), b1) →
       get self1 b1 = (Ok (self1, v1), b1)
       ∧ populations b1 = (populations b + if loaded self then 0 else 1)%nat).

(** The strings [strip] returns: no white space at either end. *)
Definition trimmed (s : string) : Prop :=
  (∀ c, head (list_ascii_of_string s) = Some c → Py.isspace c = false)
  ∧ (∀ c, last (list_ascii_of_string s) = Some c → Py.isspace c = false).

(** A loaded department holds its course list, and its prefixes are those
    of the list. *)
Definition Department_consistent {CourseCode : Type} (prefix : CourseCode → string)
    (self : Department.t CourseCode) : Prop :=
  Department.loaded self = true →
  ∃ cl, Department.course_list self = Some cl
        ∧ Department.prefixes self = collect_prefixes prefix cl.

(** Two departments that are the same but for what a load assigns. *)
Definition same_department {CourseCode : Type} (self self' : Department.t CourseCode)
  : Prop :=
  Department.name self' = Department.name self
  ∧ Department.alternate_names self' = Department.alternate_names self
  ∧ Department.abbreviated_names self' = Department.abbreviated_names self
  ∧ Department.base_url self' = Department.base_url self
  ∧ Department.relative_url self' = Department.relative_url self.

(** ** [Department.rate_similarity] *)

(** [max(xs)] for a generator: the first of the greatest items, by [>];
    [ValueError] on an empty one. *)
Definition py_max {A} (gt : A → A → bool) (xs : list A) : result A :=
  match xs with
  | [] => Err (ValueError "max() arg is an empty sequence")
  | x :: rest => Ok (foldl (λ m y, if gt y m then y else m) x rest)
  end.

Section RateSimilarity.

Context {CourseCode : Type}.
Variable replace_abbreviations : string → string.
(** The scores of [fuzzy_match.lev_ratio], not among the sources: any type
    of values with the comparison [>] that [max] uses. *)
Context {Score : Type}.
Variable gt : Score → Score → bool.
Variable lev_ratio : string → string → Score.

(** [rate_similarity]: with [fast] the algorithm is sought as an attribute
    of the name, a [str], which has none of that name. *)
Definition rate_similarity (self : Department.t CourseCode) (department_name : string)
    (fast : bool) : result Score :=
  algorithm ← (if fast then Err (AttributeError "scoring_algorithm")
               else Ok lev_ratio);
  let department_name := replace_abbreviations department_name in
  py_max gt (algorithm department_name <$> Department.abbreviated_names self).

End RateSimilarity.

(** ** [CourseReader.lookup_prefix] and [CourseReader.lookup_course] *)

(** A generator run to its end: what it yielded, the exception that ended
    it if one did, and the objects it worked on as it left them. *)
Record Run (A S : Type) := {
  yielded : list A;
  raised : option exn;
  final : S
}.
Arguments yielded {A S} r.
Arguments raised {A S} r.
Arguments final {A S} r.

(** An exception that leaves the body of a generator (PEP 479, the rule of
    Python 3.7 and later): a [StopIteration] raised in the body reaches the
    caller as a [RuntimeError]; any other exception leaves as it is. An
    exception is a [StopIteration] by the name of its class: subclasses of
    [StopIteration] are not modelled. *)
Definition generator_raise (e : exn) : exn :=
  if decide (exc_class e = "StopIteration")
  then RuntimeError "generator raised StopIteration"
  else e.

Section Lookup.

Context {CourseCode : Type}.
Variable CourseCode_init : string → result CourseCode.
Variable prefix : CourseCode → string.
Variable replace_abbreviations : string → string.
Variable similar_zip : list string → gset string → result (list (string * string)).
(** [str.upper], a parameter: the capitals of two of the code points
    below 256 lie above 255. *)
Variable upper : string → string.
(** [==] on [CourseCode], not among the sources. *)
Variable code_eq : CourseCode → CourseCode → bool.

(** The loop of [lookup_prefix] over the departments. The departments are
    objects of the reader: what [get_prefixes] loads stays loaded. *)
Fixpoint lookup_prefix_loop (pfx : string) (fast : bool)
    (deps : list (Department.t CourseCode)) (b : Browser)
  : Run (Department.t CourseCode) (list (Department.t CourseCode) * Browser) :=
  match deps with
  | [] => {| yielded := []; raised := None; final := ([], b) |}
  | dep :: rest =>
      match Department.get_prefixes CourseCode_init prefix dep fast b with
      | (Err e, b1) =>
          {| yielded := []; raised := Some (generator_raise e);
             final := (dep :: rest, b1) |}
      | (Ok (dep1, prefixes), b1) =>
          let r := lookup_prefix_loop pfx fast rest b1 in
          {| yielded := if decide (upper pfx ∈ prefixes) then dep1 :: yielded r
                        else yielded r;
             raised := raised r;
             final := (dep1 :: (final r).1, (final r).2) |}
      end
  end.

Definition set_departments_of (self : CourseReader.t CourseCode)
    (deps : list (Department.t CourseCode)) : CourseReader.t CourseCode :=
  {| CourseReader.base_url := CourseReader.base_url self;
     CourseReader.departments := Some deps;
     CourseReader.loaded := CourseReader.loaded self |}.

(** [list(self.lookup_prefix(prefix, fast))]: the generator run to its
    end. The whole body, the reader's own load included, runs in the
    generator, so that an exception leaves it by [generator_raise]. *)
Definition lookup_prefix (self : CourseReader.t CourseCode) (pfx : string) (fast : bool)
    (b : Browser)
  : Run (Department.t CourseCode) (CourseReader.t CourseCode * Browser) :=
  match CourseReader.get_departments replace_abbreviations similar_zip self b with
  | (Err e, b1) =>
      {| yielded := []; raised := Some (generator_raise e); final := (self, b1) |}
  | (Ok (self1, None), b1) =>
      {| yielded := []; raised := Some TypeError; final := (self1, b1) |}
  | (Ok (self1, Some deps), b1) =>
      let r := lookup_prefix_loop pfx fast deps b1 in
      {| yielded := yielded r; raised := raised r;
         final := (set_departments_of self1 (final r).1, (final r).2) |}
  end.

(** The loop of [lookup_course]: one step of the generator [lookup_prefix],
    then, for a department it yields, the loop over its courses; the first
    department that holds the course ends the search. An exception of
    [lookup_prefix] has left that generator and leaves this one next; an
    exception of the loop over the courses leaves this one only. *)
Fixpoint lookup_course_loop (code : CourseCode) (fast : bool)
    (deps : list (Department.t CourseCode)) (b : Browser)
  : Run (Course CourseCode) (list (Department.t CourseCode) * Browser) :=
  match deps with
  | [] => {| yielded := []; raised := None; final := ([], b) |}
  | dep :: rest =>
      match Department.get_prefixes CourseCode_init prefix dep fast b with
      | (Err e, b1) =>
          {| yielded := []; raised := Some (generator_raise (generator_raise e));
             final := (dep :: rest, b1) |}
      | (Ok (dep1, prefixes), b1) =>
          if decide (upper (prefix code) ∈ prefixes) then
            match Department.get_course_list CourseCode_init prefix dep1 b1 with
            | (Err e, b2) =>
                {| yielded := []; raised := Some (generator_raise e);
                   final := (dep1 :: rest, b2) |}
            | (Ok (dep2, None), b2) =>
                {| yielded := []; raised := Some TypeError; final := (dep2 :: rest, b2) |}
            | (Ok (dep2, Some courses), b2) =>
                match filter (λ c, code_eq (course_code c) code = true) courses with
                | [] =>
                    let r := lookup_course_loop code fast rest b2 in
                    {| yielded := yielded r; raised := raised r;
                       final := (dep2 :: (final r).1, (final r).2) |}
                | found =>
                    {| yielded := found; raised := None; final := (dep2 :: rest, b2) |}
                end
            end
          else
            let r := lookup_course_loop code fast rest b1 in
            {| yielded := yielded r; raised := raised r;
               final := (dep1 :: (final r).1, (final r).2) |}
      end
  end.

(** [list(self.lookup_course(course_code, fast))]; the course code comes as
    a string, to be made a [CourseCode], or as a [CourseCode]. *)
Definition lookup_course (self : CourseReader.t CourseCode)
    (course_code : string + CourseCode) (fast : bool) (b : Browser)
  : Run (Course CourseCode) (CourseReader.t CourseCode * Browser) :=
  match match course_code with inl s => CourseCode_init s | inr c => Ok c end with
  | Err e => {| yielded := []; raised := Some (generator_raise e); final := (self, b) |}
  | Ok code =>
      match CourseReader.get_departments replace_abbreviations similar_zip self b with
      | (Err e, b1) =>
          {| yielded := []; raised := Some (generator_raise (generator_raise e));
             final := (self, b1) |}
      | (Ok (self1, None), b1) =>
          {| yielded := []; raised := Some TypeError; final := (self1, b1) |}
      | (Ok (self1, Some deps), b1) =>
          let r := lookup_course_loop code fast deps b1 in
          {| yielded := yielded r; raised := raised r;
             final := (set_departments_of self1 (final r).1, (final r).2) |}
      end
  end.

End Lookup.

(** A department that the search for a course passes by: it is not listed
    under the prefix of the code, or it is loaded and none of its courses
    has the code. *)
Definition passed_by {CourseCode : Type} (prefix : CourseCode → string)
    (upper : string → string) (code_eq : CourseCode → CourseCode → bool)
    (code : CourseCode) (dep : Department.t CourseCode) : Prop :=
  upper (prefix code) ∉ Department.prefixes dep
  ∨ (Department.loaded dep = true
     ∧ ∃ cl, Department.course_list dep = Some cl
             ∧ filter (λ c, code_eq (course_code c) code = true) cl = []).

(** ** Sample data *)

Module Sample.

(** A course code as its three-letter prefix and the rest; codes shorter
    than four characters are refused. *)
Definition code_init (s : string) : result (string * string) :=
  match s with
  | String a (String b (String c (String d r))) =>
      Ok (String a (String b (String c EmptyString)), String d r)
  | _ => Err (ValueError s)
  end.

Definition code_prefix (c : string * string) : string := c.1.

Definition row (course sect cred day : option string) : Row :=
  dict [("course", course); ("sect", sect); ("cred", cred);
        ("course title & textbook(s)", Some "Calculus");
        ("ge", None); ("wm", None);
        ("instructor(s)", Some ("A. Smith" +:+ String Py.newline " B. Jones"));
        ("day(s)", day); ("period", Some "3"); ("bldg", Some "LIT");
        ("room", Some "101")].

Definition mac2313 : Row := row (Some "MAC2313") (Some "1") (Some "4") (Some "M W F").
Definition cont_T : Row := row None None None (Some "T").
Definition cont_tba : Row := row None None None (Some "TBA").
Definition cont_note : Row := row None None None None.
Definition var_row : Row := row (Some "MAC4905") (Some "2") (Some "VAR") (Some "tba").
Definition bad_cred : Row := row (Some "MAC1140") (Some "3") (Some "four") (Some "M").
Definition bad_code : Row := row (Some "X") (Some "3") (Some "3") (Some "M").

Definition meeting (day : string) : CourseMeeting :=
  {| days := Some day; periods := Some "3"; building := Some "LIT"; room := Some "101" |}.

Definition course (code : string * string) (sect : string) (cred : Z)
    (ms : list CourseMeeting) : Course (string * string) :=
  {| course_code := code; section_number := Some sect; title := Some "Calculus";
     credits := cred; meetings := ms; gen_ed_credit := None; gordon_rule := None;
     instructors := ["A. Smith"; "B. Jones"] |}.

Definition semesters : string * string * string := ("SPRING", "SUMMER", "FALL").

(** A browser that serves one department page whatever is asked. *)
Definition browser (rows : list Row) : Browser :=
  {| main_pages := λ _ _, Err (KeyError "main");
     department_pages := λ _ _, Ok rows;
     expand_relative_url := λ rel base, base +:+ rel;
     history := [] |}.

Definition math : Department.t (string * string) :=
  Department.init (λ s, s) "Mathematics" ["MATHEMATICS"] ["MAC"; "MAP"]
    "http://www.registrar.ufl.edu/soc/201108/all/" "mathemat.htm".

(** A stand-in for the fuzzy matching: a menu name goes with the table
    name that has the same lowercased text, or else with itself. *)
Definition similar_zip (names : list string) (table_names : gset string)
  : result (list (string * string)) :=
  Ok ((λ n, (n, default n (head (filter (λ t, Py.lower t = Py.lower n)
                                         (elements table_names))))) <$> names).

Definition department_menu : list (string * string) :=
  [("MATHEMATICS", "mathemat.htm"); ("Physics", "physics.htm")].

Definition prefix_table : list (list string) :=
  [["MAC"; "Mathematics"]; ["PHY"; "Physics"]; ["MAP"; "Mathematics"]].

Definition main_browser : Browser :=
  {| main_pages := λ _ _, Ok (department_menu, prefix_table);
     department_pages := λ _ _, Err (KeyError "department");
     expand_relative_url := λ rel base, base +:+ rel;
     history := [] |}.

Definition reader : CourseReader.t (string * string) :=
  {| CourseReader.base_url := "http://www.registrar.ufl.edu/soc/201108/all/";
     CourseReader.departments := None;
     CourseReader.loaded := false |}.

(** A browser whose first answer is a failure and whose later answers are
    the department page. *)
Definition flaky_browser (rows : list Row) : Browser :=
  {| main_pages := λ _ _, Err (KeyError "main");
     department_pages := λ history _,
       match history with
       | [] => Err (Raise "URLError" "timed out")
       | _ => Ok rows
       end;
     expand_relative_url := λ rel base, base +:+ rel;
     history := [] |}.

(** Capital letters for the letters a to z. *)
Fixpoint upper (s : string) : string :=
  match s with
  | EmptyString => EmptyString
  | String c s' =>
      String (if ((97 <=? Py.code c) && (Py.code c <=? 122))%N
              then ascii_of_N (Py.code c - 32) else c) (upper s')
  end.

(** A browser for the whole sample site: the main page, the page of the
    mathematics department with three rows, and empty pages elsewhere. *)
Definition site : Browser :=
  {| main_pages := λ _ _, Ok (department_menu, prefix_table);
     department_pages := λ _ url,
       if decide (url = "http://www.registrar.ufl.edu/soc/201108/all/mathemat.htm")
       then Ok [mac2313; cont_T; var_row] else Ok [];
     expand_relative_url := λ rel base, base +:+ rel;
     history := [] |}.

Definition physics : Department.t (string * string) :=
  Department.init (λ s, s) "Physics" [] ["PHY"]
    "http://www.registrar.ufl.edu/soc/201108/all/" "physics.htm".

(** The sample reader once loaded, its departments not loaded yet. *)
Definition loaded_reader : CourseReader.t (string * string) :=
  {| CourseReader.base_url := "http://www.registrar.ufl.edu/soc/201108/all/";
     CourseReader.departments := Some [math; physics];
     CourseReader.loaded := true |}.

(** The site with nothing in its drop-down menu. *)
Definition empty_site : Browser :=
  {| main_pages := λ _ _, Ok ([], prefix_table);
     department_pages := λ _ _, Ok [];
     expand_relative_url := λ rel base, base +:+ rel;
     history := [] |}.

(** Two sample course codes are equal when their prefixes and their
    numbers are. *)
Definition code_eq (c d : string * string) : bool := bool_decide (c = d).

(** A department listed under MAC beside its own prefix; the site has no
    course on its page. *)
Definition statistics : Department.t (string * string) :=
  Department.init (λ s, s) "Statistics" [] ["STA"; "MAC"]
    "http://www.registrar.ufl.edu/soc/201108/all/" "statisti.htm".

(** A loaded reader whose first department is listed under MAC and has no
    such course. *)
Definition cross_reader : CourseReader.t (string * string) :=
  {| CourseReader.base_url := "http://www.registrar.ufl.edu/soc/201108/all/";
     CourseReader.departments := Some [statistics; math];
     CourseReader.loaded := true |}.

End Sample.

(** * Properties *)

(** ** The built-ins on sample inputs *)

Example lower_VAR : Py.lower "VaR 1-3" = "var 1-3".
Proof. reflexivity. Qed.

Example int_ok : Py.int " +4_2 " = Ok 42.
Proof. reflexivity. Qed.

Example int_neg : Py.int "-1" = Ok (-1).
Proof. reflexivity. Qed.

Example int_bad : is_ok (Py.int "4.0") = false /\ is_ok (Py.int EmptyString) = false
                  /\ is_ok (Py.int "1__0") = false /\ is_ok (Py.int "_1") = false
                  /\ is_ok (Py.int "1 0") = false.
Proof. repeat split; reflexivity. Qed.

Example split_lines :
  Py.split Py.newline ("A. Smith" +:+ String Py.newline "B. Jones") = ["A. Smith"; "B. Jones"].
Proof. reflexivity. Qed.

Example strip_ex : Py.strip "  a b  " = "a b".
Proof. reflexivity. Qed.

Example fmt_year : Py.fmt_d 2011 = "2011".
Proof. vm_compute. reflexivity. Qed.

Example int_separator :
  is_ok (Py.int (String "028" "5")) = false ∧ Py.strip (String "028" "5") = "5".
Proof. split; reflexivity. Qed.

Example zip_star_columns :
  zip_star [["MAC"; "Mathematics"]; ["PHY"; "Physics"; "Physics and Astronomy"]]
  = [["MAC"; "PHY"]; ["Mathematics"; "Physics"]].
Proof. reflexivity. Qed.

Example zip_star_short_row : zip_star [["MAC"; "Mathematics"]; []] = [].
Proof. reflexivity. Qed.

Example dict_last_wins : dict [("a", 1); ("b", 2); ("a", 3)] !! "a" = Some 3.
Proof. vm_compute. reflexivity. Qed.

Example department_load_prefixes :
  Department.prefixes <$>
    (Department.force_load Sample.code_init Sample.code_prefix Sample.math
       (Sample.browser [Sample.mac2313; Sample.cont_T; Sample.var_row])).1
  = Ok ["MAC"].
Proof. vm_compute. reflexivity. Qed.

Example assemble_two_meetings :
  assemble Sample.code_init [Sample.mac2313; Sample.cont_T]
  = Ok [Sample.course ("MAC", "2313") "1" 4 [Sample.meeting "M W F"; Sample.meeting "T"]].
Proof. vm_compute. reflexivity. Qed.

Example assemble_tba_dropped :
  assemble Sample.code_init [Sample.mac2313; Sample.cont_tba; Sample.cont_note; Sample.var_row]
  = Ok [Sample.course ("MAC", "2313") "1" 4 [Sample.meeting "M W F"];
        Sample.course ("MAC", "4905") "2" (-1) []].
Proof. vm_compute. reflexivity. Qed.

(** ** The grouped index *)

Section ParallelListsFacts.
Context {K V : Type} `{Countable K}.

Lemma foldl_add_pair_lookup (l : list (K * V)) (m : gmap K (list V)) (k : K) :
  foldl add_pair m l !! k =
    match (filter (λ ab, ab.1 = k) l).*2 with
    | [] => m !! k
    | g => Some (default [] (m !! k) ++ g)
    end.
Proof.
  revert m. induction l as [|[x y] l IH]; intros m; [done|].
  cbn [foldl]. rewrite IH, filter_cons. cbn [fst].
  destruct (decide (x = k)) as [->|Hne].
  - unfold add_pair. cbn [fst snd]. rewrite lookup_insert_eq.
    cbn [fmap list_fmap snd default].
    destruct ((filter (λ ab, ab.1 = k) l).*2) as [|v g]; [done|].
    unfold id. by rewrite <- app_assoc.
  - unfold add_pair. cbn [fst snd]. by rewrite lookup_insert_ne.
Qed.

Lemma values_of_nil_iff (k : K) (list_a : list K) (list_b : list V) :
  length list_a = length list_b →
  values_of k list_a list_b = [] ↔ k ∉ list_a.
Proof.
  unfold values_of. revert list_b.
  induction list_a as [|a la IH]; intros [|b lb] Hlen; simpl in *; try lia.
  - split; [intros _; apply not_elem_of_nil | done].
  - rewrite filter_cons. simpl. rewrite not_elem_of_cons.
    destruct (decide (a = k)) as [->|Hne]; simpl.
    + split; [done | intros [? _]; done].
    + rewrite IH by lia. split; [intros ?; split; [congruence | done] | intros [_ ?]; done].
Qed.

Lemma parallel_lists_lookup (list_a : list K) (list_b : list V) (k : K) :
  parallel_lists_to_tuple_dict list_a list_b !! k =
    match values_of k list_a list_b with
    | [] => None
    | g => Some g
    end.
Proof.
  unfold parallel_lists_to_tuple_dict. rewrite lookup_fmap, foldl_add_pair_lookup.
  fold (values_of k list_a list_b).
  destruct (values_of k list_a list_b); by rewrite ?lookup_empty.
Qed.

End ParallelListsFacts.

Section ValuesOf.
Context {K V : Type} `{Countable K}.

Lemma values_of_sublist (k : K) (list_a : list K) (list_b : list V) :
  length list_a = length list_b →
  values_of k list_a list_b `sublist_of` list_b.
Proof.
  intros Hlen. unfold values_of.
  rewrite <- (snd_zip list_a list_b) at 2 by lia.
  apply fmap_sublist, sublist_filter.
Qed.

Lemma elem_of_values_of (k : K) (v : V) (list_a : list K) (list_b : list V) :
  v ∈ values_of k list_a list_b ↔
  ∃ i : nat, list_a !! i = Some k ∧ list_b !! i = Some v.
Proof.
  unfold values_of. rewrite list_elem_of_fmap. split.
  - intros [[k' v'] [-> Hin]]. apply list_elem_of_filter in Hin as [Hk Hin].
    simpl in Hk. subst k'. apply list_elem_of_lookup in Hin as [i Hi].
    apply lookup_zip_with_Some in Hi as (x & y & Heq & Ha & Hb).
    inversion Heq; subst. eauto.
  - intros (i & Ha & Hb). exists (k, v). split; [done|].
    apply list_elem_of_filter. split; [done|].
    apply list_elem_of_lookup. exists i.
    apply lookup_zip_with_Some. eauto.
Qed.

Lemma parallel_lists_dom (list_a : list K) (list_b : list V) :
  length list_a = length list_b →
  dom (parallel_lists_to_tuple_dict list_a list_b) = list_to_set list_a.
Proof.
  intros Hlen. apply set_eq. intros k.
  rewrite elem_of_dom, elem_of_list_to_set, parallel_lists_lookup.
  pose proof (values_of_nil_iff k list_a list_b Hlen) as Hnil.
  destruct (values_of k list_a list_b) as [|v g].
  - split; [intros [? ?]; done | intros Hin; by apply Hnil in Hin].
  - split; [intros _ | by eauto].
    destruct (decide (k ∈ list_a)) as [|Hn]; [done|]. by apply Hnil in Hn.
Qed.

End ValuesOf.

(** C3. For two parallel sequences of equal length, the grouped index has
    exactly the distinct keys, and maps each key to the values that stood
    next to it, in their original relative order (a subsequence of the values,
    made of the values at the positions of the key). In particular the keys
    a, b, a with the values 1, 2, 3 give a to (1, 3) and b to (2). *)
Theorem parallel_lists_to_tuple_dict_groups :
  (∀ (K V : Type) (EqK : EqDecision K) (CntK : Countable K)
     (list_a : list K) (list_b : list V),
      length list_a = length list_b →
      dom (parallel_lists_to_tuple_dict list_a list_b) = list_to_set list_a
      ∧ (∀ k, k ∈ list_a →
           parallel_lists_to_tuple_dict list_a list_b !! k
           = Some (values_of k list_a list_b))
      ∧ (∀ k, values_of k list_a list_b `sublist_of` list_b)
      ∧ (∀ k v, v ∈ values_of k list_a list_b ↔
                ∃ i : nat, list_a !! i = Some k ∧ list_b !! i = Some v))
  ∧ parallel_lists_to_tuple_dict ["a"; "b"; "a"] [1; 2; 3]
    = {[ "a" := [1; 3]; "b" := [2] ]}.
Proof.
  split.
  - intros K V EqK CntK list_a list_b Hlen. repeat split.
    + by apply parallel_lists_dom.
    + intros k Hin. rewrite parallel_lists_lookup.
      pose proof (values_of_nil_iff k list_a list_b Hlen) as Hnil.
      destruct (values_of k list_a list_b); [|done].
      exfalso. by apply Hnil.
    + intros k. by apply values_of_sublist.
    + apply elem_of_values_of.
    + apply elem_of_values_of.
  - vm_compute. reflexivity.
Qed.

(** The example of the source's docstring, from the theorem. *)
Lemma parallel_lists_docstring_example :
  let list_a := ["key_a"; "key_b"; "key_a"; "key_a"; "key_c"; "key_b"] in
  let list_b := [0; 1; 2; 3; 4; 5] in
  length list_a = length list_b
  ∧ parallel_lists_to_tuple_dict list_a list_b !! "key_a" = Some [0; 2; 3]
  ∧ parallel_lists_to_tuple_dict list_a list_b !! "key_b" = Some [1; 5]
  ∧ parallel_lists_to_tuple_dict list_a list_b !! "key_c" = Some [4]
  ∧ dom (parallel_lists_to_tuple_dict list_a list_b)
    = list_to_set ["key_a"; "key_b"; "key_a"; "key_a"; "key_c"; "key_b"].
Proof.
  intros list_a list_b.
  destruct (proj1 parallel_lists_to_tuple_dict_groups _ _ _ _ list_a list_b eq_refl)
    as (Hdom & Hlook & _ & _).
  split; [reflexivity|].
  split; [rewrite Hlook; [reflexivity | set_solver]|].
  split; [rewrite Hlook; [reflexivity | set_solver]|].
  split; [rewrite Hlook; [reflexivity | set_solver]|].
  exact Hdom.
Defined.

(** ** The assembly of rows *)

Lemma bind_Ok_inv {A B} (f : A → result B) (m : result A) (b : B) :
  (m ≫= f) = Ok b → ∃ a, m = Ok a ∧ f a = Ok b.
Proof. destruct m as [a|e]; [eauto | discriminate]. Qed.

Lemma getitem_Ok {V} (d : gmap string V) (k : string) (v : V) :
  Py.getitem d k = Ok v ↔ d !! k = Some v.
Proof.
  unfold Py.getitem. destruct (d !! k); split; intros E; by inversion E.
Qed.

Lemma alter_last_snoc {A} (f : A → A) (l : list A) (x : A) :
  alter_last f (l ++ [x]) = l ++ [f x].
Proof.
  induction l as [|y l IH]; [done|].
  simpl. rewrite IH. by destruct l.
Qed.

Lemma alter_last_compose {A} (f g : A → A) (l : list A) :
  alter_last f (alter_last g l) = alter_last (f ∘ g) l.
Proof.
  destruct (decide (l = [])) as [->|Hne]; [done|].
  destruct (exists_last Hne) as (l' & x & ->).
  by rewrite !alter_last_snoc.
Qed.

Lemma alter_last_ext {A} (f g : A → A) (l : list A) :
  (∀ x, f x = g x) → alter_last f l = alter_last g l.
Proof.
  intros Hfg. induction l as [|x l IH]; [done|].
  simpl. rewrite IH, Hfg. done.
Qed.

Lemma alter_last_id {A} (l : list A) : alter_last id l = l.
Proof.
  induction l as [|x l IH]; [done|]. simpl. rewrite IH. by destruct l.
Qed.

Lemma blocks_primary_rows (rows : list Row) :
  (blocks rows).*1 = filter (λ d, is_primary d = true) rows.
Proof.
  induction rows as [|d rest IH]; [done|].
  simpl. rewrite filter_cons.
  destruct (is_primary d); case_decide; try done.
  cbn [fmap list_fmap fst]. f_equal. exact IH.
Qed.

Section AssemblerFacts.

Context {CourseCode : Type}.
Variable CourseCode_init : string → result CourseCode.

Implicit Types (base : list (Course CourseCode)) (d : Row) (rows : list Row).

Local Abbreviation step := (process_row CourseCode_init).
Local Abbreviation steps := (process_rows CourseCode_init).
Local Abbreviation record := (new_course CourseCode_init).

Lemma meetings_extend_nil (c : Course CourseCode) : meetings_extend [] c = c.
Proof. destruct c. unfold meetings_extend. simpl. by rewrite app_nil_r. Qed.

Lemma meetings_extend_append (m : CourseMeeting) (ms : list CourseMeeting)
    (c : Course CourseCode) :
  meetings_extend ms (meetings_append m c) = meetings_extend (m :: ms) c.
Proof.
  unfold meetings_extend, meetings_append. simpl. by rewrite <- app_assoc.
Qed.

(** A primary row: a new record goes to the end of the list. *)
Lemma process_row_primary base d (code : string) :
  d !! "course" = Some (Some code) → code ≠ EmptyString →
  step base d = (c ← record d code; Ok (base ++ [c])).
Proof.
  intros Hc Hne. unfold process_row, Py.getitem. rewrite Hc.
  destruct code; [done|]. reflexivity.
Qed.

(** A continuation row: its meeting, if it yields one, goes to the last record. *)
Lemma process_row_continuation base d :
  d !! "course" = Some None ∨ d !! "course" = Some (Some EmptyString) →
  step base d =
    (meeting ← build_meeting d;
     match meeting with
     | Some m =>
         match base with
         | [] => Err IndexError
         | _ => Ok (alter_last (meetings_append m) base)
         end
     | None => Ok base
     end).
Proof.
  intros [Hc|Hc]; unfold process_row, Py.getitem; by rewrite Hc.
Qed.

Lemma is_primary_true d :
  is_primary d = true ↔
  ∃ code, d !! "course" = Some (Some code) ∧ code ≠ EmptyString.
Proof.
  unfold is_primary. split.
  - destruct (d !! "course") as [[[|a s]|]|]; try discriminate.
    intros _. by eexists.
  - intros (code & -> & Hne). by destruct code.
Qed.

Lemma is_primary_false_ok d base base' :
  is_primary d = false → step base d = Ok base' →
  d !! "course" = Some None ∨ d !! "course" = Some (Some EmptyString).
Proof.
  unfold is_primary, process_row, Py.getitem.
  destruct (d !! "course") as [[[|a s]|]|]; simpl; try discriminate; auto.
Qed.

Lemma process_rows_app base rows1 rows2 :
  steps base (rows1 ++ rows2)
  = (base' ← steps base rows1; steps base' rows2).
Proof.
  revert base. induction rows1 as [|d rows1 IH]; intros base; [done|].
  simpl. destruct (step base d) as [base1|e]; simpl; [apply IH | done].
Qed.

(** The loop against the blocks: the records already in the list stay,
    the last of them takes the meetings of the leading continuation rows, and
    one record per block follows. *)
Lemma process_rows_blocks rows base (res : list (Course CourseCode)) :
  steps base rows = Ok res →
  ∃ cs, res = alter_last (meetings_extend (flat_map row_meetings (continuation_rows rows)))
                base ++ cs
        ∧ Forall2 (λ blk c, block_record CourseCode_init blk = Ok c) (blocks rows) cs.
Proof.
  revert base. induction rows as [|d rest IH]; intros base Hrun.
  - exists []. simpl in *. inversion Hrun; subst.
    rewrite app_nil_r. split; [|constructor].
    rewrite (alter_last_ext _ id) by apply meetings_extend_nil.
    by rewrite alter_last_id.
  - simpl in Hrun. apply bind_Ok_inv in Hrun as (base1 & Hstep & Hrest).
    destruct (IH _ Hrest) as (cs & -> & Hcs). clear IH Hrest.
    destruct (is_primary d) eqn:Hprim.
    + apply is_primary_true in Hprim as (code & Hcode & Hne).
      rewrite (process_row_primary _ _ code) in Hstep by done.
      apply bind_Ok_inv in Hstep as (c & Hc & Heq). inversion Heq; subst base1.
      exists (meetings_extend (flat_map row_meetings (continuation_rows rest)) c :: cs).
      simpl. rewrite (proj2 (is_primary_true d)) by eauto.
      rewrite alter_last_snoc. simpl. split.
      * rewrite (alter_last_ext _ id) by apply meetings_extend_nil.
        rewrite alter_last_id. by rewrite <- app_assoc.
      * constructor; [|done]. unfold block_record. simpl. rewrite Hcode.
        by rewrite Hc.
    + pose proof (is_primary_false_ok _ _ _ Hprim Hstep) as Hcell.
      rewrite process_row_continuation in Hstep by done.
      apply bind_Ok_inv in Hstep as (meeting & Hm & Heq).
      exists cs. simpl. rewrite Hprim. split; [|done].
      f_equal. cbn [flat_map]. unfold row_meetings at 2. rewrite Hm.
      destruct meeting as [m|].
      * destruct base as [|c0 base0]; [discriminate|].
        assert (base1 = alter_last (meetings_append m) (c0 :: base0)) as ->
          by congruence.
        rewrite alter_last_compose.
        apply alter_last_ext. intros c. simpl. apply meetings_extend_append.
      * by inversion Heq; subst.
Qed.

End AssemblerFacts.

Section RowFacts.

Context {CourseCode : Type}.
Variable CourseCode_init : string → result CourseCode.

Implicit Types (base : list (Course CourseCode)) (d : Row) (rows : list Row).

Lemma is_continuation_cell d :
  is_continuation d = true ↔
  d !! "course" = Some None ∨ d !! "course" = Some (Some EmptyString).
Proof.
  unfold is_continuation.
  destruct (d !! "course") as [[[|a s]|]|]; simpl; split; intros Hc; auto;
    try discriminate; destruct Hc; discriminate.
Qed.

(** What a record built by [new_course] holds. *)
Lemma new_course_Ok_inv d (code : string) (c : Course CourseCode) :
  new_course CourseCode_init d code = Ok c →
  ∃ cred meeting instructor,
    d !! "cred" = Some cred ∧ parse_credits cred = Ok (credits c)
    ∧ build_meeting d = Ok meeting
    ∧ meetings c = match meeting with Some m => [m] | None => [] end
    ∧ d !! "sect" = Some (section_number c)
    ∧ d !! "course title & textbook(s)" = Some (title c)
    ∧ d !! "ge" = Some (gen_ed_credit c)
    ∧ d !! "wm" = Some (gordon_rule c)
    ∧ d !! "instructor(s)" = Some instructor
    ∧ split_instructors instructor = Ok (instructors c)
    ∧ CourseCode_init code = Ok (course_code c).
Proof.
  unfold new_course. intros Hnew.
  apply bind_Ok_inv in Hnew as (cred & Hcred & Hnew).
  apply bind_Ok_inv in Hnew as (n & Hn & Hnew).
  apply bind_Ok_inv in Hnew as (meeting & Hm & Hnew).
  apply bind_Ok_inv in Hnew as (sect & Hsect & Hnew).
  apply bind_Ok_inv in Hnew as (ttl & Httl & Hnew).
  apply bind_Ok_inv in Hnew as (ge & Hge & Hnew).
  apply bind_Ok_inv in Hnew as (wm & Hwm & Hnew).
  apply bind_Ok_inv in Hnew as (instructor & Hi & Hnew).
  apply bind_Ok_inv in Hnew as (names & Hnames & Hnew).
  apply bind_Ok_inv in Hnew as (cc & Hcc & Hnew).
  inversion Hnew; subst c; simpl.
  apply getitem_Ok in Hcred, Hsect, Httl, Hge, Hwm, Hi.
  exists cred, meeting, instructor. repeat split; done.
Qed.

(** The credits cell is read first: its exception is the row's. *)
Lemma new_course_credits_error d (code : string) (cred : option string) (e : exn) :
  d !! "cred" = Some cred → parse_credits cred = Err e →
  new_course CourseCode_init d code = Err e.
Proof.
  intros Hcred Hparse. unfold new_course, Py.getitem. rewrite Hcred. simpl.
  by rewrite Hparse.
Qed.

(** The course code is made last: when every cell is read without an
    exception, the constructor's exception is the row's. *)
Lemma new_course_code_error d (code : string) (e : exn) :
  is_ok (new_course (λ _, Ok tt) d code) = true → CourseCode_init code = Err e →
  new_course CourseCode_init d code = Err e.
Proof.
  unfold new_course. intros Hok Hcode.
  destruct (Py.getitem d "cred") as [cred|]; [simpl in *|done].
  destruct (parse_credits cred); [simpl in *|done].
  destruct (build_meeting d); [simpl in *|done].
  destruct (Py.getitem d "sect"); [simpl in *|done].
  destruct (Py.getitem d "course title & textbook(s)"); [simpl in *|done].
  destruct (Py.getitem d "ge"); [simpl in *|done].
  destruct (Py.getitem d "wm"); [simpl in *|done].
  destruct (Py.getitem d "instructor(s)") as [instructor|]; [simpl in *|done].
  destruct (split_instructors instructor); [simpl in *|done].
  by rewrite Hcode.
Qed.

(** An exception in a row ends the loop with that exception. *)
Lemma process_rows_row_error base base1 rows1 d rows2 (e : exn) :
  process_rows CourseCode_init base rows1 = Ok base1 →
  process_row CourseCode_init base1 d = Err e →
  process_rows CourseCode_init base (rows1 ++ d :: rows2) = Err e.
Proof.
  intros H1 Hd. rewrite process_rows_app, H1. simpl. by rewrite Hd.
Qed.

(** Continuation rows that yield no meeting leave the list as it is. *)
Lemma process_rows_dropped base rows :
  Forall (λ r, is_continuation r = true ∧ build_meeting r = Ok None) rows →
  process_rows CourseCode_init base rows = Ok base.
Proof.
  induction 1 as [|r rows [Hc Hm] _ IH]; [done|].
  simpl. apply is_continuation_cell in Hc.
  rewrite process_row_continuation, Hm by done. simpl. exact IH.
Qed.

Lemma process_row_nonempty base base' d :
  base ≠ [] → process_row CourseCode_init base d = Ok base' → base' ≠ [].
Proof.
  intros Hne Hstep. destruct (is_primary d) eqn:Hprim.
  - apply is_primary_true in Hprim as (code & Hcode & Hcne).
    rewrite (process_row_primary _ _ _ code) in Hstep by done.
    apply bind_Ok_inv in Hstep as (c & _ & Heq). inversion Heq.
    by destruct base.
  - pose proof (is_primary_false_ok _ _ _ _ Hprim Hstep) as Hcell.
    rewrite process_row_continuation in Hstep by done.
    apply bind_Ok_inv in Hstep as ([m|] & _ & Heq).
    + destruct base as [|c0 [|c1 base]]; [done| |]; inversion Heq; done.
    + by inversion Heq; subst.
Qed.

(** The loop returns when every row is read without an exception and no
    meeting comes before the first record. *)
Lemma process_rows_succeeds base rows :
  Forall (λ r, row_parses CourseCode_init r = true) rows →
  base ≠ [] ∨ flat_map row_meetings (continuation_rows rows) = [] →
  ∃ res, process_rows CourseCode_init base rows = Ok res.
Proof.
  intros Hall. revert base. induction Hall as [|d rows Hd _ IH]; intros base Hhead.
  - by exists base.
  - simpl. unfold row_parses in Hd.
    destruct (d !! "course") as [cell|] eqn:Hcell; [|done].
    destruct (is_primary d) eqn:Hprim.
    + apply is_primary_true in Hprim as (code & Hcode & Hne).
      rewrite (process_row_primary _ _ _ code) by done.
      rewrite Hcell in Hcode. inversion Hcode; subst cell.
      destruct code as [|a s]; [done|].
      destruct (new_course CourseCode_init d (String a s)) as [c|]; [simpl|done].
      apply IH. left. by destruct base.
    + assert (is_continuation d = true) as Hcont.
      { unfold is_primary, is_continuation in *. rewrite Hcell in *.
        by rewrite Hprim. }
      assert (is_ok (build_meeting d) = true) as Hm.
      { unfold is_primary in Hprim. rewrite Hcell in Hprim.
        by destruct cell as [[|a s]|]. }
      apply is_continuation_cell in Hcont.
      rewrite process_row_continuation by done.
      simpl in Hhead. rewrite Hprim in Hhead. simpl in Hhead.
      unfold row_meetings in Hhead at 1.
      destruct (build_meeting d) as [[m|]|]; [| |done]; simpl in *.
      * destruct Hhead as [Hne|?]; [|done].
        destruct base as [|c0 base]; [done|].
        apply IH. left.
        destruct base; done.
      * apply IH. exact Hhead.
Qed.

End RowFacts.

(** C1. In the loop of [Department.force_load], a row whose course-code
    cell is not empty appends a new course record to the list; a row whose
    course-code cell is empty is a continuation row: it either yields no
    meeting and leaves the list as it is, or its meeting is appended to the
    meetings of the last record of the list. So whenever the assembly returns,
    it returns one record per primary row, in the order of the primary rows,
    each holding the meeting of its primary row followed by the meetings of
    the continuation rows up to the next primary row. *)
Theorem assemble_blocks :
  ∀ (CourseCode : Type) (CourseCode_init : string → result CourseCode),
    (∀ (base : list (Course CourseCode)) d base',
        is_primary d = true →
        process_row CourseCode_init base d = Ok base' →
        ∃ code c, d !! "course" = Some (Some code)
                  ∧ new_course CourseCode_init d code = Ok c
                  ∧ base' = base ++ [c])
    ∧ (∀ (base : list (Course CourseCode)) d base',
        is_primary d = false →
        process_row CourseCode_init base d = Ok base' →
        is_continuation d = true
        ∧ ((row_meetings d = [] ∧ base' = base)
           ∨ (∃ m earlier c, row_meetings d = [m] ∧ base = earlier ++ [c]
                             ∧ base' = earlier ++ [meetings_append m c])))
    ∧ (∀ rows cs,
        assemble CourseCode_init rows = Ok cs →
        Forall2 (λ blk c, block_record CourseCode_init blk = Ok c) (blocks rows) cs
        ∧ (blocks rows).*1 = filter (λ d, is_primary d = true) rows
        ∧ length cs = length (filter (λ d, is_primary d = true) rows)).
Proof.
  intros CourseCode CourseCode_init. split; [|split].
  - intros base d base' Hprim Hstep.
    apply is_primary_true in Hprim as (code & Hcode & Hne).
    rewrite (process_row_primary _ _ _ code) in Hstep by done.
    apply bind_Ok_inv in Hstep as (c & Hc & Heq).
    exists code, c. by inversion Heq.
  - intros base d base' Hprim Hstep.
    pose proof (is_primary_false_ok _ _ _ _ Hprim Hstep) as Hcell.
    split; [by apply is_continuation_cell|].
    rewrite process_row_continuation in Hstep by done.
    apply bind_Ok_inv in Hstep as (meeting & Hm & Heq).
    unfold row_meetings. rewrite Hm. destruct meeting as [m|].
    + right. destruct (decide (base = [])) as [->|Hne]; [discriminate|].
      destruct (exists_last Hne) as (earlier & c & ->).
      exists m, earlier, c. repeat split.
      destruct (earlier ++ [c]) eqn:E; [by destruct earlier|].
      rewrite <- E in Heq. rewrite alter_last_snoc in Heq. by inversion Heq.
    + left. by inversion Heq.
  - intros rows cs Hrun. unfold assemble in Hrun.
    apply process_rows_blocks in Hrun as (cs' & -> & Hcs). simpl.
    split; [done|]. split; [apply blocks_primary_rows|].
    rewrite <- blocks_primary_rows, length_fmap.
    symmetry. by eapply Forall2_length.
Qed.

(** A course row and three continuation rows, then a second course. *)
Lemma assemble_blocks_sample :
  let rows := [Sample.mac2313; Sample.cont_T; Sample.cont_tba; Sample.cont_note;
               Sample.var_row] in
  let cs := [Sample.course ("MAC", "2313") "1" 4 [Sample.meeting "M W F"; Sample.meeting "T"];
             Sample.course ("MAC", "4905") "2" (-1) []] in
  assemble Sample.code_init rows = Ok cs
  ∧ Forall2 (λ blk c, block_record Sample.code_init blk = Ok c) (blocks rows) cs
  ∧ length cs = length (filter (λ d, is_primary d = true) rows).
Proof.
  intros rows cs.
  assert (assemble Sample.code_init rows = Ok cs) as Hrun by (vm_compute; reflexivity).
  split; [exact Hrun|].
  destruct (proj2 (proj2 (assemble_blocks _ Sample.code_init)) rows cs Hrun)
    as (Hblocks & _ & Hlen).
  split; [exact Hblocks | exact Hlen].
Defined.

(** The assembly returns when every row is read without an exception and
    the first row is a primary row. *)
Lemma assemble_succeeds {CourseCode : Type}
    (CourseCode_init : string → result CourseCode) (d : Row) (rows : list Row) :
  is_primary d = true →
  Forall (λ r, row_parses CourseCode_init r = true) (d :: rows) →
  ∃ cs, assemble CourseCode_init (d :: rows) = Ok cs.
Proof.
  intros Hprim Hall. apply process_rows_succeeds; [done|].
  right. simpl. by rewrite Hprim.
Qed.

(** ** Credits *)

Lemma chr_lower_v (c : ascii) :
  Py.chr_lower c = "v"%char → c = "v"%char ∨ c = "V"%char.
Proof.
  destruct c as [[] [] [] [] [] [] [] []]; vm_compute; intros E;
    first [discriminate E | by left | by right].
Qed.

Lemma chr_lower_a (c : ascii) :
  Py.chr_lower c = "a"%char → c = "a"%char ∨ c = "A"%char.
Proof.
  destruct c as [[] [] [] [] [] [] [] []]; vm_compute; intros E;
    first [discriminate E | by left | by right].
Qed.

Lemma chr_lower_r (c : ascii) :
  Py.chr_lower c = "r"%char → c = "r"%char ∨ c = "R"%char.
Proof.
  destruct c as [[] [] [] [] [] [] [] []]; vm_compute; intros E;
    first [discriminate E | by left | by right].
Qed.

(** The spellings of "var": three letters, each in either case. *)
Lemma lower_var_inv (s : string) :
  Py.lower s = "var" →
  ∃ c1 c2 c3, s = String c1 (String c2 (String c3 EmptyString))
              ∧ (c1 = "v"%char ∨ c1 = "V"%char)
              ∧ (c2 = "a"%char ∨ c2 = "A"%char)
              ∧ (c3 = "r"%char ∨ c3 = "R"%char).
Proof.
  destruct s as [|c1 [|c2 [|c3 [|c4 s]]]]; simpl; intros E; try discriminate E.
  injection E as E1 E2 E3.
  exists c1, c2, c3. split; [done|].
  split; [by apply chr_lower_v|]. split; [by apply chr_lower_a | by apply chr_lower_r].
Qed.

Lemma parse_credits_Some (s : string) :
  parse_credits (Some s)
  = if Py.contains "var" (Py.lower s) then Ok (-1) else Py.int s.
Proof.
  unfold parse_credits. simpl. by destruct (Py.contains "var" (Py.lower s)).
Qed.

Lemma build_meeting_insert_cred (d : Row) (cell : option string) :
  build_meeting (<["cred" := cell]> d) = build_meeting d.
Proof.
  unfold build_meeting, Py.getitem. by rewrite !lookup_insert_ne by done.
Qed.

(** C4. The credits of a primary row's record are the integer the credit
    cell parses to, unless the lowercased cell contains "var": then they are
    the sentinel -1, whether or not the cell would parse. A cell that neither
    contains "var" nor parses raises the parse's exception. "VAR" in any case
    gives the sentinel, where a numeric parse would have failed. Every cell
    whose lowercased text contains "var" parses to the sentinel, never to an
    exception; and putting such a cell in place of the credit cell of a
    primary row that is accepted gives a row that is accepted too, with the
    same record but for the credits, which are the sentinel. *)
Theorem credits_var_sentinel :
  ∀ (CourseCode : Type) (CourseCode_init : string → result CourseCode),
    (∀ (base : list (Course CourseCode)) d base' (s : string),
        is_primary d = true → d !! "cred" = Some (Some s) →
        process_row CourseCode_init base d = Ok base' →
        ∃ c, base' = base ++ [c]
             ∧ if Py.contains "var" (Py.lower s) then credits c = -1
               else Py.int s = Ok (credits c))
    ∧ (∀ (base : list (Course CourseCode)) d (s : string) (e : exn),
        is_primary d = true → d !! "cred" = Some (Some s) →
        Py.contains "var" (Py.lower s) = false → Py.int s = Err e →
        process_row CourseCode_init base d = Err e)
    ∧ (∀ s : string,
        Py.lower s = "var" →
        parse_credits (Some s) = Ok (-1) ∧ is_ok (Py.int s) = false)
    ∧ (∀ s : string,
        Py.contains "var" (Py.lower s) = true → parse_credits (Some s) = Ok (-1))
    ∧ (∀ (base : list (Course CourseCode)) d (c0 : Course CourseCode) (s : string),
        is_primary d = true →
        process_row CourseCode_init base d = Ok (base ++ [c0]) →
        Py.contains "var" (Py.lower s) = true →
        process_row CourseCode_init base (<["cred" := Some s]> d)
        = Ok (base ++ [{| course_code := course_code c0;
                          section_number := section_number c0;
                          title := title c0;
                          credits := -1;
                          meetings := meetings c0;
                          gen_ed_credit := gen_ed_credit c0;
                          gordon_rule := gordon_rule c0;
                          instructors := instructors c0 |}])).
Proof.
  intros CourseCode CourseCode_init. split; [|split; [|split; [|split]]].
  - intros base d base' s Hprim Hcred Hstep.
    apply is_primary_true in Hprim as (code & Hcode & Hne).
    rewrite (process_row_primary _ _ _ code) in Hstep by done.
    apply bind_Ok_inv in Hstep as (c & Hc & Heq).
    exists c. split; [by inversion Heq|].
    apply new_course_Ok_inv in Hc as (cred & _ & _ & Hcred' & Hparse & _).
    rewrite Hcred in Hcred'. inversion Hcred'; subst cred.
    rewrite parse_credits_Some in Hparse.
    destruct (Py.contains "var" (Py.lower s)); [by inversion Hparse | done].
  - intros base d s e Hprim Hcred Hvar Hint.
    apply is_primary_true in Hprim as (code & Hcode & Hne).
    rewrite (process_row_primary _ _ _ code) by done.
    rewrite (new_course_credits_error _ _ _ (Some s) e); [done|done|].
    by rewrite parse_credits_Some, Hvar.
  - intros s Hs. split.
    + by rewrite parse_credits_Some, Hs.
    + apply lower_var_inv in Hs as (c1 & c2 & c3 & -> & [-> | ->] & [-> | ->] & [-> | ->]);
        reflexivity.
  - intros s Hvar. by rewrite parse_credits_Some, Hvar.
  - intros base d c0 s Hprim Hstep Hvar.
    apply is_primary_true in Hprim as (code & Hcode & Hne).
    rewrite (process_row_primary _ _ _ code) in Hstep by done.
    apply bind_Ok_inv in Hstep as (c & Hc & Heq).
    assert (c = c0) as -> by (inversion Heq as [Happ]; by apply app_inj_tail in Happ as [_ ?]).
    apply new_course_Ok_inv in Hc
      as (cred & meeting & instructor & _ & _ & Hmeet & Hms & Hsect & Htitle & Hge & Hwm
          & Hinstr & Hsplit & Hcc).
    rewrite (process_row_primary _ _ _ code) by (by rewrite ?lookup_insert_ne).
    unfold new_course, Py.getitem. rewrite lookup_insert_eq.
    cbn [mbind result_bind]. rewrite parse_credits_Some, Hvar.
    rewrite build_meeting_insert_cred, Hmeet.
    rewrite !lookup_insert_ne by done.
    rewrite Hsect, Htitle, Hge, Hwm, Hinstr. cbn [mbind result_bind].
    rewrite Hsplit, Hcc. cbn [mbind result_bind]. by rewrite Hms.
Qed.

(** A course with variable credits, and one with four; a credit cell that
    holds more than the token; and the course with four credits once its
    credit cell is such a text. *)
Lemma credits_var_sentinel_sample :
  (is_primary Sample.var_row = true
   ∧ Sample.var_row !! "cred" = Some (Some "VAR")
   ∧ process_row Sample.code_init [] Sample.var_row
     = Ok [Sample.course ("MAC", "4905") "2" (-1) []])
  ∧ (∃ c, [Sample.course ("MAC", "4905") "2" (-1) []] = [] ++ [c] ∧ credits c = -1)
  ∧ (∃ c, [Sample.course ("MAC", "2313") "1" 4 [Sample.meeting "M W F"]] = [] ++ [c]
          ∧ Py.int "4" = Ok (credits c))
  ∧ (Py.contains "var" (Py.lower "1 to 3 VARIABLE") = true
     ∧ is_ok (Py.int "1 to 3 VARIABLE") = false
     ∧ parse_credits (Some "1 to 3 VARIABLE") = Ok (-1))
  ∧ process_row Sample.code_init [] (<["cred" := Some "1 to 3 VARIABLE"]> Sample.mac2313)
    = Ok [Sample.course ("MAC", "2313") "1" (-1) [Sample.meeting "M W F"]].
Proof.
  split; [repeat split; vm_compute; reflexivity|]. split; [|split; [|split]].
  - exact (proj1 (credits_var_sentinel _ Sample.code_init) [] Sample.var_row _ "VAR"
             eq_refl eq_refl eq_refl).
  - exact (proj1 (credits_var_sentinel _ Sample.code_init) [] Sample.mac2313 _ "4"
             eq_refl eq_refl eq_refl).
  - split; [reflexivity|]. split; [reflexivity|].
    exact (proj1 (proj2 (proj2 (proj2 (credits_var_sentinel _ Sample.code_init))))
             "1 to 3 VARIABLE" eq_refl).
  - exact (proj2 (proj2 (proj2 (proj2 (credits_var_sentinel _ Sample.code_init))))
             [] Sample.mac2313
             (Sample.course ("MAC", "2313") "1" 4 [Sample.meeting "M W F"])
             "1 to 3 VARIABLE" eq_refl eq_refl eq_refl).
Defined.

(** ** Meetings *)

Lemma build_meeting_day (d : Row) (day : option string) :
  d !! "day(s)" = Some day →
  build_meeting d =
    match day with
    | Some (String _ _ as s) =>
        if Py.contains "tba" (Py.lower s) then Ok None
        else
          periods ← Py.getitem d "period";
          building ← Py.getitem d "bldg";
          room ← Py.getitem d "room";
          Ok (Some {| days := day; periods := periods;
                      building := building; room := room |})
    | _ => Ok None
    end.
Proof.
  intros Hday. unfold build_meeting, Py.getitem. rewrite Hday.
  destruct day as [[|a s]|]; reflexivity.
Qed.

(** C5. A row yields a meeting, built from its day, period, building and
    room cells, exactly when its day cell is not empty and the lowercased cell
    does not contain "tba"; otherwise it yields none, without an exception. A
    continuation row that yields no meeting leaves the list as it is, and the
    record of a primary row that yields none has no meetings. *)
Theorem build_meeting_iff :
  ∀ (CourseCode : Type) (CourseCode_init : string → result CourseCode),
    (∀ d (s : string) periods building room,
        d !! "day(s)" = Some (Some s) → s ≠ EmptyString →
        Py.contains "tba" (Py.lower s) = false →
        d !! "period" = Some periods → d !! "bldg" = Some building →
        d !! "room" = Some room →
        build_meeting d = Ok (Some {| days := Some s; periods := periods;
                                      building := building; room := room |}))
    ∧ (∀ d m,
        build_meeting d = Ok (Some m) →
        ∃ s : string, d !! "day(s)" = Some (Some s) ∧ s ≠ EmptyString
                      ∧ Py.contains "tba" (Py.lower s) = false
                      ∧ days m = Some s ∧ d !! "period" = Some (periods m)
                      ∧ d !! "bldg" = Some (building m) ∧ d !! "room" = Some (room m))
    ∧ (∀ d day,
        d !! "day(s)" = Some day →
        match day with
        | Some s => s = EmptyString ∨ Py.contains "tba" (Py.lower s) = true
        | None => True
        end →
        build_meeting d = Ok None)
    ∧ (∀ (base : list (Course CourseCode)) d,
        is_continuation d = true → build_meeting d = Ok None →
        process_row CourseCode_init base d = Ok base)
    ∧ (∀ (base : list (Course CourseCode)) d base',
        is_primary d = true → build_meeting d = Ok None →
        process_row CourseCode_init base d = Ok base' →
        ∃ c, base' = base ++ [c] ∧ meetings c = []).
Proof.
  intros CourseCode CourseCode_init. split; [|split; [|split; [|split]]].
  - intros d s periods building room Hday Hne Htba Hp Hb Hr.
    rewrite (build_meeting_day d (Some s)) by done.
    destruct s as [|a s]; [done|]. rewrite Htba.
    unfold Py.getitem. by rewrite Hp, Hb, Hr.
  - intros d m Hm.
    destruct (d !! "day(s)") as [day|] eqn:Hday;
      [|unfold build_meeting, Py.getitem in Hm; by rewrite Hday in Hm].
    rewrite (build_meeting_day d day) in Hm by done.
    destruct day as [[|a s]|]; try discriminate Hm.
    destruct (Py.contains "tba" (Py.lower (String a s))) eqn:Htba; [discriminate Hm|].
    apply bind_Ok_inv in Hm as (p & Hp & Hm).
    apply bind_Ok_inv in Hm as (b & Hb & Hm).
    apply bind_Ok_inv in Hm as (r & Hr & Hm).
    apply getitem_Ok in Hp, Hb, Hr.
    exists (String a s). inversion Hm; subst m; simpl. by repeat split.
  - intros d day Hday Hcase. rewrite (build_meeting_day d day) by done.
    destruct day as [[|a s]|]; try reflexivity.
    destruct Hcase as [?| ->]; done.
  - intros base d Hcont Hm. apply is_continuation_cell in Hcont.
    rewrite process_row_continuation by done. by rewrite Hm.
  - intros base d base' Hprim Hm Hstep.
    apply is_primary_true in Hprim as (code & Hcode & Hne).
    rewrite (process_row_primary _ _ _ code) in Hstep by done.
    apply bind_Ok_inv in Hstep as (c & Hc & Heq).
    exists c. split; [by inversion Heq|].
    apply new_course_Ok_inv in Hc as (cred & meeting & _ & _ & _ & Hm' & -> & _).
    rewrite Hm in Hm'. by inversion Hm'.
Qed.

(** The four cases on the sample rows: a meeting, a to-be-announced
    continuation row, an empty day cell, a primary row without a meeting. *)
Lemma build_meeting_iff_sample :
  build_meeting Sample.cont_T = Ok (Some (Sample.meeting "T"))
  ∧ build_meeting Sample.cont_tba = Ok None
  ∧ build_meeting Sample.cont_note = Ok None
  ∧ process_row Sample.code_init
      [Sample.course ("MAC", "2313") "1" 4 []] Sample.cont_tba
    = Ok [Sample.course ("MAC", "2313") "1" 4 []]
  ∧ process_row Sample.code_init (CourseCode := string * string) [] Sample.cont_tba = Ok []
  ∧ ∃ c, [Sample.course ("MAC", "4905") "2" (-1) []] = [] ++ [c] ∧ meetings c = [].
Proof.
  pose proof (build_meeting_iff _ Sample.code_init) as (Hyes & _ & Hno & Hcont & Hprim).
  split; [|split; [|split; [|split; [|split]]]].
  - apply (Hyes Sample.cont_T "T"); vm_compute; (reflexivity || discriminate).
  - apply (Hno Sample.cont_tba (Some "TBA")); [reflexivity | by right].
  - by apply (Hno Sample.cont_note None).
  - apply Hcont; reflexivity.
  - apply Hcont; reflexivity.
  - apply (Hprim [] Sample.var_row); reflexivity.
Defined.

(** ** Malformed rows *)

Lemma Department_force_load_page {CourseCode : Type}
    (CourseCode_init : string → result CourseCode) (prefix : CourseCode → string)
    (self : Department.t CourseCode) (b : Browser) :
  Department.force_load CourseCode_init prefix self b
  = (course_dicts ← department_pages b (history b) (Department.url self b);
     base_course_list ← assemble CourseCode_init course_dicts;
     Ok (Department.set_course_list prefix self base_course_list),
     visit b (Department.url self b)).
Proof. reflexivity. Qed.

(** C6 (as amended). When a continuation row that yields a meeting comes
    before any primary row, the rows before it being continuation rows
    that yield none, the assembly fails with the built-in IndexError of
    indexing the empty list of records; [force_load] raises it, and the
    department is left as it was. *)
Theorem orphan_continuation_IndexError :
  ∀ (CourseCode : Type) (CourseCode_init : string → result CourseCode)
    (prefix : CourseCode → string) (pre : list Row) (d : Row) (post : list Row)
    (m : CourseMeeting),
    Forall (λ r, is_continuation r = true ∧ build_meeting r = Ok None) pre →
    is_continuation d = true →
    build_meeting d = Ok (Some m) →
    assemble CourseCode_init (pre ++ d :: post) = Err IndexError
    ∧ exc_class IndexError = "IndexError"
    ∧ ∀ (self : Department.t CourseCode) (b : Browser),
        department_pages b (history b) (Department.url self b) = Ok (pre ++ d :: post) →
        Department.force_load CourseCode_init prefix self b
        = (Err IndexError, visit b (Department.url self b)).
Proof.
  intros CourseCode CourseCode_init prefix pre d post m Hpre Hcont Hm.
  assert (assemble CourseCode_init (pre ++ d :: post) = Err IndexError) as Hfail.
  { unfold assemble. apply (process_rows_row_error _ [] []).
    - by apply process_rows_dropped.
    - apply is_continuation_cell in Hcont.
      rewrite process_row_continuation by done. by rewrite Hm. }
  split; [exact Hfail|]. split; [reflexivity|].
  intros self b Hpage. rewrite Department_force_load_page, Hpage. simpl.
  by rewrite Hfail.
Qed.

(** A note row, then a continuation row with a meeting, then a course. *)
Lemma orphan_continuation_sample :
  assemble Sample.code_init [Sample.cont_note; Sample.cont_T; Sample.mac2313]
  = Err IndexError
  ∧ exc_class IndexError = "IndexError".
Proof.
  assert (Forall (λ r, is_continuation r = true ∧ build_meeting r = Ok None)
            [Sample.cont_note]) as Hpre by (repeat constructor).
  destruct (orphan_continuation_IndexError _ Sample.code_init Sample.code_prefix
              [Sample.cont_note] Sample.cont_T [Sample.mac2313] (Sample.meeting "T")
              Hpre eq_refl eq_refl)
    as (Hfail & Hclass & _).
  split; [exact Hfail | exact Hclass].
Defined.

(** C6 as stated fails: the exception raised for a continuation row ahead
    of every primary row is an IndexError, not an
    OrphanContinuationRowError. *)
Lemma orphan_continuation_not_dedicated_error :
  assemble Sample.code_init [Sample.cont_T; Sample.mac2313] = Err IndexError
  ∧ exc_class IndexError ≠ "OrphanContinuationRowError".
Proof. split; [vm_compute; reflexivity | discriminate]. Qed.

(** C7 (as amended). A primary row whose credit cell neither contains
    "var" nor parses raises the ValueError of [int] (an AttributeError when
    the cell is empty), and a primary row whose course code the [CourseCode]
    constructor refuses raises that constructor's exception. The exception
    ends the assembly whatever rows follow, [force_load] raises it, and the
    department keeps the state it had. *)
Theorem unparseable_primary_row_aborts :
  ∀ (CourseCode : Type) (CourseCode_init : string → result CourseCode)
    (prefix : CourseCode → string) (pre : list Row) (d : Row) (post : list Row)
    (base : list (Course CourseCode)) (code : string),
    process_rows CourseCode_init [] pre = Ok base →
    d !! "course" = Some (Some code) → code ≠ EmptyString →
    (∀ s : string,
        d !! "cred" = Some (Some s) →
        Py.contains "var" (Py.lower s) = false → is_ok (Py.int s) = false →
        assemble CourseCode_init (pre ++ d :: post) = Err (ValueError s))
    ∧ (d !! "cred" = Some None →
       assemble CourseCode_init (pre ++ d :: post) = Err (AttributeError "lower"))
    ∧ (∀ e : exn,
        is_ok (new_course (λ _, Ok tt) d code) = true →
        CourseCode_init code = Err e →
        assemble CourseCode_init (pre ++ d :: post) = Err e)
    ∧ (∀ (e : exn) (self : Department.t CourseCode) (b : Browser),
        assemble CourseCode_init (pre ++ d :: post) = Err e →
        department_pages b (history b) (Department.url self b) = Ok (pre ++ d :: post) →
        Department.force_load CourseCode_init prefix self b
        = (Err e, visit b (Department.url self b))).
Proof.
  intros CourseCode CourseCode_init prefix pre d post base code Hpre Hcode Hne.
  assert (∀ e, new_course CourseCode_init d code = Err e →
               assemble CourseCode_init (pre ++ d :: post) = Err e) as Hrow.
  { intros e He. unfold assemble. apply (process_rows_row_error _ [] base); [done|].
    rewrite (process_row_primary _ _ _ code) by done. by rewrite He. }
  split; [|split; [|split]].
  - intros s Hcred Hvar Hint. apply Hrow.
    apply (new_course_credits_error _ _ _ (Some s)); [done|].
    rewrite parse_credits_Some, Hvar. unfold Py.int in *.
    by destruct (Py.int_signed (Py.strip_with Py.int_isspace s)).
  - intros Hcred. apply Hrow.
    by apply (new_course_credits_error _ _ _ None).
  - intros e Hok He. apply Hrow. by apply new_course_code_error.
  - intros e self b Hfail Hpage. rewrite Department_force_load_page, Hpage. simpl.
    by rewrite Hfail.
Qed.

(** A course, then a row with the credits spelled out, then a course; and
    a row whose code the sample constructor refuses. *)
Lemma unparseable_primary_row_sample :
  assemble Sample.code_init [Sample.mac2313; Sample.bad_cred; Sample.mac2313]
  = Err (ValueError "four")
  ∧ assemble Sample.code_init [Sample.mac2313; Sample.bad_code; Sample.mac2313]
    = Err (ValueError "X").
Proof.
  split.
  - apply (proj1 (unparseable_primary_row_aborts _ Sample.code_init Sample.code_prefix
                    [Sample.mac2313] Sample.bad_cred [Sample.mac2313] _ "MAC1140"
                    eq_refl eq_refl ltac:(discriminate)) "four");
      reflexivity.
  - apply (proj1 (proj2 (proj2
             (unparseable_primary_row_aborts _ Sample.code_init Sample.code_prefix
                [Sample.mac2313] Sample.bad_code [Sample.mac2313] _ "X"
                eq_refl eq_refl ltac:(discriminate)))) (ValueError "X"));
      reflexivity.
Defined.

(** C7 as stated fails: the exception of a row with unparseable credits is
    a ValueError, not a RowParseError; the assembly does not return the
    records of the other rows; and whatever the state of the department,
    [force_load] raises, so nothing selects skipping the row. *)
Lemma unparseable_row_never_skipped :
  assemble Sample.code_init [Sample.bad_cred; Sample.mac2313] = Err (ValueError "four")
  ∧ exc_class (ValueError "four") ≠ "RowParseError"
  ∧ assemble Sample.code_init [Sample.mac2313]
    = Ok [Sample.course ("MAC", "2313") "1" 4 [Sample.meeting "M W F"]]
  ∧ ∀ (self : Department.t (string * string)) (b : Browser),
      department_pages b (history b) (Department.url self b)
      = Ok [Sample.bad_cred; Sample.mac2313] →
      (Department.force_load Sample.code_init Sample.code_prefix self b).1
      = Err (ValueError "four").
Proof.
  split; [vm_compute; reflexivity|]. split; [discriminate|].
  split; [vm_compute; reflexivity|].
  intros self b Hpage. rewrite Department_force_load_page, Hpage. reflexivity.
Qed.

(** ** Lazy loading *)

Lemma populations_visit (b : Browser) (url : string) :
  populations (visit b url) = S (populations b).
Proof. unfold populations, visit. simpl. rewrite length_app. simpl. lia. Qed.

(** The contract follows from the shape the two classes share: the test
    of the flag in [auto_load], the one fetch and the final assignment of
    [force_load], and an accessor that reads a field after [auto_load]. *)
Lemma loads_lazily_intro {T V : Type} (loaded : T → bool)
    (force_load auto_load : T → Browser → result T * Browser)
    (get : T → Browser → result (T * V) * Browser)
    (target : T → Browser → string) (value : T → V) :
  (∀ self b, auto_load self b
             = if negb (loaded self) then force_load self b else (Ok self, b)) →
  (∀ self b, (force_load self b).2 = visit b (target self b)) →
  (∀ self b self', (force_load self b).1 = Ok self' → loaded self' = true) →
  (∀ self b, get self b
             = ((auto_load self b).1 ≫= λ self', Ok (self', value self'),
                (auto_load self b).2)) →
  loads_lazily loaded force_load auto_load get.
Proof.
  intros Hauto Hfetch Hflag Hget.
  assert (∀ self b self1 b1,
             auto_load self b = (Ok self1, b1) →
             auto_load self1 b1 = (Ok self1, b1)
             ∧ populations b1 = (populations b + if loaded self then 0 else 1)%nat)
    as Htwice.
  { intros self b self1 b1 Hrun. rewrite Hauto in Hrun.
    destruct (loaded self) eqn:Hl; simpl in Hrun.
    - inversion Hrun; subst self1 b1. rewrite Hauto, Hl. simpl. split; [done|lia].
    - assert (loaded self1 = true) as Hl1
        by (apply (Hflag self b); by rewrite Hrun).
      assert (b1 = visit b (target self b)) as ->
        by (rewrite <- Hfetch; by rewrite Hrun).
      rewrite Hauto, Hl1, populations_visit. simpl. split; [done|lia]. }
  unfold loads_lazily. split; [|split; [|split; [|split; [|split; [|split]]]]].
  - intros self b Hl. by rewrite Hauto, Hl.
  - intros self b Hl. by rewrite Hauto, Hl.
  - intros self b. by rewrite Hfetch, populations_visit.
  - exact Hflag.
  - intros self b. rewrite Hauto. destruct (loaded self); simpl.
    + lia.
    + rewrite Hfetch, populations_visit. lia.
  - exact Htwice.
  - intros self b self1 v1 b1 Hrun. rewrite Hget in Hrun.
    destruct (auto_load self b) as [r b'] eqn:Hrun'. simpl in Hrun.
    inversion Hrun as [[Hr Hb]]. subst b'.
    apply bind_Ok_inv in Hr as (self' & -> & Heq).
    inversion Heq; subst self' v1.
    destruct (Htwice _ _ _ _ Hrun') as [Hagain Hcount].
    split; [|exact Hcount]. by rewrite Hget, Hagain.
Qed.

Section DepartmentLoad.

Context {CourseCode : Type}.
Variable CourseCode_init : string → result CourseCode.
Variable prefix : CourseCode → string.

Implicit Types (self : Department.t CourseCode) (b : Browser).

Lemma Department_force_load_loaded self b self' :
  (Department.force_load CourseCode_init prefix self b).1 = Ok self' →
  Department.loaded self' = true.
Proof.
  rewrite Department_force_load_page. simpl. intros Hload.
  apply bind_Ok_inv in Hload as (rows & _ & Hload).
  apply bind_Ok_inv in Hload as (cl & _ & Hload).
  by inversion Hload.
Qed.

Lemma Department_loads_lazily :
  loads_lazily (T := Department.t CourseCode) Department.loaded
    (Department.force_load CourseCode_init prefix)
    (Department.auto_load CourseCode_init prefix)
    (Department.get_course_list CourseCode_init prefix).
Proof.
  apply (loads_lazily_intro _ _ _ _ Department.url Department.course_list).
  - reflexivity.
  - reflexivity.
  - apply Department_force_load_loaded.
  - intros self b. unfold Department.get_course_list.
    by destruct (Department.auto_load CourseCode_init prefix self b).
Qed.

End DepartmentLoad.

Section ReaderLoad.

Context {CourseCode : Type}.
Variable replace_abbreviations : string → string.
Variable similar_zip : list string → gset string → result (list (string * string)).

Implicit Types (self : CourseReader.t CourseCode) (b : Browser).

Lemma CourseReader_force_load_page self b :
  CourseReader.force_load replace_abbreviations similar_zip self b
  = (parsed ← main_pages b (history b) (CourseReader.base_url self);
     deps ← CourseReader.build_departments replace_abbreviations similar_zip
              (CourseReader.base_url self) parsed.1 parsed.2;
     Ok (CourseReader.set_departments self deps),
     visit b (CourseReader.base_url self)).
Proof. reflexivity. Qed.

Lemma CourseReader_force_load_loaded self b self' :
  (CourseReader.force_load replace_abbreviations similar_zip self b).1 = Ok self' →
  CourseReader.loaded self' = true.
Proof.
  rewrite CourseReader_force_load_page. simpl. intros Hload.
  apply bind_Ok_inv in Hload as (parsed & _ & Hload).
  apply bind_Ok_inv in Hload as (deps & _ & Hload).
  by inversion Hload.
Qed.

Lemma CourseReader_loads_lazily :
  loads_lazily (T := CourseReader.t CourseCode) CourseReader.loaded
    (CourseReader.force_load replace_abbreviations similar_zip)
    (CourseReader.auto_load replace_abbreviations similar_zip)
    (CourseReader.get_departments replace_abbreviations similar_zip).
Proof.
  apply (loads_lazily_intro _ _ _ _ (λ self _, CourseReader.base_url self)
           CourseReader.departments).
  - reflexivity.
  - reflexivity.
  - apply CourseReader_force_load_loaded.
  - intros self b. unfold CourseReader.get_departments.
    by destruct (CourseReader.auto_load replace_abbreviations similar_zip self b).
Qed.

End ReaderLoad.

(** What [force_load] of a department does, written out: the page is
    requested whatever the state of the object, and the outcome is that of
    the request and of the assembly of the rows it answers. *)
Lemma Department_force_load_repopulates {CourseCode : Type}
    (CourseCode_init : string → result CourseCode) (prefix : CourseCode → string)
    (self : Department.t CourseCode) (b : Browser) :
  (Department.force_load CourseCode_init prefix self b).2
  = visit b (Department.url self b)
  ∧ (∀ e, department_pages b (history b) (Department.url self b) = Err e →
          (Department.force_load CourseCode_init prefix self b).1 = Err e)
  ∧ (∀ rows e,
        department_pages b (history b) (Department.url self b) = Ok rows →
        assemble CourseCode_init rows = Err e →
        (Department.force_load CourseCode_init prefix self b).1 = Err e)
  ∧ (∀ rows cl,
        department_pages b (history b) (Department.url self b) = Ok rows →
        assemble CourseCode_init rows = Ok cl →
        ∃ self',
          (Department.force_load CourseCode_init prefix self b).1 = Ok self'
          ∧ Department.loaded self' = true
          ∧ Department.course_list self' = Some cl
          ∧ Department.prefixes self' = collect_prefixes prefix cl
          ∧ same_department self self').
Proof.
  rewrite Department_force_load_page. cbn [fst snd].
  split; [reflexivity|]. split; [|split].
  - intros e ->. reflexivity.
  - intros rows e -> Hasm. cbn [mbind result_bind]. by rewrite Hasm.
  - intros rows cl -> Hasm. cbn [mbind result_bind]. rewrite Hasm.
    eexists. split; [reflexivity|]. by repeat split.
Qed.

Lemma CourseReader_force_load_repopulates {CourseCode : Type}
    (replace_abbreviations : string → string)
    (similar_zip : list string → gset string → result (list (string * string)))
    (self : CourseReader.t CourseCode) (b : Browser) :
  (CourseReader.force_load replace_abbreviations similar_zip self b).2
  = visit b (CourseReader.base_url self)
  ∧ (∀ e, main_pages b (history b) (CourseReader.base_url self) = Err e →
          (CourseReader.force_load replace_abbreviations similar_zip self b).1 = Err e)
  ∧ (∀ department_menu prefix_table e,
        main_pages b (history b) (CourseReader.base_url self)
        = Ok (department_menu, prefix_table) →
        CourseReader.build_departments (CourseCode := CourseCode)
          replace_abbreviations similar_zip
          (CourseReader.base_url self) department_menu prefix_table = Err e →
        (CourseReader.force_load replace_abbreviations similar_zip self b).1 = Err e)
  ∧ (∀ department_menu prefix_table deps,
        main_pages b (history b) (CourseReader.base_url self)
        = Ok (department_menu, prefix_table) →
        CourseReader.build_departments (CourseCode := CourseCode)
          replace_abbreviations similar_zip
          (CourseReader.base_url self) department_menu prefix_table = Ok deps →
        ∃ self',
          (CourseReader.force_load replace_abbreviations similar_zip self b).1 = Ok self'
          ∧ CourseReader.loaded self' = true
          ∧ CourseReader.departments self' = Some deps
          ∧ CourseReader.base_url self' = CourseReader.base_url self).
Proof.
  rewrite CourseReader_force_load_page. cbn [fst snd].
  split; [reflexivity|]. split; [|split].
  - intros e ->. reflexivity.
  - intros department_menu prefix_table e -> Hbuild. cbn [mbind result_bind fst snd].
    by rewrite Hbuild.
  - intros department_menu prefix_table deps -> Hbuild. cbn [mbind result_bind fst snd].
    rewrite Hbuild. eexists. split; [reflexivity|]. by repeat split.
Qed.

(** C2. Both lazily loaded classes, [Department] and [CourseReader], keep
    the contract [loads_lazily]: [auto_load] runs the population exactly when
    the loaded flag is false; [force_load] runs it whatever the flag and, when
    it returns, the flag is set; and once the accessor has returned, calling
    it again returns the same value with no further population, so that two
    calls on a fresh object run the population once. The population of
    [force_load] is a new one: the page of the object is requested from the
    browser, an exception of the request or of the processing of its answer is
    the exception of the call, and otherwise the object returned is loaded and
    holds what was made of that answer (the assembled courses and their
    prefixes; the departments built), with its names and URLs as before;
    nothing of this depends on what the object held, or on its flag, before.
    The accessor returns the value held after its [auto_load]. *)
Theorem lazy_load_once :
  ∀ (CourseCode : Type) (CourseCode_init : string → result CourseCode)
    (prefix : CourseCode → string) (replace_abbreviations : string → string)
    (similar_zip : list string → gset string → result (list (string * string))),
    loads_lazily (T := Department.t CourseCode) Department.loaded
      (Department.force_load CourseCode_init prefix)
      (Department.auto_load CourseCode_init prefix)
      (Department.get_course_list CourseCode_init prefix)
    ∧ loads_lazily (T := CourseReader.t CourseCode) CourseReader.loaded
        (CourseReader.force_load replace_abbreviations similar_zip)
        (CourseReader.auto_load replace_abbreviations similar_zip)
        (CourseReader.get_departments replace_abbreviations similar_zip)
    ∧ (∀ (self : Department.t CourseCode) (b : Browser),
        (Department.force_load CourseCode_init prefix self b).2
        = visit b (Department.url self b)
        ∧ (∀ e, department_pages b (history b) (Department.url self b) = Err e →
                (Department.force_load CourseCode_init prefix self b).1 = Err e)
        ∧ (∀ rows e,
              department_pages b (history b) (Department.url self b) = Ok rows →
              assemble CourseCode_init rows = Err e →
              (Department.force_load CourseCode_init prefix self b).1 = Err e)
        ∧ (∀ rows cl,
              department_pages b (history b) (Department.url self b) = Ok rows →
              assemble CourseCode_init rows = Ok cl →
              ∃ self',
                (Department.force_load CourseCode_init prefix self b).1 = Ok self'
                ∧ Department.loaded self' = true
                ∧ Department.course_list self' = Some cl
                ∧ Department.prefixes self' = collect_prefixes prefix cl
                ∧ same_department self self'))
    ∧ (∀ (self : CourseReader.t CourseCode) (b : Browser),
        (CourseReader.force_load replace_abbreviations similar_zip self b).2
        = visit b (CourseReader.base_url self)
        ∧ (∀ e, main_pages b (history b) (CourseReader.base_url self) = Err e →
                (CourseReader.force_load replace_abbreviations similar_zip self b).1
                = Err e)
        ∧ (∀ department_menu prefix_table e,
              main_pages b (history b) (CourseReader.base_url self)
              = Ok (department_menu, prefix_table) →
              CourseReader.build_departments (CourseCode := CourseCode)
          replace_abbreviations similar_zip
                (CourseReader.base_url self) department_menu prefix_table = Err e →
              (CourseReader.force_load replace_abbreviations similar_zip self b).1
              = Err e)
        ∧ (∀ department_menu prefix_table deps,
              main_pages b (history b) (CourseReader.base_url self)
              = Ok (department_menu, prefix_table) →
              CourseReader.build_departments (CourseCode := CourseCode)
          replace_abbreviations similar_zip
                (CourseReader.base_url self) department_menu prefix_table = Ok deps →
              ∃ self',
                (CourseReader.force_load replace_abbreviations similar_zip self b).1
                = Ok self'
                ∧ CourseReader.loaded self' = true
                ∧ CourseReader.departments self' = Some deps
                ∧ CourseReader.base_url self' = CourseReader.base_url self))
    ∧ (∀ (self1 self2 : Department.t CourseCode) (b : Browser),
        same_department self1 self2 →
        Department.force_load CourseCode_init prefix self1 b
        = Department.force_load CourseCode_init prefix self2 b)
    ∧ (∀ (self1 self2 : CourseReader.t CourseCode) (b : Browser),
        CourseReader.base_url self1 = CourseReader.base_url self2 →
        CourseReader.force_load replace_abbreviations similar_zip self1 b
        = CourseReader.force_load replace_abbreviations similar_zip self2 b)
    ∧ (∀ (self self' : Department.t CourseCode) (b b' : Browser) v,
        Department.get_course_list CourseCode_init prefix self b = (Ok (self', v), b') →
        Department.auto_load CourseCode_init prefix self b = (Ok self', b')
        ∧ Department.loaded self' = true ∧ v = Department.course_list self')
    ∧ (∀ (self self' : CourseReader.t CourseCode) (b b' : Browser) v,
        CourseReader.get_departments replace_abbreviations similar_zip self b
        = (Ok (self', v), b') →
        CourseReader.auto_load replace_abbreviations similar_zip self b = (Ok self', b')
        ∧ CourseReader.loaded self' = true ∧ v = CourseReader.departments self').
Proof.
  intros CourseCode CourseCode_init prefix replace_abbreviations similar_zip.
  split; [apply Department_loads_lazily|].
  split; [apply CourseReader_loads_lazily|].
  split; [apply Department_force_load_repopulates|].
  split; [apply CourseReader_force_load_repopulates|].
  split; [|split; [|split]].
  - intros self1 self2 b (Hn & Ha & Hb & Hu & Hr).
    rewrite !Department_force_load_page.
    unfold Department.url, Department.set_course_list.
    by rewrite Hn, Ha, Hb, Hu, Hr.
  - intros self1 self2 b Hu. rewrite !CourseReader_force_load_page.
    unfold CourseReader.set_departments. by rewrite Hu.
  - intros self self' b b' v. unfold Department.get_course_list.
    destruct (Department.auto_load CourseCode_init prefix self b) as [r b1] eqn:Hauto.
    intros Heq. inversion Heq as [[Hr Hb]]. subst b1.
    apply bind_Ok_inv in Hr as (self1 & -> & Hr). inversion Hr; subst self1 v.
    split; [reflexivity|]. split; [|reflexivity].
    unfold Department.auto_load in Hauto.
    destruct (Department.loaded self) eqn:Hl; cbn [negb] in Hauto.
    + by inversion Hauto; subst.
    + apply (Department_force_load_loaded CourseCode_init prefix self b).
      by rewrite Hauto.
  - intros self self' b b' v. unfold CourseReader.get_departments.
    destruct (CourseReader.auto_load replace_abbreviations similar_zip self b)
      as [r b1] eqn:Hauto.
    intros Heq. inversion Heq as [[Hr Hb]]. subst b1.
    apply bind_Ok_inv in Hr as (self1 & -> & Hr). inversion Hr; subst self1 v.
    split; [reflexivity|]. split; [|reflexivity].
    unfold CourseReader.auto_load in Hauto.
    destruct (CourseReader.loaded self) eqn:Hl; cbn [negb] in Hauto.
    + by inversion Hauto; subst.
    + apply (CourseReader_force_load_loaded replace_abbreviations similar_zip self b).
      by rewrite Hauto.
Qed.

(** Two calls of each accessor on a fresh object: one population. A forced
    load of a department that is loaded and holds no course reads the page
    again and stores its courses. *)
Lemma lazy_load_once_sample :
  let b := Sample.browser [Sample.mac2313; Sample.cont_T] in
  let get := Department.get_course_list Sample.code_init Sample.code_prefix in
  let get' := CourseReader.get_departments (CourseCode := string * string)
                (λ s, s) Sample.similar_zip in
  let stale := Department.set_course_list Sample.code_prefix Sample.math [] in
  let cl := [Sample.course ("MAC", "2313") "1" 4
               [Sample.meeting "M W F"; Sample.meeting "T"]] in
  (∃ self1 v1 b1,
      get Sample.math b = (Ok (self1, v1), b1)
      ∧ get self1 b1 = (Ok (self1, v1), b1)
      ∧ populations b = 0%nat ∧ populations b1 = 1%nat)
  ∧ (∃ self1 v1 b1,
      get' Sample.reader Sample.main_browser = (Ok (self1, v1), b1)
      ∧ get' self1 b1 = (Ok (self1, v1), b1)
      ∧ populations Sample.main_browser = 0%nat ∧ populations b1 = 1%nat)
  ∧ (Department.loaded stale = true ∧ Department.course_list stale = Some []
     ∧ ∃ self',
         (Department.force_load Sample.code_init Sample.code_prefix stale b).1 = Ok self'
         ∧ Department.loaded self' = true
         ∧ Department.course_list self' = Some cl
         ∧ Department.prefixes self' = collect_prefixes Sample.code_prefix cl
         ∧ same_department stale self').
Proof.
  intros b get get' stale cl.
  destruct (lazy_load_once _ Sample.code_init Sample.code_prefix (λ s, s)
              Sample.similar_zip) as (HD & HR & HDforce & _).
  split; [|split].
  - destruct (get Sample.math b) as [[[self1 v1]|e] b1] eqn:Hget;
      [|vm_compute in Hget; discriminate Hget].
    exists self1, v1, b1.
    destruct HD as (_ & _ & _ & _ & _ & _ & Htwice).
    destruct (Htwice _ _ _ _ _ Hget) as [Hagain Hcount].
    split; [reflexivity|]. split; [exact Hagain|]. split; [reflexivity|].
    exact Hcount.
  - destruct (get' Sample.reader Sample.main_browser) as [[[self1 v1]|e] b1] eqn:Hget;
      [|vm_compute in Hget; discriminate Hget].
    exists self1, v1, b1.
    destruct HR as (_ & _ & _ & _ & _ & _ & Htwice).
    destruct (Htwice _ _ _ _ _ Hget) as [Hagain Hcount].
    split; [reflexivity|]. split; [exact Hagain|]. split; [reflexivity|].
    exact Hcount.
  - split; [reflexivity|]. split; [reflexivity|].
    destruct (HDforce stale b) as (_ & _ & _ & Hok).
    apply (Hok [Sample.mac2313; Sample.cont_T] cl); vm_compute; reflexivity.
Defined.

(** ** Departments from matched names *)

Section NewDepartments.

Context {CourseCode : Type}.
Variable replace_abbreviations : string → string.
Variable similar_zip : list string → gset string → result (list (string * string)).

Lemma new_department_named base_url prefix_lookup url_lookup names
    (dep : Department.t CourseCode) :
  CourseReader.new_department replace_abbreviations base_url prefix_lookup url_lookup names
  = Ok dep →
  named_after names dep.
Proof.
  destruct names as [menu_name table_name]. unfold CourseReader.new_department.
  intros Hnew.
  apply bind_Ok_inv in Hnew as (prefixes & _ & Hnew).
  apply bind_Ok_inv in Hnew as (relative_url & _ & Hnew).
  inversion Hnew; subst dep. unfold named_after. simpl.
  split; [done|]. split; [|done].
  destruct (decide (menu_name = table_name)) as [Heq|Hne].
  - by rewrite decide_False by (intros Hc; by apply Hc).
  - by rewrite decide_True.
Qed.

Lemma new_departments_named base_url prefix_lookup url_lookup matched_depts
    (deps : list (Department.t CourseCode)) :
  CourseReader.new_departments replace_abbreviations base_url prefix_lookup url_lookup
    matched_depts = Ok deps →
  Forall2 named_after matched_depts deps.
Proof.
  revert deps. induction matched_depts as [|names rest IH]; intros deps Hnew.
  - inversion Hnew. constructor.
  - simpl in Hnew.
    apply bind_Ok_inv in Hnew as (dep & Hdep & Hnew).
    apply bind_Ok_inv in Hnew as (deps' & Hdeps & Hnew).
    inversion Hnew; subst deps. constructor; [|by apply IH].
    by eapply new_department_named.
Qed.

Lemma build_departments_matched base_url department_menu prefix_table
    (deps : list (Department.t CourseCode)) :
  CourseReader.build_departments replace_abbreviations similar_zip base_url
    department_menu prefix_table = Ok deps →
  ∃ table_names matched_depts,
    zip_star prefix_table !! 1%nat = Some table_names
    ∧ similar_zip (department_menu.*1) (list_to_set table_names) = Ok matched_depts
    ∧ length matched_depts = length department_menu
    ∧ Forall2 named_after matched_depts deps.
Proof.
  unfold CourseReader.build_departments. intros Hbuild.
  apply bind_Ok_inv in Hbuild as (names & Hnames & Hbuild).
  apply bind_Ok_inv in Hbuild as (table_names & Htable & Hbuild).
  apply bind_Ok_inv in Hbuild as (matched_depts & Hmatched & Hbuild).
  destruct (decide (length matched_depts = length names)) as [Hlen|]; [|discriminate].
  apply bind_Ok_inv in Hbuild as (prefix_lookup & _ & Hbuild).
  assert (names = department_menu.*1) as ->
    by (destruct department_menu; [discriminate | by inversion Hnames]).
  exists table_names, matched_depts.
  destruct (zip_star prefix_table !! 1%nat); [|discriminate].
  inversion Htable; subst. rewrite length_fmap in Hlen.
  eauto using new_departments_named.
Qed.

End NewDepartments.

(** C8. The department built from a matched pair of a menu-side name and
    a table-side name is named by the table-side name, and its alternate names
    are the menu-side name alone when the two names differ, and nothing when
    they are equal. This holds for every department that [force_load] stores,
    taken in the order of the matched pairs; and the department is built
    whenever the two lookup tables know the names. *)
Theorem department_names_from_pair :
  ∀ (CourseCode : Type) (replace_abbreviations : string → string)
    (similar_zip : list string → gset string → result (list (string * string))),
    (∀ base_url prefix_lookup url_lookup (menu_name table_name : string)
       (dep : Department.t CourseCode),
        CourseReader.new_department replace_abbreviations base_url prefix_lookup
          url_lookup (menu_name, table_name) = Ok dep →
        Department.name dep = table_name
        ∧ (menu_name ≠ table_name → Department.alternate_names dep = [menu_name])
        ∧ (menu_name = table_name → Department.alternate_names dep = []))
    ∧ (∀ base_url (prefix_lookup : gmap string (list string))
         (url_lookup : gmap string string) (menu_name table_name : string)
         prefixes relative_url,
        prefix_lookup !! table_name = Some prefixes →
        url_lookup !! menu_name = Some relative_url →
        ∃ dep : Department.t CourseCode,
          CourseReader.new_department replace_abbreviations base_url prefix_lookup
            url_lookup (menu_name, table_name) = Ok dep)
    ∧ (∀ (self self' : CourseReader.t CourseCode) (b : Browser),
        (CourseReader.force_load replace_abbreviations similar_zip self b).1 = Ok self' →
        ∃ matched_depts deps,
          CourseReader.departments self' = Some deps
          ∧ length matched_depts = length deps
          ∧ Forall2 named_after matched_depts deps).
Proof.
  intros CourseCode replace_abbreviations similar_zip. split; [|split].
  - intros base_url prefix_lookup url_lookup menu_name table_name dep Hnew.
    apply new_department_named in Hnew as (Hname & Halt & _). simpl in *.
    split; [done|]. split; intros Hcmp.
    + by rewrite decide_False in Halt.
    + by rewrite decide_True in Halt.
  - intros base_url prefix_lookup url_lookup menu_name table_name prefixes
      relative_url Hp Hu.
    unfold CourseReader.new_department, Py.getitem. rewrite Hp, Hu. simpl.
    by eexists.
  - intros self self' b Hload. rewrite CourseReader_force_load_page in Hload.
    simpl in Hload.
    apply bind_Ok_inv in Hload as (parsed & _ & Hload).
    apply bind_Ok_inv in Hload as (deps & Hdeps & Hload).
    apply build_departments_matched in Hdeps as (tn & matched_depts & _ & _ & _ & Hall).
    exists matched_depts, deps. inversion Hload; subst self'. simpl.
    split; [done|]. split; [by eapply Forall2_length | done].
Qed.

(** The sample main page: MATHEMATICS goes with Mathematics and keeps its
    menu name as an alternate name; Physics is named alike on both sides. *)
Lemma department_names_sample :
  let prefix_lookup :=
    parallel_lists_to_tuple_dict ["Mathematics"; "Physics"; "Mathematics"]
      ["MAC"; "PHY"; "MAP"] in
  let url_lookup := dict Sample.department_menu in
  let build := CourseReader.new_department (CourseCode := string * string) (λ s, s)
                 (CourseReader.base_url Sample.reader) prefix_lookup url_lookup in
  (∃ math physics,
      build ("MATHEMATICS", "Mathematics") = Ok math
      ∧ build ("Physics", "Physics") = Ok physics
      ∧ Department.name math = "Mathematics"
      ∧ Department.alternate_names math = ["MATHEMATICS"]
      ∧ Department.name physics = "Physics"
      ∧ Department.alternate_names physics = [])
  ∧ (∃ self' matched_depts deps,
      (CourseReader.force_load (λ s, s) Sample.similar_zip Sample.reader
         Sample.main_browser).1 = Ok self'
      ∧ CourseReader.departments self' = Some deps
      ∧ Department.name <$> deps = ["Mathematics"; "Physics"]
      ∧ Forall2 named_after matched_depts deps).
Proof.
  intros prefix_lookup url_lookup build.
  pose proof (department_names_from_pair (string * string) (λ s, s) Sample.similar_zip)
    as (Hpair & Hbuilt & Hload).
  split.
  - destruct (Hbuilt (CourseReader.base_url Sample.reader) prefix_lookup url_lookup
                "MATHEMATICS" "Mathematics" ["MAC"; "MAP"] "mathemat.htm"
                eq_refl eq_refl) as [math Hmath].
    destruct (Hbuilt (CourseReader.base_url Sample.reader) prefix_lookup url_lookup
                "Physics" "Physics" ["PHY"] "physics.htm"
                eq_refl eq_refl) as [physics Hphysics].
    exists math, physics.
    destruct (Hpair _ _ _ _ _ _ Hmath) as (Hn1 & Ha1 & _).
    destruct (Hpair _ _ _ _ _ _ Hphysics) as (Hn2 & _ & Ha2).
    split; [exact Hmath|]. split; [exact Hphysics|].
    split; [exact Hn1|]. split; [apply Ha1; discriminate|].
    split; [exact Hn2 | by apply Ha2].
  - destruct (CourseReader.force_load (λ s, s) Sample.similar_zip Sample.reader
                Sample.main_browser).1 as [self'|e] eqn:Hrun;
      [|vm_compute in Hrun; discriminate Hrun].
    destruct (Hload Sample.reader self' Sample.main_browser Hrun)
      as (matched_depts & deps & Hdeps & _ & Hall).
    exists self', matched_depts, deps.
    split; [reflexivity|]. split; [exact Hdeps|]. split; [|exact Hall].
    vm_compute in Hrun. inversion Hrun; subst self'.
    simpl in Hdeps. inversion Hdeps; subst deps. reflexivity.
Defined.

(** ** The constructor of [CourseReader] *)

Section ReaderInit.

Context {CourseCode Semester : Type} `{EqDecision Semester}.
Variables SPRING SUMMER FALL : Semester.

Lemma month_of_Some (semester : Semester) (month : string) :
  CourseReader.month_of SPRING SUMMER FALL semester = Some month →
  semester = SPRING ∨ semester = SUMMER ∨ semester = FALL.
Proof.
  unfold CourseReader.month_of. repeat case_decide; auto. discriminate.
Qed.

Lemma month_of_None (semester : Semester) :
  CourseReader.month_of SPRING SUMMER FALL semester = None ↔
  semester ≠ SPRING ∧ semester ≠ SUMMER ∧ semester ≠ FALL.
Proof.
  unfold CourseReader.month_of. repeat case_decide; split;
    try discriminate; try done; intros (? & ? & ?); done.
Qed.

(** The constructor after [int(year)]. *)
Lemma init_year (year : YearArg) (y : Z) (semester : Semester) (full : bool)
    (b : Browser) :
  CourseReader.int_year year = Ok y →
  CourseReader.init (CourseCode := CourseCode) SPRING SUMMER FALL year semester full b
  = CourseReader.init SPRING SUMMER FALL (YearInt y) semester full b.
Proof. intros Hy. unfold CourseReader.init. by rewrite Hy. Qed.

End ReaderInit.

(** C9. When the requested year is before 2001, or before 2005 with only
    the web-based listings requested, the constructor raises a KeyError that
    tells the year, and the browser is as it was: no page has been fetched.
    Conversely the constructor raises no KeyError for any other year. *)
Theorem init_year_out_of_range :
  ∀ (CourseCode Semester : Type) (EqSem : EqDecision Semester)
    (SPRING SUMMER FALL : Semester) (year : YearArg) (y : Z) (semester : Semester)
    (full : bool) (b : Browser),
    CourseReader.int_year year = Ok y →
    (y < 2001 ∨ (full = false ∧ y < 2005) →
     ∃ msg : string,
       CourseReader.init (CourseCode := CourseCode) SPRING SUMMER FALL year semester full b
       = (Err (KeyError msg), b)
       ∧ msg = (if decide (y < 2001) then "Course listings" else "Web-Course listings")
               +:+ " are unavailable for the year " +:+ Py.fmt_d y +:+ "."
       ∧ populations b
         = populations (CourseReader.init (CourseCode := CourseCode) SPRING SUMMER FALL
                          year semester full b).2)
    ∧ (∀ msg : string,
        (CourseReader.init (CourseCode := CourseCode) SPRING SUMMER FALL
           year semester full b).1 = Err (KeyError msg) →
        y < 2001 ∨ (full = false ∧ y < 2005)).
Proof.
  intros CourseCode Semester EqSem SPRING SUMMER FALL year y semester full b Hy.
  rewrite (init_year _ _ _ _ y) by done. unfold CourseReader.init. simpl.
  split.
  - intros Hrange. destruct (decide (y < 2001)) as [Hlt|Hge].
    + apply Z.ltb_lt in Hlt as Hb. rewrite Hb. eexists. repeat split.
    + destruct Hrange as [?|[-> Hlt]]; [lia|].
      assert ((y <? 2001) = false) as Hb by (apply Z.ltb_ge; lia).
      apply Z.ltb_lt in Hlt as Hb'.
      rewrite Hb, Hb'. simpl. eexists. repeat split.
  - intros msg Hraise. destruct (y <? 2001) eqn:H1; [apply Z.ltb_lt in H1; auto|].
    destruct full; simpl in Hraise.
    + destruct (CourseReader.month_of SPRING SUMMER FALL semester); discriminate.
    + destruct (y <? 2005) eqn:H5; [apply Z.ltb_lt in H5; auto|].
      destruct (CourseReader.month_of SPRING SUMMER FALL semester); discriminate.
Qed.

(** The year 2000, and the web listings of 2004 given as a string. *)
Lemma init_year_out_of_range_sample :
  CourseReader.init (CourseCode := string * string) "SPRING" "SUMMER" "FALL"
    (YearInt 2000) "FALL" true Sample.main_browser
  = (Err (KeyError "Course listings are unavailable for the year 2000."),
     Sample.main_browser)
  ∧ CourseReader.init (CourseCode := string * string) "SPRING" "SUMMER" "FALL"
      (YearStr "2004") "FALL" false Sample.main_browser
    = (Err (KeyError "Web-Course listings are unavailable for the year 2004."),
       Sample.main_browser).
Proof.
  split.
  - destruct (proj1 (init_year_out_of_range (string * string) string _
                       "SPRING" "SUMMER" "FALL" (YearInt 2000) 2000 "FALL" true
                       Sample.main_browser eq_refl))
      as (msg & Hinit & -> & _); [left; lia|].
    exact Hinit.
  - destruct (proj1 (init_year_out_of_range (string * string) string _
                       "SPRING" "SUMMER" "FALL" (YearStr "2004") 2004 "FALL" false
                       Sample.main_browser eq_refl))
      as (msg & Hinit & -> & _); [right; split; [reflexivity | lia]|].
    exact Hinit.
Defined.

(** C10. The constructor binds [month] only in the branches of the three
    semesters: with a supported year and any other semester value the line
    that builds the URL raises an UnboundLocalError for [month]; a constructor
    that returns was given one of the three semesters; and with one of them and
    a supported year it returns, the URL holding the month of that semester. *)
Theorem init_month_needs_semester :
  ∀ (CourseCode Semester : Type) (EqSem : EqDecision Semester)
    (SPRING SUMMER FALL : Semester) (year : YearArg) (semester : Semester)
    (full : bool) (b : Browser),
    (∀ self b',
        CourseReader.init (CourseCode := CourseCode) SPRING SUMMER FALL year semester full b
        = (Ok self, b') →
        semester = SPRING ∨ semester = SUMMER ∨ semester = FALL)
    ∧ (∀ y : Z,
        CourseReader.int_year year = Ok y → 2001 ≤ y → full = true ∨ 2005 ≤ y →
        (semester ≠ SPRING ∧ semester ≠ SUMMER ∧ semester ≠ FALL →
         CourseReader.init (CourseCode := CourseCode) SPRING SUMMER FALL year semester full b
         = (Err (UnboundLocalError "month"), b))
        ∧ (semester = SPRING ∨ semester = SUMMER ∨ semester = FALL →
           ∃ month : string,
             CourseReader.month_of SPRING SUMMER FALL semester = Some month
             ∧ CourseReader.init (CourseCode := CourseCode) SPRING SUMMER FALL
                 year semester full b
               = (Ok {| CourseReader.base_url :=
                          "http://www.registrar.ufl.edu/soc/" +:+ Py.fmt_d y +:+ month
                          +:+ "/" +:+ (if full then "all" else "web") +:+ "/";
                        CourseReader.departments := None;
                        CourseReader.loaded := false |}, b))).
Proof.
  intros CourseCode Semester EqSem SPRING SUMMER FALL year semester full b.
  split.
  - intros self b' Hinit. unfold CourseReader.init in Hinit.
    inversion Hinit as [[Hres Hb]]. clear Hinit.
    apply bind_Ok_inv in Hres as (y & _ & Hres).
    destruct (y <? 2001); [discriminate|].
    destruct (negb full && (y <? 2005)); [discriminate|].
    destruct (CourseReader.month_of SPRING SUMMER FALL semester) as [month|] eqn:Hm;
      [|discriminate].
    by eapply month_of_Some.
  - intros y Hy H2001 Hweb.
    rewrite (init_year _ _ _ _ y) by done. unfold CourseReader.init. simpl.
    apply Z.ltb_ge in H2001 as ->.
    assert (negb full && (y <? 2005) = false) as ->.
    { destruct Hweb as [->|Hge]; [done|].
      apply Z.ltb_ge in Hge as ->. by destruct full. }
    split.
    + intros Hnone. apply month_of_None in Hnone. by rewrite Hnone.
    + intros Hsem.
      destruct (CourseReader.month_of SPRING SUMMER FALL semester) as [month|] eqn:Hm.
      * by exists month.
      * apply month_of_None in Hm as (? & ? & ?). by destruct Hsem as [?|[?|?]].
Qed.

(** Fall 2011 in full, and a semester that is none of the three. *)
Lemma init_month_needs_semester_sample :
  CourseReader.init (CourseCode := string * string) "SPRING" "SUMMER" "FALL"
    (YearStr "2011") "FALL" true Sample.main_browser
  = (Ok Sample.reader, Sample.main_browser)
  ∧ CourseReader.init (CourseCode := string * string) "SPRING" "SUMMER" "FALL"
      (YearStr "2011") "WINTER" true Sample.main_browser
    = (Err (UnboundLocalError "month"), Sample.main_browser).
Proof.
  split.
  - destruct (proj2 (proj2 (init_month_needs_semester (string * string) string _
                "SPRING" "SUMMER" "FALL" (YearStr "2011") "FALL" true
                Sample.main_browser) 2011 eq_refl ltac:(lia) (or_introl eq_refl))
                (or_intror (or_intror eq_refl)))
      as (month & Hmonth & Hinit).
    vm_compute in Hmonth. inversion Hmonth; subst month. exact Hinit.
  - apply (proj1 (proj2 (init_month_needs_semester (string * string) string _
                "SPRING" "SUMMER" "FALL" (YearStr "2011") "WINTER" true
                Sample.main_browser) 2011 eq_refl ltac:(lia) (or_introl eq_refl))).
    repeat split; discriminate.
Defined.

(** * Further properties of the code *)

(** ** The loop over the rows *)

Lemma alter_last_app {A} (f : A → A) (l1 l2 : list A) :
  l2 ≠ [] → alter_last f (l1 ++ l2) = l1 ++ alter_last f l2.
Proof.
  intros Hne. destruct (exists_last Hne) as (l & x & ->).
  by rewrite app_assoc, !alter_last_snoc, app_assoc.
Qed.

Section LoopFacts.

Context {CourseCode : Type}.
Variable CourseCode_init : string → result CourseCode.

Implicit Types (base res : list (Course CourseCode)) (d : Row) (rows : list Row).

Lemma new_course_row_meetings d (code : string) (c : Course CourseCode) :
  new_course CourseCode_init d code = Ok c → meetings c = row_meetings d.
Proof.
  intros Hc. apply new_course_Ok_inv in Hc as (_ & meeting & _ & _ & _ & Hm & -> & _).
  unfold row_meetings. by rewrite Hm.
Qed.

Lemma process_row_meetings base base' d :
  process_row CourseCode_init base d = Ok base' →
  flat_map meetings base' = flat_map meetings base ++ row_meetings d.
Proof.
  intros Hstep. destruct (is_primary d) eqn:Hprim.
  - apply is_primary_true in Hprim as (code & Hcode & Hne).
    rewrite (process_row_primary _ _ _ code) in Hstep by done.
    apply bind_Ok_inv in Hstep as (c & Hc & Heq). inversion Heq; subst base'.
    rewrite flat_map_app. simpl. rewrite app_nil_r.
    by rewrite (new_course_row_meetings _ _ _ Hc).
  - pose proof (is_primary_false_ok _ _ _ _ Hprim Hstep) as Hcell.
    rewrite process_row_continuation in Hstep by done.
    apply bind_Ok_inv in Hstep as (meeting & Hm & Heq).
    unfold row_meetings. rewrite Hm. destruct meeting as [m|].
    + destruct (decide (base = [])) as [->|Hne]; [discriminate|].
      destruct (exists_last Hne) as (earlier & c & ->).
      assert (base' = earlier ++ [meetings_append m c]) as ->.
      { destruct (earlier ++ [c]) eqn:E; [by destruct earlier|].
        rewrite <- E, alter_last_snoc in Heq. by inversion Heq. }
      rewrite !flat_map_app. simpl. by rewrite !app_nil_r, app_assoc.
    + inversion Heq; subst. by rewrite app_nil_r.
Qed.

Lemma process_rows_meetings base res rows :
  process_rows CourseCode_init base rows = Ok res →
  flat_map meetings res = flat_map meetings base ++ flat_map row_meetings rows.
Proof.
  revert base. induction rows as [|d rows IH]; intros base Hrun.
  - inversion Hrun. simpl. by rewrite app_nil_r.
  - simpl in Hrun. apply bind_Ok_inv in Hrun as (base1 & Hstep & Hrest).
    rewrite (IH _ Hrest), (process_row_meetings _ _ _ Hstep). simpl.
    by rewrite app_assoc.
Qed.

(** Records that are already in the list, the last one apart, play no
    part in the loop. *)
Lemma process_row_frame (pre : list (Course CourseCode)) base d :
  base ≠ [] →
  process_row CourseCode_init (pre ++ base) d
  = ((pre ++.) <$> process_row CourseCode_init base d).
Proof.
  intros Hne. unfold process_row.
  destruct (Py.getitem d "course") as [[[|a s]|]|e]; simpl; try done.
  - destruct (build_meeting d) as [[m|]|e]; simpl; try done.
    rewrite alter_last_app by done.
    destruct base; [done|]. by destruct pre.
  - destruct (new_course CourseCode_init d (String a s)); simpl; [|done].
    by rewrite app_assoc.
  - destruct (build_meeting d) as [[m|]|e]; simpl; try done.
    rewrite alter_last_app by done.
    destruct base; [done|]. by destruct pre.
Qed.

Lemma process_rows_frame (pre : list (Course CourseCode)) base rows :
  base ≠ [] →
  process_rows CourseCode_init (pre ++ base) rows
  = ((pre ++.) <$> process_rows CourseCode_init base rows).
Proof.
  revert base. induction rows as [|d rows IH]; intros base Hne; [done|].
  simpl. rewrite process_row_frame by done.
  destruct (process_row CourseCode_init base d) as [base1|e] eqn:Hstep; [|done].
  simpl. apply IH. by eapply process_row_nonempty.
Qed.

Lemma process_rows_primary_head base d rows :
  is_primary d = true →
  process_rows CourseCode_init base (d :: rows)
  = ((base ++.) <$> assemble CourseCode_init (d :: rows)).
Proof.
  intros Hprim. apply is_primary_true in Hprim as (code & Hcode & Hne).
  unfold assemble. simpl. rewrite !(process_row_primary _ _ _ code) by done.
  destruct (new_course CourseCode_init d code) as [c|e]; [|done]. simpl.
  rewrite (process_rows_frame base [c]) by done. done.
Qed.

(** What a returning loop says about its rows. *)
Lemma process_rows_Ok_parses base res rows :
  process_rows CourseCode_init base rows = Ok res →
  Forall (λ r, row_parses CourseCode_init r = true) rows
  ∧ (base = [] → flat_map row_meetings (continuation_rows rows) = []).
Proof.
  revert base. induction rows as [|d rows IH]; intros base Hrun.
  - split; [constructor | done].
  - simpl in Hrun. apply bind_Ok_inv in Hrun as (base1 & Hstep & Hrest).
    destruct (IH _ Hrest) as [Hall Hhead]. clear IH.
    destruct (is_primary d) eqn:Hprim.
    + simpl. rewrite Hprim. split; [|done]. constructor; [|done].
      apply is_primary_true in Hprim as (code & Hcode & Hne).
      rewrite (process_row_primary _ _ _ code) in Hstep by done.
      apply bind_Ok_inv in Hstep as (c & Hc & _).
      unfold row_parses. rewrite Hcode. destruct code; [done|]. by rewrite Hc.
    + pose proof (is_primary_false_ok _ _ _ _ Hprim Hstep) as Hcell.
      rewrite process_row_continuation in Hstep by done.
      apply bind_Ok_inv in Hstep as (meeting & Hm & Heq).
      simpl. rewrite Hprim. split.
      * constructor; [|done]. unfold row_parses.
        destruct Hcell as [-> | ->]; by rewrite Hm.
      * intros ->. simpl. unfold row_meetings at 1. rewrite Hm.
        destruct meeting as [m|]; [discriminate|].
        inversion Heq; subst base1. by apply Hhead.
Qed.

End LoopFacts.

(** X1. Whenever the assembly returns, the meetings of its records, read
    record after record, are the meetings that the rows yield, read row
    after row: no meeting is lost, repeated or moved. *)
Theorem assemble_keeps_meetings :
  ∀ (CourseCode : Type) (CourseCode_init : string → result CourseCode)
    (rows : list Row) (cs : list (Course CourseCode)),
    assemble CourseCode_init rows = Ok cs →
    flat_map meetings cs = flat_map row_meetings rows.
Proof.
  intros CourseCode CourseCode_init rows cs Hrun. unfold assemble in Hrun.
  rewrite (process_rows_meetings _ _ _ _ Hrun). reflexivity.
Qed.

Lemma assemble_keeps_meetings_sample :
  flat_map meetings
    [Sample.course ("MAC", "2313") "1" 4 [Sample.meeting "M W F"; Sample.meeting "T"];
     Sample.course ("MAC", "4905") "2" (-1) []]
  = flat_map row_meetings
      [Sample.mac2313; Sample.cont_T; Sample.cont_tba; Sample.cont_note; Sample.var_row].
Proof.
  apply (assemble_keeps_meetings _ Sample.code_init). vm_compute. reflexivity.
Defined.

(** X2. Two tables put one after the other, the second being empty or
    starting with a primary row, assemble to the records of the first
    followed by the records of the second; the exception of the first, else
    of the second, is the exception of the whole. *)
Theorem assemble_app :
  ∀ (CourseCode : Type) (CourseCode_init : string → result CourseCode)
    (rows1 rows2 : list Row),
    match rows2 with [] => True | d :: _ => is_primary d = true end →
    assemble CourseCode_init (rows1 ++ rows2)
    = (cs1 ← assemble CourseCode_init rows1;
       cs2 ← assemble CourseCode_init rows2;
       Ok (cs1 ++ cs2)).
Proof.
  intros CourseCode CourseCode_init rows1 rows2 Hhead.
  unfold assemble at 1. rewrite process_rows_app. fold (assemble CourseCode_init rows1).
  destruct (assemble CourseCode_init rows1) as [cs1|e]; [simpl|done].
  destruct rows2 as [|d rows2].
  - simpl. by rewrite app_nil_r.
  - rewrite process_rows_primary_head by done.
    by destruct (assemble CourseCode_init (d :: rows2)).
Qed.

Lemma assemble_app_sample :
  assemble Sample.code_init
    ([Sample.mac2313; Sample.cont_T] ++ [Sample.var_row; Sample.cont_tba])
  = Ok ([Sample.course ("MAC", "2313") "1" 4 [Sample.meeting "M W F"; Sample.meeting "T"]]
        ++ [Sample.course ("MAC", "4905") "2" (-1) []]).
Proof.
  rewrite (assemble_app _ Sample.code_init [Sample.mac2313; Sample.cont_T]
             [Sample.var_row; Sample.cont_tba] eq_refl).
  vm_compute. reflexivity.
Defined.

(** X3. The assembly returns exactly when every row is read without an
    exception of its own and the continuation rows ahead of the first
    primary row yield no meeting. *)
Theorem assemble_returns_iff :
  ∀ (CourseCode : Type) (CourseCode_init : string → result CourseCode)
    (rows : list Row),
    is_ok (assemble CourseCode_init rows) = true ↔
    Forall (λ r, row_parses CourseCode_init r = true) rows
    ∧ flat_map row_meetings (continuation_rows rows) = [].
Proof.
  intros CourseCode CourseCode_init rows. split.
  - destruct (assemble CourseCode_init rows) as [cs|e] eqn:Hrun; [|discriminate].
    intros _. unfold assemble in Hrun.
    destruct (process_rows_Ok_parses _ _ _ _ Hrun) as [Hall Hhead]. auto.
  - intros [Hall Hhead].
    destruct (process_rows_succeeds CourseCode_init [] rows Hall) as [cs Hcs]; [by right|].
    unfold assemble. by rewrite Hcs.
Qed.

Lemma assemble_returns_iff_sample :
  is_ok (assemble Sample.code_init
           [Sample.cont_note; Sample.cont_tba; Sample.mac2313; Sample.cont_T]) = true.
Proof.
  apply (assemble_returns_iff _ Sample.code_init). split.
  - repeat (apply Forall_cons; split; [vm_compute; reflexivity|]). apply Forall_nil_2.
  - vm_compute. reflexivity.
Defined.

(** ** Instructors *)

Lemma chars_rev_app (s1 s2 : string) :
  list_ascii_of_string (String.rev_app s1 s2)
  = reverse (list_ascii_of_string s1) ++ list_ascii_of_string s2.
Proof.
  revert s2. induction s1 as [|c s1 IH]; intros s2; [done|].
  simpl. rewrite IH, reverse_cons. simpl. by rewrite <- app_assoc.
Qed.

Lemma chars_rev (s : string) :
  list_ascii_of_string (String.rev s) = reverse (list_ascii_of_string s).
Proof. unfold String.rev. rewrite chars_rev_app. simpl. by rewrite app_nil_r. Qed.

Lemma lstrip_with_spec (space : ascii → bool) (s : string) :
  ∃ pre, list_ascii_of_string s = pre ++ list_ascii_of_string (Py.lstrip_with space s)
         ∧ Forall (λ c, space c = true) pre
         ∧ (∀ c, head (list_ascii_of_string (Py.lstrip_with space s)) = Some c →
                 space c = false).
Proof.
  induction s as [|c s (pre & Heq & Hpre & Hhead)].
  - exists []. repeat split; [constructor | done].
  - simpl. destruct (space c) eqn:Hc.
    + exists (c :: pre). simpl. rewrite <- Heq. repeat split; [by constructor | done].
    + exists []. simpl. repeat split; [constructor|]. intros c' Hc'. by inversion Hc'; subst.
Qed.

(** [strip_with] takes white space off both ends and nothing else. *)
Lemma strip_with_spec (space : ascii → bool) (s : string) :
  ∃ pre post,
    list_ascii_of_string s = pre ++ list_ascii_of_string (Py.strip_with space s) ++ post
    ∧ Forall (λ c, space c = true) pre
    ∧ Forall (λ c, space c = true) post
    ∧ (∀ c, head (list_ascii_of_string (Py.strip_with space s)) = Some c → space c = false)
    ∧ (∀ c, last (list_ascii_of_string (Py.strip_with space s)) = Some c → space c = false).
Proof.
  unfold Py.strip_with.
  destruct (lstrip_with_spec space s) as (pre & Heq & Hpre & Hhead).
  set (t := Py.lstrip_with space s) in *.
  destruct (lstrip_with_spec space (String.rev t)) as (pre2 & Heq2 & Hpre2 & Hhead2).
  set (u := Py.lstrip_with space (String.rev t)) in *.
  rewrite chars_rev in Heq2.
  assert (list_ascii_of_string t
          = reverse (list_ascii_of_string u) ++ reverse pre2) as Ht.
  { rewrite <- reverse_app, <- Heq2. by rewrite reverse_involutive. }
  exists pre, (reverse pre2). rewrite chars_rev.
  split; [by rewrite Heq, Ht|]. split; [done|].
  split; [by apply Forall_reverse|]. split.
  - intros c Hc. apply Hhead. rewrite Ht.
    destruct (reverse (list_ascii_of_string u)); [done|]. exact Hc.
  - intros c Hc. apply Hhead2. rewrite last_reverse in Hc. exact Hc.
Qed.

Lemma split_length (sep : ascii) (s : string) :
  length (Py.split sep s)
  = S (length (filter (λ c, c = sep) (list_ascii_of_string s))).
Proof.
  induction s as [|c s IH]; [done|].
  simpl. rewrite filter_cons. destruct (decide (c = sep)) as [->|Hne]; simpl.
  - by rewrite IH.
  - destruct (Py.split sep s) as [|h t]; simpl in *; [done | exact IH].
Qed.

Lemma split_no_sep (sep : ascii) (s : string) :
  Forall (λ piece, sep ∉ list_ascii_of_string piece) (Py.split sep s).
Proof.
  induction s as [|c s IH]; simpl.
  - repeat constructor. apply not_elem_of_nil.
  - destruct (decide (c = sep)) as [->|Hne].
    + constructor; [apply not_elem_of_nil | done].
    + destruct (Py.split sep s) as [|h t].
      * repeat constructor. cbn [list_ascii_of_string].
        apply not_elem_of_cons. split; [done | apply not_elem_of_nil].
      * inversion IH; subst. constructor; [|done].
        cbn [list_ascii_of_string]. apply not_elem_of_cons. by split.
Qed.

(** X4. The record of a primary row has one instructor entry for each
    line of the instructor cell, so at least one; no entry holds a line
    break, and none starts or ends with white space. *)
Theorem instructors_lines :
  ∀ (CourseCode : Type) (CourseCode_init : string → result CourseCode)
    (d : Row) (code : string) (c : Course CourseCode),
    new_course CourseCode_init d code = Ok c →
    ∃ cell : string,
      d !! "instructor(s)" = Some (Some cell)
      ∧ length (instructors c)
        = S (length (filter (λ x, x = Py.newline) (list_ascii_of_string cell)))
      ∧ Forall (λ name, (Py.newline ∉ list_ascii_of_string name) ∧ trimmed name)
          (instructors c).
Proof.
  intros CourseCode CourseCode_init d code c Hc.
  apply new_course_Ok_inv in Hc
    as (_ & _ & instructor & _ & _ & _ & _ & _ & _ & _ & _ & Hcell & Hsplit & _).
  destruct instructor as [cell|]; [|discriminate].
  exists cell. inversion Hsplit as [Hnames]. clear Hsplit.
  split; [done|]. split.
  - by rewrite length_fmap, split_length.
  - apply Forall_fmap. eapply Forall_impl; [apply (split_no_sep Py.newline)|].
    intros piece Hpiece. simpl.
    destruct (strip_with_spec Py.isspace piece) as (pre & post & Heq & _ & _ & Hh & Hl).
    split; [|by split].
    intros Hin. apply Hpiece. rewrite Heq.
    rewrite !elem_of_app. right. by left.
Qed.

Lemma instructors_lines_sample :
  ∃ cell : string,
    Sample.mac2313 !! "instructor(s)" = Some (Some cell)
    ∧ length ["A. Smith"; "B. Jones"]
      = S (length (filter (λ x, x = Py.newline) (list_ascii_of_string cell)))
    ∧ Forall (λ name, (Py.newline ∉ list_ascii_of_string name) ∧ trimmed name)
        ["A. Smith"; "B. Jones"].
Proof.
  apply (instructors_lines _ Sample.code_init Sample.mac2313 "MAC2313"
           (Sample.course ("MAC", "2313") "1" 4 [Sample.meeting "M W F"])).
  vm_compute. reflexivity.
Defined.

(** ** The prefixes of a loaded department *)

Section Prefixes.

Context {CourseCode : Type}.
Variable CourseCode_init : string → result CourseCode.
Variable prefix : CourseCode → string.

Implicit Types (self : Department.t CourseCode) (b : Browser)
  (cl : list (Course CourseCode)).

Lemma collect_prefixes_snoc cl (c : Course CourseCode) :
  collect_prefixes prefix (cl ++ [c])
  = if decide (prefix (course_code c) ∈ collect_prefixes prefix cl)
    then collect_prefixes prefix cl
    else collect_prefixes prefix cl ++ [prefix (course_code c)].
Proof. unfold collect_prefixes. by rewrite foldl_app. Qed.

Lemma collect_prefixes_first_seen cl :
  collect_prefixes prefix cl
  = reverse (remove_dups (reverse ((λ c, prefix (course_code c)) <$> cl))).
Proof.
  induction cl as [|c cl IH] using rev_ind; [done|].
  rewrite collect_prefixes_snoc, fmap_app, reverse_app. simpl.
  assert (prefix (course_code c) ∈ collect_prefixes prefix cl
          ↔ prefix (course_code c) ∈ reverse ((λ c, prefix (course_code c)) <$> cl))
    as Hseen by (by rewrite IH, elem_of_reverse, elem_of_remove_dups).
  destruct (decide (prefix (course_code c) ∈ collect_prefixes prefix cl)) as [Hin|Hnin].
  - destruct (decide_rel elem_of _ _) as [_|Hn]; [exact IH|].
    exfalso. by apply Hn, Hseen.
  - destruct (decide_rel elem_of _ _) as [Hy|_]; [exfalso; by apply Hnin, Hseen|].
    by rewrite reverse_cons, IH.
Qed.

Lemma collect_prefixes_head (c : Course CourseCode) cl :
  head (collect_prefixes prefix (c :: cl)) = Some (prefix (course_code c)).
Proof.
  unfold collect_prefixes. simpl.
  assert (∀ tl : list string,
            head (foldl (λ ps c0, if decide (prefix (course_code c0) ∈ ps) then ps
                                  else ps ++ [prefix (course_code c0)])
                    (prefix (course_code c) :: tl) cl)
            = Some (prefix (course_code c))) as Hhead; [|apply (Hhead [])].
  induction cl as [|c' cl IH]; intros tl; [done|].
  simpl. destruct (decide _); apply IH.
Qed.

Lemma Department_force_load_Ok self b self' :
  (Department.force_load CourseCode_init prefix self b).1 = Ok self' →
  ∃ rows cl,
    department_pages b (history b) (Department.url self b) = Ok rows
    ∧ assemble CourseCode_init rows = Ok cl
    ∧ self' = Department.set_course_list prefix self cl.
Proof.
  rewrite Department_force_load_page. simpl. intros Hload.
  apply bind_Ok_inv in Hload as (rows & Hrows & Hload).
  apply bind_Ok_inv in Hload as (cl & Hcl & Hload).
  exists rows, cl. by inversion Hload.
Qed.

Lemma Department_auto_load_Ok self b self' :
  (Department.auto_load CourseCode_init prefix self b).1 = Ok self' →
  (Department.loaded self = true ∧ self' = self)
  ∨ (Department.loaded self = false
     ∧ (Department.force_load CourseCode_init prefix self b).1 = Ok self').
Proof.
  unfold Department.auto_load. destruct (Department.loaded self); simpl.
  - intros Heq. left. by inversion Heq.
  - intros Heq. by right.
Qed.

Lemma Department_auto_load_consistent self b self' :
  Department_consistent prefix self →
  (Department.auto_load CourseCode_init prefix self b).1 = Ok self' →
  Department_consistent prefix self' ∧ Department.loaded self' = true
  ∧ same_department self self'.
Proof.
  intros Hself Hload.
  apply Department_auto_load_Ok in Hload as [[Hl ->]|[Hl Hload]].
  - repeat split; done.
  - apply Department_force_load_Ok in Hload as (rows & cl & _ & _ & ->).
    split; [|by repeat split]. intros _. by exists cl.
Qed.

End Prefixes.

(** X5. The prefixes that [force_load] collects from the loaded courses
    are the prefixes of the courses, each once, in the order in which they
    first appear. *)
Theorem collect_prefixes_each_once :
  ∀ (CourseCode : Type) (prefix : CourseCode → string)
    (cl : list (Course CourseCode)),
    collect_prefixes prefix cl
    = reverse (remove_dups (reverse ((λ c, prefix (course_code c)) <$> cl)))
    ∧ NoDup (collect_prefixes prefix cl)
    ∧ (∀ p, p ∈ collect_prefixes prefix cl ↔ ∃ c, c ∈ cl ∧ prefix (course_code c) = p)
    ∧ (∀ c cl', cl = c :: cl' →
         head (collect_prefixes prefix cl) = Some (prefix (course_code c))).
Proof.
  intros CourseCode prefix cl.
  pose proof (collect_prefixes_first_seen prefix cl) as Heq.
  split; [exact Heq|]. split; [|split].
  - rewrite Heq, reverse_Permutation. apply NoDup_remove_dups.
  - intros p. rewrite Heq, elem_of_reverse, elem_of_remove_dups, elem_of_reverse.
    rewrite list_elem_of_fmap. split.
    + intros (c & -> & Hc). eauto.
    + intros (c & Hc & <-). eauto.
  - intros c cl' ->. apply collect_prefixes_head.
Qed.

(** X6. The state of a department is kept sound by loading: a new
    department is not loaded, holds no course list and has the prefixes it was
    given; a [force_load] that returns leaves the department loaded, stores
    the assembly of the page it fetched and the prefixes collected from it,
    and leaves the names and the two URLs alone; so a loaded department always
    holds a course list whose prefixes are its prefixes, which is what
    [get_course_list] and [get_prefixes] called with [fast] false then
    return, leaving the department loaded. *)
Theorem department_load_sound :
  ∀ (CourseCode : Type) (CourseCode_init : string → result CourseCode)
    (prefix : CourseCode → string),
    (∀ replace_abbreviations name alternate_names prefixes base_url relative_url,
        let self := Department.init (CourseCode := CourseCode) replace_abbreviations
                      name alternate_names prefixes base_url relative_url in
        Department.loaded self = false
        ∧ Department.course_list self = None
        ∧ Department.prefixes self = prefixes
        ∧ Department_consistent prefix self)
    ∧ (∀ (self self' : Department.t CourseCode) (b : Browser),
        (Department.force_load CourseCode_init prefix self b).1 = Ok self' →
        Department.loaded self' = true
        ∧ Department_consistent prefix self' ∧ same_department self self'
        ∧ ∃ rows cl,
            department_pages b (history b) (Department.url self b) = Ok rows
            ∧ assemble CourseCode_init rows = Ok cl
            ∧ Department.course_list self' = Some cl
            ∧ Department.prefixes self' = collect_prefixes prefix cl)
    ∧ (∀ (self self' : Department.t CourseCode) (b : Browser) v,
        Department_consistent prefix self →
        (Department.get_course_list CourseCode_init prefix self b).1 = Ok (self', v) →
        Department.loaded self' = true
        ∧ Department_consistent prefix self' ∧ same_department self self'
        ∧ ∃ cl, v = Some cl ∧ Department.course_list self' = Some cl
                ∧ Department.prefixes self' = collect_prefixes prefix cl)
    ∧ (∀ (self self' : Department.t CourseCode) (b : Browser) ps,
        Department_consistent prefix self →
        (Department.get_prefixes CourseCode_init prefix self false b).1 = Ok (self', ps) →
        Department.loaded self' = true
        ∧ Department_consistent prefix self' ∧ same_department self self'
        ∧ ∃ cl, Department.course_list self' = Some cl
                ∧ ps = collect_prefixes prefix cl
                ∧ Department.prefixes self' = ps).
Proof.
  intros CourseCode CourseCode_init prefix. split; [|split; [|split]].
  - intros ra name alternate_names prefixes base_url relative_url self.
    split; [reflexivity|]. split; [reflexivity|]. split; [reflexivity|].
    intros Hl. discriminate Hl.
  - intros self self' b Hload.
    apply Department_force_load_Ok in Hload as (rows & cl & Hrows & Hcl & ->).
    split; [reflexivity|]. split; [intros _; by exists cl|]. split; [by repeat split|].
    by exists rows, cl.
  - intros self self' b v Hself Hget. unfold Department.get_course_list in Hget.
    destruct (Department.auto_load CourseCode_init prefix self b) as [r b'] eqn:Hauto.
    simpl in Hget. apply bind_Ok_inv in Hget as (self1 & -> & Heq).
    inversion Heq; subst self1 v.
    destruct (Department_auto_load_consistent CourseCode_init prefix self b self' Hself)
      as (Hc & Hl & Hsame); [by rewrite Hauto|].
    split; [done|]. split; [done|]. split; [done|].
    destruct (Hc Hl) as (cl & Hcl & Hps). by exists cl.
  - intros self self' b ps Hself Hget. unfold Department.get_prefixes in Hget.
    simpl in Hget.
    destruct (Department.auto_load CourseCode_init prefix self b) as [r b'] eqn:Hauto.
    simpl in Hget. apply bind_Ok_inv in Hget as (self1 & -> & Heq).
    inversion Heq; subst self1 ps.
    destruct (Department_auto_load_consistent CourseCode_init prefix self b self' Hself)
      as (Hc & Hl & Hsame); [by rewrite Hauto|].
    split; [done|]. split; [done|]. split; [done|].
    destruct (Hc Hl) as (cl & Hcl & Hps). by exists cl.
Qed.

(** The sample department, new and then asked for its prefixes. *)
Lemma department_load_sound_sample :
  Department.loaded Sample.math = false
  ∧ ∃ (self' : Department.t (string * string)) cl,
      (Department.get_prefixes Sample.code_init Sample.code_prefix Sample.math false
         (Sample.browser [Sample.mac2313; Sample.cont_T; Sample.var_row])).1
      = Ok (self', ["MAC"])
      ∧ Department.loaded self' = true
      ∧ Department.course_list self' = Some cl
      ∧ ["MAC"] = collect_prefixes Sample.code_prefix cl
      ∧ Department.prefixes self' = ["MAC"]
      ∧ Department.name self' = "Mathematics".
Proof.
  pose proof (proj1 (department_load_sound _ Sample.code_init Sample.code_prefix)
                (λ s, s) "Mathematics" ["MATHEMATICS"] ["MAC"; "MAP"]
                "http://www.registrar.ufl.edu/soc/201108/all/" "mathemat.htm")
    as (Hnew & _ & _ & Hsound).
  split; [exact Hnew|].
  destruct (Department.get_prefixes Sample.code_init Sample.code_prefix Sample.math false
              (Sample.browser [Sample.mac2313; Sample.cont_T; Sample.var_row])).1
    as [[self' ps]|e] eqn:Hget; [|vm_compute in Hget; discriminate Hget].
  destruct (proj2 (proj2 (proj2
              (department_load_sound _ Sample.code_init Sample.code_prefix)))
              Sample.math self' _ ps Hsound Hget)
    as (Hl & _ & (Hname & _) & cl & Hcl & Hps & Hps').
  assert (ps = ["MAC"]) as Hval.
  { vm_compute in Hget. by inversion Hget. }
  exists self', cl.
  split; [by rewrite Hval|]. split; [exact Hl|]. split; [exact Hcl|].
  split; [by rewrite <- Hval, Hps|]. split; [by rewrite Hps', Hval|].
  rewrite Hname. reflexivity.
Defined.

(** ** Loads that fail *)

(** X7. A load that raises is not remembered: when [auto_load] raises, the
    object was not loaded and stays so, one page was asked for, and the next
    [auto_load] asks for the page again. This holds for a department and
    for a reader. *)
Theorem failed_load_is_retried :
  ∀ (CourseCode : Type) (CourseCode_init : string → result CourseCode)
    (prefix : CourseCode → string) (replace_abbreviations : string → string)
    (similar_zip : list string → gset string → result (list (string * string))),
    (∀ (self : Department.t CourseCode) (b b1 : Browser) (e : exn),
        Department.auto_load CourseCode_init prefix self b = (Err e, b1) →
        Department.loaded self = false
        ∧ b1 = visit b (Department.url self b)
        ∧ Department.auto_load CourseCode_init prefix self b1
          = Department.force_load CourseCode_init prefix self b1
        ∧ populations (Department.auto_load CourseCode_init prefix self b1).2
          = S (S (populations b)))
    ∧ (∀ (self : CourseReader.t CourseCode) (b b1 : Browser) (e : exn),
        CourseReader.auto_load replace_abbreviations similar_zip self b = (Err e, b1) →
        CourseReader.loaded self = false
        ∧ b1 = visit b (CourseReader.base_url self)
        ∧ CourseReader.auto_load replace_abbreviations similar_zip self b1
          = CourseReader.force_load replace_abbreviations similar_zip self b1
        ∧ populations (CourseReader.auto_load replace_abbreviations similar_zip self b1).2
          = S (S (populations b))).
Proof.
  intros CourseCode CourseCode_init prefix replace_abbreviations similar_zip.
  split.
  - intros self b b1 e Hfail. unfold Department.auto_load in *.
    destruct (Department.loaded self); cbn [negb] in *; [discriminate Hfail|].
    assert (b1 = visit b (Department.url self b)) as ->
      by (rewrite Department_force_load_page in Hfail; by inversion Hfail).
    split; [done|]. split; [done|]. split; [done|].
    rewrite Department_force_load_page. simpl. by rewrite !populations_visit.
  - intros self b b1 e Hfail. unfold CourseReader.auto_load in *.
    destruct (CourseReader.loaded self); cbn [negb] in *; [discriminate Hfail|].
    assert (b1 = visit b (CourseReader.base_url self)) as ->
      by (rewrite CourseReader_force_load_page in Hfail; by inversion Hfail).
    split; [done|]. split; [done|]. split; [done|].
    rewrite CourseReader_force_load_page. simpl. by rewrite !populations_visit.
Qed.

(** A first fetch that times out, and a second that brings the page. *)
Lemma failed_load_is_retried_sample :
  (Department.auto_load Sample.code_init Sample.code_prefix Sample.math
     (Sample.flaky_browser [Sample.mac2313; Sample.cont_T])).1
  = Err (Raise "URLError" "timed out")
  ∧ Department.loaded <$>
      (Department.auto_load Sample.code_init Sample.code_prefix Sample.math
         (Department.auto_load Sample.code_init Sample.code_prefix Sample.math
            (Sample.flaky_browser [Sample.mac2313; Sample.cont_T])).2).1
    = Ok true
  ∧ populations
      (Department.auto_load Sample.code_init Sample.code_prefix Sample.math
         (Department.auto_load Sample.code_init Sample.code_prefix Sample.math
            (Sample.flaky_browser [Sample.mac2313; Sample.cont_T])).2).2
    = 2%nat.
Proof.
  assert ((Department.auto_load Sample.code_init Sample.code_prefix Sample.math
             (Sample.flaky_browser [Sample.mac2313; Sample.cont_T])).1
          = Err (Raise "URLError" "timed out")) as Hfail
    by (vm_compute; reflexivity).
  split; [exact Hfail|]. split; [vm_compute; reflexivity|].
  refine (proj2 (proj2 (proj2
            (proj1 (failed_load_is_retried _ Sample.code_init Sample.code_prefix
                      (λ s, s) Sample.similar_zip)
               Sample.math (Sample.flaky_browser [Sample.mac2313; Sample.cont_T])
               _ (Raise "URLError" "timed out") _)))).
  rewrite <- Hfail. apply surjective_pairing.
Defined.

(** ** Rating a department name *)

Section Max.

Context {A : Type} (gt : A → A → bool).
Hypothesis gt_irrefl : ∀ a, gt a a = false.
Hypothesis gt_trans : ∀ a b c, gt a b = true → gt b c = true → gt a c = true.

Lemma gt_asym (a b : A) : gt a b = true → gt b a = false.
Proof.
  intros Hab. destruct (gt b a) eqn:Hba; [|done].
  by rewrite <- (gt_irrefl a), (gt_trans a b a).
Qed.

Lemma foldl_max (x : A) (xs : list A) :
  let m := foldl (λ m y, if gt y m then y else m) x xs in
  (m = x ∨ gt m x = true) ∧ m ∈ x :: xs ∧ ∀ y, y ∈ xs → gt y m = false.
Proof.
  revert x. induction xs as [|y xs IH]; intros x; simpl.
  - split; [by left|]. split; [by left|]. intros y Hy. by apply elem_of_nil in Hy.
  - destruct (gt y x) eqn:Hyx.
    + destruct (IH y) as (Hm & Hin & Hmax). split; [|split].
      * right. destruct Hm as [->|Hm]; [done | by eapply gt_trans].
      * by right.
      * intros z Hz. apply elem_of_cons in Hz as [->|Hz]; [|by apply Hmax].
        destruct Hm as [->|Hm]; [apply gt_irrefl | by apply gt_asym].
    + destruct (IH x) as (Hm & Hin & Hmax). split; [done|]. split.
      * apply elem_of_cons in Hin as [->|Hin]; [by left | by right; right].
      * intros z Hz. apply elem_of_cons in Hz as [->|Hz]; [|by apply Hmax].
        destruct Hm as [->|Hm]; [done|].
        destruct (gt y (foldl (λ m y, if gt y m then y else m) x xs)) eqn:Hy; [|done].
        by rewrite (gt_trans _ _ _ Hy Hm) in Hyx.
Qed.

Lemma py_max_spec (x : A) (xs : list A) :
  ∃ m, py_max gt (x :: xs) = Ok m ∧ m ∈ x :: xs ∧ ∀ y, y ∈ x :: xs → gt y m = false.
Proof.
  destruct (foldl_max x xs) as (Hm & Hin & Hmax).
  eexists. split; [reflexivity|]. split; [exact Hin|].
  intros y Hy. apply elem_of_cons in Hy as [->|Hy]; [|by apply Hmax].
  destruct Hm as [->|Hm]; [apply gt_irrefl | by apply gt_asym].
Qed.

End Max.

(** X8. [rate_similarity] called with [fast] true raises an AttributeError
    before it scores anything: the algorithm is looked up on the name, which
    is a string. Called with [fast] false on a department that has its names,
    as every department made by the constructor has, it returns the score of
    one of the abbreviated names against the abbreviated argument, and no
    abbreviated name scores more, whenever [>] on scores is a strict order. *)
Theorem rate_similarity_best :
  ∀ (CourseCode : Type) (replace_abbreviations : string → string) (Score : Type)
    (gt : Score → Score → bool) (lev_ratio : string → string → Score)
    (self : Department.t CourseCode) (department_name : string),
    (rate_similarity replace_abbreviations gt lev_ratio self department_name true
     = Err (AttributeError "scoring_algorithm"))
    ∧ ((∀ a, gt a a = false) →
       (∀ a b c, gt a b = true → gt b c = true → gt a c = true) →
       Department.abbreviated_names self ≠ [] →
       ∃ score,
         rate_similarity replace_abbreviations gt lev_ratio self department_name false
         = Ok score
         ∧ (∃ i, i ∈ Department.abbreviated_names self
                 ∧ score = lev_ratio (replace_abbreviations department_name) i)
         ∧ (∀ i, i ∈ Department.abbreviated_names self →
                 gt (lev_ratio (replace_abbreviations department_name) i) score = false))
    ∧ (∀ name alternate_names prefixes base_url relative_url,
        Department.abbreviated_names
          (Department.init (CourseCode := CourseCode) replace_abbreviations name
             alternate_names prefixes base_url relative_url)
        = replace_abbreviations name :: (replace_abbreviations <$> alternate_names)).
Proof.
  intros CourseCode replace_abbreviations Score gt lev_ratio self department_name.
  split; [reflexivity|]. split; [|reflexivity].
  intros Hirr Htrans Hne. unfold rate_similarity. simpl.
  destruct (Department.abbreviated_names self) as [|i0 names]; [done|].
  rewrite fmap_cons.
  destruct (py_max_spec gt Hirr Htrans
              (lev_ratio (replace_abbreviations department_name) i0)
              (lev_ratio (replace_abbreviations department_name) <$> names))
    as (m & Hmax & Hin & Hbest).
  exists m. split; [exact Hmax|]. split.
  - rewrite <- fmap_cons in Hin. apply list_elem_of_fmap in Hin as (i & -> & Hi). eauto.
  - intros i Hi. apply Hbest. rewrite <- fmap_cons. apply list_elem_of_fmap. eauto.
Qed.

(** Scores that add up the lengths of the two names. *)
Lemma rate_similarity_best_sample :
  let score := λ a b : string, Z.of_nat (String.length a + String.length b) in
  ∃ best,
    rate_similarity (CourseCode := string * string) (λ s, s) Z.gtb score
      Sample.math "Maths" false = Ok best
    ∧ (∀ i, i ∈ Department.abbreviated_names Sample.math →
            Z.gtb (score "Maths" i) best = false).
Proof.
  intros score.
  destruct (proj1 (proj2 (rate_similarity_best (string * string) (λ s, s) Z Z.gtb
                            score Sample.math "Maths")))
    as (best & Hbest & _ & Hmax).
  - intros a. rewrite Z.gtb_ltb. apply Z.ltb_irrefl.
  - intros a b c. rewrite !Z.gtb_ltb, !Z.ltb_lt. lia.
  - discriminate.
  - exists best. split; [exact Hbest | exact Hmax].
Defined.

(** ** Building the departments of a reader *)

Lemma foldr_min_le (n a : nat) (ls : list nat) :
  (n ≤ foldr (λ x acc, Nat.min x acc) a ls ↔ n ≤ a ∧ Forall (λ x, n ≤ x) ls)%nat.
Proof.
  induction ls as [|x ls IH]; simpl.
  - split; [intros ?; split; [done | constructor] | by intros [? _]].
  - rewrite Nat.min_glb_iff, IH, Forall_cons. tauto.
Qed.

Lemma foldr_min_lengths {A} (a : nat) (rs : list (list A)) :
  foldr (λ x acc, Nat.min (length x) acc) a rs
  = foldr (λ x acc, Nat.min x acc) a (length <$> rs).
Proof. induction rs as [|r rs IH]; simpl; [done | by rewrite IH]. Qed.

Lemma zip_star_lookup {A} (r : list A) (rs : list (list A)) (i : nat) :
  zip_star (r :: rs) !! i
  = if decide (Forall (λ row, (i < length row)%nat) (r :: rs))
    then Some (omap (λ row, row !! i) (r :: rs)) else None.
Proof.
  unfold zip_star.
  set (n := foldr (λ x acc, Nat.min (length x) acc) (length r) rs).
  assert (∀ k, (k ≤ n)%nat ↔ Forall (λ row, (k ≤ length row)%nat) (r :: rs)) as Hn.
  { intros k. subst n.
    rewrite foldr_min_lengths.
    rewrite foldr_min_le, Forall_cons, Forall_fmap. done. }
  rewrite list_lookup_fmap. destruct (decide (i < n)%nat) as [Hlt|Hge].
  - rewrite lookup_seq_lt by done. simpl.
    rewrite decide_True; [done|]. by apply (Hn (S i)).
  - rewrite lookup_seq_ge by lia. simpl.
    rewrite decide_False; [done|]. intros Hall. apply Hge. by apply (Hn (S i)).
Qed.

Lemma zip_star_length {A} (r : list A) (rs : list (list A)) (n : nat) :
  Forall (λ row, (n ≤ length row)%nat) (r :: rs) →
  Exists (λ row, length row = n) (r :: rs) →
  length (zip_star (r :: rs)) = n.
Proof.
  intros Hall Hex. unfold zip_star. rewrite length_fmap, length_seq.
  rewrite foldr_min_lengths.
  apply Nat.le_antisymm.
  - destruct (decide (S n ≤ foldr (λ x acc, Nat.min x acc) (length r) (length <$> rs))%nat)
      as [Hbig|]; [|lia].
    apply foldr_min_le in Hbig as [Hr Hrs]. rewrite Forall_fmap in Hrs.
    apply Exists_exists in Hex as (row & Hin & Hlen).
    apply elem_of_cons in Hin as [->|Hin]; [lia|].
    rewrite Forall_forall in Hrs. specialize (Hrs _ Hin). simpl in Hrs. lia.
  - apply foldr_min_le. apply Forall_cons in Hall as [Hr Hrs].
    split; [done|]. by rewrite Forall_fmap.
Qed.

(** A table whose rows have two cells or more, one of them two cells:
    its columns are the first cells and the second cells. *)
Lemma zip_star_two_columns {A} (rows : list (list A)) :
  Forall (λ row, (2 ≤ length row)%nat) rows →
  Exists (λ row, length row = 2%nat) rows →
  zip_star rows = [omap (λ row, row !! 0%nat) rows; omap (λ row, row !! 1%nat) rows].
Proof.
  intros Hall Hex. destruct rows as [|r rs]; [by apply Exists_nil in Hex|].
  pose proof (zip_star_length r rs 2 Hall Hex) as Hlen.
  pose proof (zip_star_lookup r rs 0) as H0.
  pose proof (zip_star_lookup r rs 1) as H1.
  rewrite decide_True in H0 by (eapply Forall_impl; [exact Hall | simpl; lia]).
  rewrite decide_True in H1 by (eapply Forall_impl; [exact Hall | simpl; lia]).
  destruct (zip_star (r :: rs)) as [|c0 [|c1 [|c2 cols]]]; try discriminate Hlen.
  simpl in H0, H1. by inversion H0; inversion H1.
Qed.

Lemma dict_snoc {V} (pairs : list (string * V)) (k : string) (v : V) :
  dict (pairs ++ [(k, v)]) = <[k := v]> (dict pairs).
Proof. unfold dict. by rewrite foldl_app. Qed.

(** [dict(pairs)[k]] is the value of the last pair with key [k]. *)
Lemma dict_lookup {V} (pairs : list (string * V)) (k : string) :
  dict pairs !! k = last ((filter (λ kv, kv.1 = k) pairs).*2).
Proof.
  induction pairs as [|[k' v] pairs IH] using rev_ind; [done|].
  rewrite dict_snoc, filter_app, fmap_app, filter_cons, filter_nil. simpl.
  destruct (decide (k' = k)) as [->|Hne].
  - rewrite lookup_insert_eq. simpl. by rewrite last_snoc.
  - rewrite lookup_insert_ne by done. simpl. by rewrite app_nil_r.
Qed.

Lemma dict_lookup_is_Some {V} (pairs : list (string * V)) (k : string) :
  k ∈ pairs.*1 → is_Some (dict pairs !! k).
Proof.
  intros Hin. rewrite dict_lookup.
  apply list_elem_of_fmap in Hin as ([k' v] & -> & Hin).
  assert (v ∈ (filter (λ kv, kv.1 = k') pairs).*2) as Hv.
  { apply list_elem_of_fmap. exists (k', v). split; [done|].
    by apply list_elem_of_filter. }
  apply last_is_Some. intros Hnil. simpl in Hnil. rewrite Hnil in Hv.
  by apply elem_of_nil in Hv.
Qed.

Section BuildDepartments.

Context {CourseCode : Type}.
Variable replace_abbreviations : string → string.
Variable similar_zip : list string → gset string → result (list (string * string)).

(** The department that the loop builds for a matched pair. *)
Lemma new_department_Ok base_url prefix_lookup url_lookup (m t : string)
    (ps : list string) (u : string) :
  prefix_lookup !! t = Some ps → url_lookup !! m = Some u →
  CourseReader.new_department (CourseCode := CourseCode) replace_abbreviations base_url
    prefix_lookup url_lookup (m, t)
  = Ok (Department.init replace_abbreviations t (if decide (m = t) then [] else [m])
          ps base_url u).
Proof.
  intros Hp Hu. unfold CourseReader.new_department, Py.getitem. rewrite Hp, Hu.
  simpl. unfold tuple. by destruct (decide (m = t)), (decide (m ≠ t)).
Qed.

Lemma new_departments_Ok base_url prefix_lookup url_lookup matched_depts :
  Forall (λ names, is_Some (prefix_lookup !! names.2) ∧ is_Some (url_lookup !! names.1))
    matched_depts →
  ∃ deps : list (Department.t CourseCode),
    CourseReader.new_departments replace_abbreviations base_url prefix_lookup url_lookup
      matched_depts = Ok deps
    ∧ Forall2 (λ names dep,
        ∃ ps u, prefix_lookup !! names.2 = Some ps ∧ url_lookup !! names.1 = Some u
                ∧ dep = Department.init replace_abbreviations names.2
                          (if decide (names.1 = names.2) then [] else [names.1])
                          ps base_url u)
        matched_depts deps.
Proof.
  induction 1 as [|[m t] rest [[ps Hp] [u Hu]] _ (deps & Hdeps & Hall)].
  - exists []. split; [done | constructor].
  - simpl in Hp, Hu. cbn [CourseReader.new_departments].
    rewrite (new_department_Ok _ _ _ m t ps u), Hdeps by done.
    eexists. split; [reflexivity|].
    constructor; [|done]. by exists ps, u.
Qed.

End BuildDepartments.

Lemma omap_lookup_length {A} (rows : list (list A)) (i : nat) :
  Forall (λ row, (i < length row)%nat) rows →
  length (omap (λ row, row !! i) rows) = length rows.
Proof.
  induction 1 as [|row rows Hrow _ IH]; [done|].
  cbn [omap list_omap]. destruct (lookup_lt_is_Some_2 row i Hrow) as [x ->].
  simpl. f_equal. exact IH.
Qed.

Section BuildDepartmentsCases.

Context {CourseCode : Type}.
Variable replace_abbreviations : string → string.
Variable similar_zip : list string → gset string → result (list (string * string)).

Implicit Types (department_menu : list (string * string))
  (prefix_table : list (list string)).

(** [build_departments] once the menu and the table have passed the two
    unzip steps. *)
Lemma build_departments_unzipped base_url department_menu prefix_table :
  department_menu ≠ [] → prefix_table ≠ [] →
  Forall (λ row, (2 ≤ length row)%nat) prefix_table →
  CourseReader.build_departments (CourseCode := CourseCode) replace_abbreviations
    similar_zip base_url department_menu prefix_table
  = (matched_depts ← similar_zip (department_menu.*1)
                       (list_to_set (omap (λ row, row !! 1%nat) prefix_table));
     if decide (length matched_depts = length department_menu) then
       prefix_lookup ←
         match reverse (zip_star prefix_table) with
         | [list_a; list_b] => Ok (parallel_lists_to_tuple_dict list_a list_b)
         | _ => Err TypeError
         end;
       CourseReader.new_departments replace_abbreviations base_url prefix_lookup
         (dict department_menu) matched_depts
     else Err AssertionError).
Proof.
  intros Hmenu Htable Hrows. unfold CourseReader.build_departments.
  destruct department_menu as [|entry menu]; [done|].
  destruct prefix_table as [|r rs]; [done|].
  rewrite zip_star_lookup, decide_True
    by (eapply Forall_impl; [exact Hrows | simpl; lia]).
  simpl. destruct (similar_zip _ _) as [matched_depts|e]; [simpl|done].
  rewrite length_fmap. done.
Qed.

End BuildDepartmentsCases.

(** X9. The exceptions of the matching step of [CourseReader.force_load]:
    an empty menu raises StopIteration; with a menu, a prefix table that is
    empty or has a row of fewer than two cells raises IndexError; otherwise an
    exception of [similar_zip] is passed on, a matching of another length
    than the menu raises AssertionError, and a table whose rows all have three
    cells or more raises TypeError. *)
Theorem build_departments_raises :
  ∀ (CourseCode : Type) (replace_abbreviations : string → string)
    (similar_zip : list string → gset string → result (list (string * string)))
    (base_url : string) (department_menu : list (string * string))
    (prefix_table : list (list string)),
    let build := CourseReader.build_departments (CourseCode := CourseCode)
                   replace_abbreviations similar_zip base_url department_menu
                   prefix_table in
    let table_names := omap (λ row, row !! 1%nat) prefix_table in
    (department_menu = [] → build = Err StopIteration)
    ∧ (department_menu ≠ [] →
       prefix_table = [] ∨ Exists (λ row, (length row < 2)%nat) prefix_table →
       build = Err IndexError)
    ∧ (department_menu ≠ [] → prefix_table ≠ [] →
       Forall (λ row, (2 ≤ length row)%nat) prefix_table →
       (∀ e, similar_zip (department_menu.*1) (list_to_set table_names) = Err e →
             build = Err e)
       ∧ (∀ matched_depts,
            similar_zip (department_menu.*1) (list_to_set table_names) = Ok matched_depts →
            length matched_depts ≠ length department_menu →
            build = Err AssertionError)
       ∧ (∀ matched_depts,
            similar_zip (department_menu.*1) (list_to_set table_names) = Ok matched_depts →
            length matched_depts = length department_menu →
            Forall (λ row, (3 ≤ length row)%nat) prefix_table →
            build = Err TypeError)).
Proof.
  intros CourseCode replace_abbreviations similar_zip base_url department_menu
    prefix_table build table_names.
  split; [|split].
  - intros ->. reflexivity.
  - intros Hmenu Hshort. subst build. unfold CourseReader.build_departments.
    destruct department_menu as [|entry menu]; [done|]. simpl.
    destruct prefix_table as [|r rs]; [done|].
    rewrite zip_star_lookup, decide_False; [done|].
    destruct Hshort as [?|Hshort]; [done|].
    intros Hall. apply Exists_exists in Hshort as (row & Hin & Hlen).
    rewrite Forall_forall in Hall. specialize (Hall _ Hin). simpl in Hall. lia.
  - intros Hmenu Htable Hrows. subst build table_names.
    rewrite build_departments_unzipped by done.
    split; [|split].
    + intros e ->. reflexivity.
    + intros matched_depts -> Hlen. simpl. by rewrite decide_False.
    + intros matched_depts -> Hlen Hwide. simpl. rewrite decide_True by done.
      destruct prefix_table as [|r rs]; [done|].
      pose proof (zip_star_lookup r rs 2) as H2.
      rewrite decide_True in H2 by (eapply Forall_impl; [exact Hwide | simpl; lia]).
      apply lookup_lt_Some in H2. rewrite <- length_reverse in H2.
      destruct (reverse (zip_star (r :: rs))) as [|c0 [|c1 [|c2 cols]]];
        simpl in H2; try lia; reflexivity.
Qed.

Lemma build_departments_raises_sample :
  CourseReader.build_departments (CourseCode := string * string) (λ s, s)
    Sample.similar_zip "http://www.registrar.ufl.edu/soc/201108/all/"
    Sample.department_menu [["MAC"; "Mathematics"]; ["PHY"]]
  = Err IndexError
  ∧ CourseReader.build_departments (CourseCode := string * string) (λ s, s)
      Sample.similar_zip "http://www.registrar.ufl.edu/soc/201108/all/"
      Sample.department_menu
      [["MAC"; "Mathematics"; "Arts and Sciences"]; ["PHY"; "Physics"; "Arts and Sciences"]]
    = Err TypeError.
Proof.
  split.
  - destruct (build_departments_raises (string * string) (λ s, s) Sample.similar_zip
                "http://www.registrar.ufl.edu/soc/201108/all/" Sample.department_menu
                [["MAC"; "Mathematics"]; ["PHY"]]) as (_ & Hindex & _).
    apply Hindex; [discriminate|].
    right. apply Exists_cons_tl, Exists_cons_hd. simpl. lia.
  - destruct (build_departments_raises (string * string) (λ s, s) Sample.similar_zip
                "http://www.registrar.ufl.edu/soc/201108/all/" Sample.department_menu
                [["MAC"; "Mathematics"; "Arts and Sciences"];
                 ["PHY"; "Physics"; "Arts and Sciences"]]) as (_ & _ & Hrest).
    destruct Hrest as (_ & _ & Htype);
      [discriminate | discriminate | repeat constructor |].
    eapply Htype; [vm_compute; reflexivity | reflexivity | repeat constructor].
Defined.

(** X10. When the prefix table has rows of two cells or more, one of them
    of two, and [similar_zip] pairs every menu name with a name of the table,
    the departments are built without a KeyError: one for each matched pair,
    in order, named by the table-side name, holding the codes that stand beside
    that name in the table, in the table's order, and the page that the menu
    gives last for the menu-side name; none is loaded. *)
Theorem build_departments_returns :
  ∀ (CourseCode : Type) (replace_abbreviations : string → string)
    (similar_zip : list string → gset string → result (list (string * string)))
    (base_url : string) (department_menu : list (string * string))
    (prefix_table : list (list string)) (matched_depts : list (string * string)),
    let codes := omap (λ row, row !! 0%nat) prefix_table in
    let table_names := omap (λ row, row !! 1%nat) prefix_table in
    department_menu ≠ [] →
    Forall (λ row, (2 ≤ length row)%nat) prefix_table →
    Exists (λ row, length row = 2%nat) prefix_table →
    similar_zip (department_menu.*1) (list_to_set table_names) = Ok matched_depts →
    length matched_depts = length department_menu →
    Forall (λ names, names.1 ∈ department_menu.*1 ∧ names.2 ∈ table_names)
      matched_depts →
    ∃ deps : list (Department.t CourseCode),
      CourseReader.build_departments replace_abbreviations similar_zip base_url
        department_menu prefix_table = Ok deps
      ∧ Forall2 (λ names dep,
          ∃ page,
            last ((filter (λ kv, kv.1 = names.1) department_menu).*2) = Some page
            ∧ dep = Department.init replace_abbreviations names.2
                      (if decide (names.1 = names.2) then [] else [names.1])
                      (values_of names.2 table_names codes) base_url page)
          matched_depts deps.
Proof.
  intros CourseCode replace_abbreviations similar_zip base_url department_menu
    prefix_table matched_depts codes table_names Hmenu Hrows Htwo Hsim Hlen Hnames.
  assert (prefix_table ≠ []) as Htable by (intros ->; by apply Exists_nil in Htwo).
  rewrite build_departments_unzipped by done.
  fold table_names. rewrite Hsim. simpl. rewrite decide_True by done.
  rewrite zip_star_two_columns by done. fold codes table_names. simpl.
  assert (length table_names = length codes) as Hcols.
  { subst table_names codes.
    rewrite !omap_lookup_length;
      [done | eapply Forall_impl; [exact Hrows | simpl; lia]..]. }
  destruct (new_departments_Ok (CourseCode := CourseCode) replace_abbreviations base_url
              (parallel_lists_to_tuple_dict table_names codes) (dict department_menu)
              matched_depts) as (deps & Hdeps & Hall).
  { eapply Forall_impl; [exact Hnames|]. intros [m t] [Hm Ht]. simpl in *. split.
    - rewrite parallel_lists_lookup.
      destruct (values_of t table_names codes) eqn:Hv; [|by eexists].
      exfalso. by apply (values_of_nil_iff t table_names codes Hcols) in Hv.
    - by apply dict_lookup_is_Some. }
  exists deps. split; [exact Hdeps|].
  eapply Forall2_impl; [exact Hall|].
  intros [m t] dep (ps & page & Hps & Hpage & ->). simpl in *.
  exists page. split; [by rewrite <- dict_lookup|].
  rewrite parallel_lists_lookup in Hps.
  destruct (values_of t table_names codes) eqn:Hv; [discriminate|].
  by inversion Hps.
Qed.

Lemma build_departments_returns_sample :
  ∃ deps : list (Department.t (string * string)),
    CourseReader.build_departments (λ s, s) Sample.similar_zip
      "http://www.registrar.ufl.edu/soc/201108/all/"
      Sample.department_menu Sample.prefix_table = Ok deps
    ∧ Forall2 (λ names dep,
        ∃ page,
          last ((filter (λ kv, kv.1 = names.1) Sample.department_menu).*2) = Some page
          ∧ dep = Department.init (λ s, s) names.2
                    (if decide (names.1 = names.2) then [] else [names.1])
                    (values_of names.2 ["Mathematics"; "Physics"; "Mathematics"]
                       ["MAC"; "PHY"; "MAP"])
                    "http://www.registrar.ufl.edu/soc/201108/all/" page)
        [("MATHEMATICS", "Mathematics"); ("Physics", "Physics")] deps.
Proof.
  apply (build_departments_returns (string * string) (λ s, s) Sample.similar_zip
           "http://www.registrar.ufl.edu/soc/201108/all/"
           Sample.department_menu Sample.prefix_table).
  - discriminate.
  - repeat constructor.
  - apply Exists_cons_hd. reflexivity.
  - vm_compute. reflexivity.
  - reflexivity.
  - repeat constructor; simpl; set_solver.
Defined.

(** ** The URL and the year of a reader *)

Lemma chars_app (s t : string) :
  list_ascii_of_string (s +:+ t) = list_ascii_of_string s ++ list_ascii_of_string t.
Proof. induction s as [|c s IH]; [done|]. simpl. by rewrite IH. Qed.

Lemma chars_inj (s t : string) :
  list_ascii_of_string s = list_ascii_of_string t → s = t.
Proof.
  intros Heq.
  by rewrite <- (string_of_list_ascii_of_string s), Heq, string_of_list_ascii_of_string.
Qed.

Lemma string_app_assoc (s t u : string) : (s +:+ t) +:+ u = s +:+ (t +:+ u).
Proof. apply chars_inj. by rewrite !chars_app, app_assoc. Qed.

(** Two strings that end in tails of one length are equal part by part. *)
Lemma string_app_inj_tail (s1 s2 t1 t2 : string) :
  String.length t1 = String.length t2 →
  s1 +:+ t1 = s2 +:+ t2 → s1 = s2 ∧ t1 = t2.
Proof.
  intros Hlen Heq.
  assert (∀ s, length (list_ascii_of_string s) = String.length s) as Hl
    by (induction s; simpl; congruence).
  apply (f_equal list_ascii_of_string) in Heq. rewrite !chars_app in Heq.
  apply app_inj_2 in Heq as [H1 H2]; [|by rewrite !Hl].
  split; by apply chars_inj.
Qed.

Section ReaderUrl.

Context {CourseCode Semester : Type} `{EqDecision Semester}.
Variables SPRING SUMMER FALL : Semester.

(** What a constructor that returns has checked and built. *)
Lemma init_Ok_inv (year : YearArg) (semester : Semester) (full : bool) (b : Browser)
    (self : CourseReader.t CourseCode) :
  (CourseReader.init SPRING SUMMER FALL year semester full b).1 = Ok self →
  ∃ (y : Z) (month : string),
    CourseReader.int_year year = Ok y ∧ 2001 ≤ y ∧ (full = true ∨ 2005 ≤ y)
    ∧ CourseReader.month_of SPRING SUMMER FALL semester = Some month
    ∧ self = {| CourseReader.base_url :=
                  "http://www.registrar.ufl.edu/soc/" +:+ Py.fmt_d y +:+ month
                  +:+ "/" +:+ (if full then "all" else "web") +:+ "/";
                CourseReader.departments := None;
                CourseReader.loaded := false |}.
Proof.
  unfold CourseReader.init. simpl. intros Hinit.
  apply bind_Ok_inv in Hinit as (y & Hy & Hinit).
  destruct (y <? 2001) eqn:H1; [discriminate|]. apply Z.ltb_ge in H1.
  destruct (negb full && (y <? 2005)) eqn:H5; [discriminate|].
  destruct (CourseReader.month_of SPRING SUMMER FALL semester) as [month|] eqn:Hm;
    [|discriminate].
  exists y, month. split; [done|]. split; [done|]. split.
  - destruct full; [by left|]. right. simpl in H5. by apply Z.ltb_ge.
  - split; [done|]. by inversion Hinit.
Qed.

Lemma month_of_cases (semester : Semester) (month : string) :
  CourseReader.month_of SPRING SUMMER FALL semester = Some month →
  (month = "01" ∧ semester = SPRING)
  ∨ (month = "06" ∧ semester = SUMMER ∧ semester ≠ SPRING)
  ∨ (month = "08" ∧ semester = FALL ∧ semester ≠ SPRING ∧ semester ≠ SUMMER).
Proof.
  unfold CourseReader.month_of. repeat case_decide; intros Hm; inversion Hm.
  - by left.
  - right. left. by repeat split.
  - right. right. by repeat split.
Qed.

End ReaderUrl.

(** X11. The URL of a reader tells the request apart: two constructions
    that return readers with the same URL were given the same year, the same
    choice of full or web listings, and semesters of the same month, hence
    the same semester when both are among three distinct constants. *)
Theorem base_url_tells_request :
  ∀ (CourseCode Semester : Type) (EqSem : EqDecision Semester)
    (SPRING SUMMER FALL : Semester) (year1 year2 : YearArg) (y1 y2 : Z)
    (semester1 semester2 : Semester) (full1 full2 : bool) (b1 b2 : Browser)
    (self1 self2 : CourseReader.t CourseCode),
    CourseReader.int_year year1 = Ok y1 →
    CourseReader.int_year year2 = Ok y2 →
    (CourseReader.init SPRING SUMMER FALL year1 semester1 full1 b1).1 = Ok self1 →
    (CourseReader.init SPRING SUMMER FALL year2 semester2 full2 b2).1 = Ok self2 →
    CourseReader.base_url self1 = CourseReader.base_url self2 →
    y1 = y2 ∧ full1 = full2
    ∧ CourseReader.month_of SPRING SUMMER FALL semester1
      = CourseReader.month_of SPRING SUMMER FALL semester2
    ∧ (SPRING ≠ SUMMER → SPRING ≠ FALL → SUMMER ≠ FALL → semester1 = semester2).
Proof.
  intros CourseCode Semester EqSem SPRING SUMMER FALL year1 year2 y1 y2
    semester1 semester2 full1 full2 b1 b2 self1 self2 Hy1 Hy2 Hinit1 Hinit2 Hurl.
  apply init_Ok_inv in Hinit1 as (y1' & month1 & Hy1' & _ & _ & Hm1 & ->).
  apply init_Ok_inv in Hinit2 as (y2' & month2 & Hy2' & _ & _ & Hm2 & ->).
  rewrite Hy1 in Hy1'. rewrite Hy2 in Hy2'. inversion Hy1'; inversion Hy2'; subst y1' y2'.
  simpl in Hurl. apply (inj (String.app _)) in Hurl.
  apply string_app_inj_tail in Hurl as [Hy Htail].
  - apply (inj pretty) in Hy.
    pose proof (month_of_cases _ _ _ _ _ Hm1) as Hc1.
    pose proof (month_of_cases _ _ _ _ _ Hm2) as Hc2.
    assert (month1 = month2 ∧ full1 = full2) as [-> ->].
    { destruct Hc1 as [[-> _]|[[-> _]|[-> _]]], Hc2 as [[-> _]|[[-> _]|[-> _]]],
        full1, full2; simpl in Htail; (discriminate Htail || done). }
    split; [done|]. split; [done|]. split; [by rewrite Hm1, Hm2|].
    intros Hss Hsf Huf.
    destruct Hc1 as [[E1 ->]|[[E1 [-> _]]|[E1 [-> _]]]],
             Hc2 as [[E2 ->]|[[E2 [-> _]]|[E2 [-> _]]]];
      (done || (rewrite E1 in E2; discriminate E2)).
  - pose proof (month_of_cases _ _ _ _ _ Hm1) as Hc1.
    pose proof (month_of_cases _ _ _ _ _ Hm2) as Hc2.
    destruct Hc1 as [[-> _]|[[-> _]|[-> _]]], Hc2 as [[-> _]|[[-> _]|[-> _]]],
      full1, full2; reflexivity.
Qed.

Lemma base_url_tells_request_sample :
  2011 = 2011 ∧ true = true
  ∧ CourseReader.month_of "SPRING" "SUMMER" "FALL" "FALL"
    = CourseReader.month_of "SPRING" "SUMMER" "FALL" "FALL"
  ∧ ("SPRING" ≠ "SUMMER" → "SPRING" ≠ "FALL" → "SUMMER" ≠ "FALL" → "FALL" = "FALL").
Proof.
  apply (base_url_tells_request (string * string) string _ "SPRING" "SUMMER" "FALL"
           (YearStr "2011") (YearInt 2011) 2011 2011 "FALL" "FALL" true true
           Sample.main_browser Sample.main_browser Sample.reader Sample.reader);
    vm_compute; reflexivity.
Defined.

(** ** A year given as a string *)

Lemma pretty_N_char_digit (d : N) :
  (d < 10)%N →
  Py.isdigit (pretty_N_char d) = true ∧ Py.digit (pretty_N_char d) = Z.of_N d.
Proof.
  intros Hd.
  assert (d = 0 ∨ d = 1 ∨ d = 2 ∨ d = 3 ∨ d = 4 ∨ d = 5 ∨ d = 6 ∨ d = 7 ∨ d = 8 ∨ d = 9)%N
    as Hcases by lia.
  repeat (destruct Hcases as [->|Hcases]; [by split|]). subst d. by split.
Qed.

Lemma pretty_N_go_app (x : N) (s : string) :
  pretty_N_go x s = pretty_N_go x EmptyString +:+ s.
Proof.
  revert s. induction (N.lt_wf_0 x) as [x _ IH]; intros s.
  assert (x = 0 ∨ 0 < x)%N as [->|Hpos] by lia; [done|].
  rewrite !(pretty_N_go_step x) by done.
  assert (x `div` 10 < x)%N as Hlt by (by apply N.div_lt).
  rewrite (IH _ Hlt (String (pretty_N_char (x `mod` 10)) s)).
  rewrite (IH _ Hlt (String (pretty_N_char (x `mod` 10)) EmptyString)).
  by rewrite string_app_assoc.
Qed.

(** One more digit at the end of a literal. *)
Lemma int_digits_snoc (t : string) (c : ascii) (acc v : Z) (seen : bool) :
  Py.int_digits acc seen t = Some v → Py.isdigit c = true →
  Py.int_digits acc seen (t +:+ String c EmptyString) = Some (10 * v + Py.digit c).
Proof.
  revert acc seen. induction t as [|a t IH]; intros acc seen Ht Hc; simpl in *.
  - destruct seen; [|discriminate]. inversion Ht; subst. by rewrite Hc.
  - destruct (Py.isdigit a); [by apply IH|].
    destruct (decide (a = "_"%char)); [|discriminate].
    destruct seen; [by apply IH | discriminate].
Qed.

Lemma int_digits_pretty (x : N) :
  (0 < x)%N → Py.int_digits 0 false (pretty_N_go x EmptyString) = Some (Z.of_N x).
Proof.
  induction (N.lt_wf_0 x) as [x _ IH]; intros Hpos.
  rewrite pretty_N_go_step, pretty_N_go_app by done.
  destruct (pretty_N_char_digit (x `mod` 10)) as [Hd Hv]; [by apply N.mod_lt|].
  destruct (N.eq_0_gt_0_cases (x `div` 10)) as [Hz|Hbig].
  - rewrite Hz. simpl. rewrite Hd, Hv.
    f_equal. rewrite (N.div_mod x 10) at 2 by done. lia.
  - assert (x `div` 10 < x)%N as Hlt by (by apply N.div_lt).
    rewrite (int_digits_snoc _ _ 0 (Z.of_N (x `div` 10)) false (IH _ Hlt Hbig) Hd).
    rewrite Hv. f_equal. rewrite (N.div_mod x 10) at 3 by done. lia.
Qed.

(** A literal holds digits and underscores only. *)
Lemma int_digits_chars (t : string) (acc v : Z) (seen : bool) :
  Py.int_digits acc seen t = Some v →
  Forall (λ c, Py.isdigit c = true ∨ c = "_"%char) (list_ascii_of_string t).
Proof.
  revert acc seen. induction t as [|a t IH]; intros acc seen Ht; simpl in *.
  - constructor.
  - destruct (Py.isdigit a) eqn:Ha.
    + constructor; [by left | by eapply IH].
    + destruct (decide (a = "_"%char)) as [->|]; [|discriminate].
      destruct seen; [|discriminate]. constructor; [by right | by eapply IH].
Qed.

Lemma literal_char_no_space (c : ascii) :
  Py.isdigit c = true ∨ c = "_"%char ∨ c = "-"%char → Py.int_isspace c = false.
Proof.
  destruct c as [[] [] [] [] [] [] [] []]; vm_compute;
    intros [H|[H|H]]; (reflexivity || discriminate H).
Qed.

Lemma string_rev_involutive (s : string) : String.rev (String.rev s) = s.
Proof. apply chars_inj. by rewrite !chars_rev, reverse_involutive. Qed.

Lemma lstrip_with_id (space : ascii → bool) (s : string) :
  Forall (λ c, space c = false) (list_ascii_of_string s) →
  Py.lstrip_with space s = s.
Proof.
  destruct s as [|c s]; [done|]. simpl. intros Hall.
  inversion Hall as [|? ? Hc]. by rewrite Hc.
Qed.

(** [strip_with] leaves a string without white space as it is. *)
Lemma strip_with_id (space : ascii → bool) (s : string) :
  Forall (λ c, space c = false) (list_ascii_of_string s) →
  Py.strip_with space s = s.
Proof.
  intros Hall. unfold Py.strip_with. rewrite (lstrip_with_id space s) by done.
  rewrite lstrip_with_id; [apply string_rev_involutive|].
  rewrite chars_rev. by apply Forall_reverse.
Qed.

Lemma int_pretty_N (x : N) :
  (0 < x)%N →
  Py.int_signed (Py.strip_with Py.int_isspace (pretty_N_go x EmptyString))
  = Some (Z.of_N x)
  ∧ Py.int_signed (Py.strip_with Py.int_isspace
                     ("-" +:+ pretty_N_go x EmptyString))
    = Some (- Z.of_N x).
Proof.
  intros Hpos. pose proof (int_digits_pretty x Hpos) as Hval.
  assert (Forall (λ c, Py.int_isspace c = false)
            (list_ascii_of_string (pretty_N_go x EmptyString))) as Hchars.
  { eapply Forall_impl; [by eapply int_digits_chars|].
    intros c [?|?]; apply literal_char_no_space; auto. }
  split.
  - rewrite strip_with_id by done.
    destruct (pretty_N_go x EmptyString) as [|c t] eqn:Hs; [discriminate Hval|].
    unfold Py.int_signed. simpl in Hval.
    destruct (Py.isdigit c) eqn:Hc.
    + destruct c as [[] [] [] [] [] [] [] []]; try discriminate Hc; exact Hval.
    + destruct (decide (c = "_"%char)); discriminate Hval.
  - change ("-" +:+ pretty_N_go x EmptyString)
      with (String "-" (pretty_N_go x EmptyString)).
    rewrite strip_with_id.
    + simpl. by rewrite Hval.
    + simpl. constructor; [done | exact Hchars].
Qed.

(** [int] reads back what ["%d"] writes. *)
Lemma int_fmt_d (z : Z) : Py.int (Py.fmt_d z) = Ok z.
Proof.
  unfold Py.int, Py.fmt_d, pretty, pretty_Z. destruct z as [|p|p].
  - reflexivity.
  - unfold pretty, pretty_positive, pretty, pretty_N.
    rewrite decide_False by done.
    by rewrite (proj1 (int_pretty_N (N.pos p) eq_refl)).
  - unfold pretty, pretty_positive, pretty, pretty_N.
    rewrite decide_False by done.
    by rewrite (proj2 (int_pretty_N (N.pos p) eq_refl)).
Qed.

(** X12. The year may be given as a string: the constructor called with
    the decimal text of a year does what it does with the year itself, and
    so does any string that [int] reads as that year. *)
Theorem init_year_as_string :
  ∀ (CourseCode Semester : Type) (EqSem : EqDecision Semester)
    (SPRING SUMMER FALL : Semester) (y : Z) (semester : Semester) (full : bool)
    (b : Browser),
    CourseReader.init (CourseCode := CourseCode) SPRING SUMMER FALL
      (YearStr (Py.fmt_d y)) semester full b
    = CourseReader.init SPRING SUMMER FALL (YearInt y) semester full b
    ∧ ∀ s : string,
        Py.int s = Ok y →
        CourseReader.init (CourseCode := CourseCode) SPRING SUMMER FALL
          (YearStr s) semester full b
        = CourseReader.init SPRING SUMMER FALL (YearInt y) semester full b.
Proof.
  intros CourseCode Semester EqSem SPRING SUMMER FALL y semester full b.
  split.
  - apply init_year. simpl. apply int_fmt_d.
  - intros s Hs. apply init_year. exact Hs.
Qed.

Lemma init_year_as_string_sample :
  CourseReader.init (CourseCode := string * string) "SPRING" "SUMMER" "FALL"
    (YearStr " +2_011 ") "FALL" true Sample.main_browser
  = CourseReader.init "SPRING" "SUMMER" "FALL" (YearInt 2011) "FALL" true
      Sample.main_browser.
Proof.
  apply (proj2 (init_year_as_string (string * string) string _ "SPRING" "SUMMER" "FALL"
                  2011 "FALL" true Sample.main_browser)).
  reflexivity.
Defined.

(** ** Looking up departments by prefix *)

Section LookupPrefix.

Context {CourseCode : Type}.
Variable CourseCode_init : string → result CourseCode.
Variable prefix : CourseCode → string.
Variable replace_abbreviations : string → string.
Variable similar_zip : list string → gset string → result (list (string * string)).
Variable upper : string → string.

Implicit Types (dep : Department.t CourseCode) (deps : list (Department.t CourseCode))
  (b : Browser) (self : CourseReader.t CourseCode).

Lemma lookup_prefix_loop_fast (pfx : string) deps b :
  lookup_prefix_loop CourseCode_init prefix upper pfx true deps b
  = {| yielded := filter (λ dep, upper pfx ∈ Department.prefixes dep) deps;
       raised := None; final := (deps, b) |}.
Proof.
  induction deps as [|dep deps IH]; [done|].
  cbn [lookup_prefix_loop]. unfold Department.get_prefixes. simpl.
  rewrite IH, filter_cons. simpl. by destruct (decide _).
Qed.

Lemma set_departments_of_same self deps :
  CourseReader.departments self = Some deps → set_departments_of self deps = self.
Proof. destruct self. simpl. intros ->. reflexivity. Qed.

(** The departments that a returning [get_departments] hands over. *)
Lemma get_departments_Ok self b self1 v b1 :
  CourseReader.get_departments replace_abbreviations similar_zip self b
  = (Ok (self1, v), b1) →
  CourseReader.loaded self1 = true ∧ v = CourseReader.departments self1
  ∧ ((CourseReader.loaded self = true ∧ self1 = self ∧ b1 = b)
     ∨ (CourseReader.loaded self = false
        ∧ b1 = visit b (CourseReader.base_url self)
        ∧ ∃ deps, v = Some deps ∧ Forall (λ dep, Department.loaded dep = false) deps)).
Proof.
  unfold CourseReader.get_departments, CourseReader.auto_load.
  destruct (CourseReader.loaded self) eqn:Hl; cbn [negb].
  - simpl. intros Heq. inversion Heq; subst.
    split; [done|]. split; [done|]. by left.
  - rewrite CourseReader_force_load_page. cbn [fst snd]. intros Heq.
    inversion Heq as [[Hres Hb]]. clear Heq.
    apply bind_Ok_inv in Hres as (self' & Hload & Hres). inversion Hres; subst self' v.
    apply bind_Ok_inv in Hload as (parsed & _ & Hload).
    apply bind_Ok_inv in Hload as (deps & Hdeps & Hload). inversion Hload; subst self1.
    simpl. split; [done|]. split; [done|]. right. split; [done|]. split; [done|].
    exists deps. split; [done|].
    apply build_departments_matched in Hdeps as (_ & matched & _ & _ & _ & Hall).
    clear -Hall. induction Hall as [|names dep ? ? (_ & _ & Hl) _ IH]; by constructor.
Qed.

Lemma get_prefixes_Ok dep b dep1 ps b1 :
  Department_consistent prefix dep →
  Department.get_prefixes CourseCode_init prefix dep false b = (Ok (dep1, ps), b1) →
  Department.loaded dep1 = true ∧ Department_consistent prefix dep1
  ∧ same_department dep dep1 ∧ ps = Department.prefixes dep1
  ∧ populations b1 = (populations b + if Department.loaded dep then 0 else 1)%nat.
Proof.
  intros Hdep Hget. unfold Department.get_prefixes in Hget. cbn [negb] in Hget.
  destruct (Department.auto_load CourseCode_init prefix dep b) as [r b'] eqn:Hauto.
  inversion Hget as [[Hr Hb]]. subst b'. clear Hget.
  apply bind_Ok_inv in Hr as (dep' & -> & Heq). inversion Heq; subst dep' ps.
  destruct (Department_auto_load_consistent CourseCode_init prefix dep b dep1 Hdep)
    as (Hc & Hl & Hsame); [by rewrite Hauto|].
  split; [done|]. split; [done|]. split; [done|]. split; [done|].
  destruct (Department_loads_lazily CourseCode_init prefix) as (_ & _ & _ & _ & Hn & _).
  specialize (Hn dep b). by rewrite Hauto in Hn.
Qed.

(** The accurate loop: what holds when it ends without an exception. *)
Lemma lookup_prefix_loop_accurate (pfx : string) deps b :
  Forall (Department_consistent prefix) deps →
  let r := lookup_prefix_loop CourseCode_init prefix upper pfx false deps b in
  raised r = None →
  Forall2 same_department deps (final r).1
  ∧ Forall (λ dep, Department.loaded dep = true ∧ Department_consistent prefix dep)
      (final r).1
  ∧ yielded r = filter (λ dep, upper pfx ∈ Department.prefixes dep) (final r).1
  ∧ populations (final r).2
    = (populations b + length (filter (λ dep, Department.loaded dep = false) deps))%nat.
Proof.
  intros Hall. revert b. induction Hall as [|dep deps Hdep _ IH]; intros b r Hnone.
  - subst r. simpl. repeat split; try constructor. lia.
  - subst r. cbn [lookup_prefix_loop] in *.
    destruct (Department.get_prefixes CourseCode_init prefix dep false b)
      as [[[dep1 ps]|e] b1] eqn:Hget; [|discriminate Hnone].
    cbn [raised yielded final fst snd] in *.
    destruct (get_prefixes_Ok _ _ _ _ _ Hdep Hget) as (Hl & Hc & Hsame & -> & Hpop).
    destruct (IH b1 Hnone) as (Hsames & Hloaded & Hyield & Hpops).
    split; [by constructor|]. split; [by constructor|]. split.
    + rewrite filter_cons, Hyield. by destruct (decide _).
    + rewrite Hpops, Hpop, filter_cons.
      destruct (decide (Department.loaded dep = false)) as [Hu|Hu].
      * rewrite Hu. simpl. lia.
      * destruct (Department.loaded dep); [simpl; lia | done].
Qed.

End LookupPrefix.

Lemma elem_of_collect_prefixes {CourseCode : Type} (prefix : CourseCode → string)
    (cl : list (Course CourseCode)) (p : string) :
  p ∈ collect_prefixes prefix cl ↔ ∃ c, c ∈ cl ∧ prefix (course_code c) = p.
Proof.
  rewrite collect_prefixes_first_seen, elem_of_reverse, elem_of_remove_dups,
    elem_of_reverse, list_elem_of_fmap.
  split; [intros (c & -> & Hc) | intros (c & Hc & <-)]; eauto.
Qed.

Lemma get_departments_split {CourseCode : Type} (replace_abbreviations : string → string)
    (similar_zip : list string → gset string → result (list (string * string)))
    (self : CourseReader.t CourseCode) (b : Browser) :
  CourseReader.get_departments replace_abbreviations similar_zip self b
  = ((CourseReader.auto_load replace_abbreviations similar_zip self b).1
       ≫= (λ self', Ok (self', CourseReader.departments self')),
     (CourseReader.auto_load replace_abbreviations similar_zip self b).2).
Proof.
  unfold CourseReader.get_departments.
  by destruct (CourseReader.auto_load replace_abbreviations similar_zip self b).
Qed.

(** An exception that has left a generator is no [StopIteration], and
    leaves the next generator as it is. *)
Lemma generator_raise_class (e : exn) : exc_class (generator_raise e) ≠ "StopIteration".
Proof. unfold generator_raise. by destruct (decide (exc_class e = "StopIteration")). Qed.

Lemma generator_raise_idemp (e : exn) :
  generator_raise (generator_raise e) = generator_raise e.
Proof.
  unfold generator_raise at 1.
  by destruct (decide (exc_class (generator_raise e) = "StopIteration")) as [Hc|];
    [apply generator_raise_class in Hc|].
Qed.

(** X13. [lookup_prefix] called with [fast] true fetches no department
    page: it runs the reader's own load if the reader is not loaded, and no
    other population; when it ends without an exception it has yielded, in
    order, the departments whose stored prefixes hold the upper-cased prefix,
    and a loaded reader and its departments are left exactly as they were.
    It raises only when the reader's load raises, or when a loaded reader
    holds no departments ([TypeError]); then nothing was yielded. The
    exception of the load leaves the generator by [generator_raise], with the
    reader as it was: the [StopIteration] of an empty menu reaches the caller
    as a [RuntimeError], and no exception that reaches the caller is a
    [StopIteration]. *)
Theorem lookup_prefix_fast :
  ∀ (CourseCode : Type) (CourseCode_init : string → result CourseCode)
    (prefix : CourseCode → string) (replace_abbreviations : string → string)
    (similar_zip : list string → gset string → result (list (string * string)))
    (upper : string → string) (self : CourseReader.t CourseCode) (pfx : string)
    (b : Browser),
    let r := lookup_prefix CourseCode_init prefix replace_abbreviations similar_zip
               upper self pfx true b in
    populations (final r).2
    = (populations b + if CourseReader.loaded self then 0 else 1)%nat
    ∧ (raised r = None →
       ∃ deps, CourseReader.departments (final r).1 = Some deps
               ∧ yielded r = filter (λ dep, upper pfx ∈ Department.prefixes dep) deps)
    ∧ (CourseReader.loaded self = true → raised r = None → final r = (self, b))
    ∧ (∀ e, raised r = Some e → yielded r = [] ∧ exc_class e ≠ "StopIteration")
    ∧ (∀ e, (CourseReader.auto_load replace_abbreviations similar_zip self b).1 = Err e →
            raised r = Some (generator_raise e) ∧ (final r).1 = self)
    ∧ (∀ e, raised r = Some e →
            (∃ e0, (CourseReader.auto_load replace_abbreviations similar_zip self b).1
                   = Err e0
                   ∧ e = generator_raise e0)
            ∨ (e = TypeError ∧ CourseReader.loaded self = true
               ∧ CourseReader.departments self = None)).
Proof.
  intros CourseCode CourseCode_init prefix replace_abbreviations similar_zip upper
    self pfx b r.
  destruct (CourseReader_loads_lazily (CourseCode := CourseCode) replace_abbreviations
              similar_zip) as (_ & _ & _ & _ & Hpop & _).
  specialize (Hpop self b).
  assert (∀ self1 b1,
            CourseReader.auto_load replace_abbreviations similar_zip self b
            = (Ok self1, b1) →
            CourseReader.departments self1 = None →
            CourseReader.loaded self = true ∧ CourseReader.departments self = None)
    as Hnone.
  { intros self1 b1 Hauto Hdeps. unfold CourseReader.auto_load in Hauto.
    destruct (CourseReader.loaded self) eqn:Hl; cbn [negb] in Hauto.
    - by inversion Hauto; subst.
    - rewrite CourseReader_force_load_page in Hauto. inversion Hauto as [[Hres Hb]].
      apply bind_Ok_inv in Hres as (parsed & _ & Hres).
      apply bind_Ok_inv in Hres as (deps & _ & Hres). inversion Hres; subst self1.
      discriminate Hdeps. }
  subst r. unfold lookup_prefix. rewrite get_departments_split.
  destruct (CourseReader.auto_load replace_abbreviations similar_zip self b)
    as [[self1|e] b1] eqn:Hauto; cbn [fst snd mbind result_bind] in *.
  - destruct (CourseReader.departments self1) as [deps|] eqn:Hdeps;
      rewrite ?lookup_prefix_loop_fast; cbn [yielded raised final fst snd].
    + split; [exact Hpop|]. split; [|split; [|split; [|split]]].
      * intros _. exists deps. by split.
      * intros Hl _. unfold CourseReader.auto_load in Hauto. rewrite Hl in Hauto.
        inversion Hauto; subst. by rewrite set_departments_of_same.
      * discriminate.
      * discriminate.
      * discriminate.
    + split; [exact Hpop|]. split; [discriminate|]. split; [discriminate|].
      split; [|split].
      * intros e He. inversion He; subst e. split; [reflexivity | discriminate].
      * discriminate.
      * intros e He. inversion He; subst e. right.
        destruct (Hnone self1 b1 eq_refl Hdeps) as [Hl Hd]. by repeat split.
  - cbn [yielded raised final fst snd].
    split; [exact Hpop|]. split; [discriminate|]. split; [discriminate|].
    split; [|split].
    + intros e' He. inversion He; subst e'.
      split; [reflexivity | apply generator_raise_class].
    + intros e' He. inversion He; subst e'. by split.
    + intros e' He. inversion He; subst e'. left. by exists e.
Qed.

(** X14. [lookup_prefix] called with [fast] false, on a reader whose loaded
    departments are in a sound state, when it ends without an exception: every
    department of the reader is loaded, with the names and URLs it had; one
    page was fetched for each department that was not loaded; and the
    departments yielded are exactly those whose loaded courses include one with
    the upper-cased prefix. *)
Theorem lookup_prefix_accurate :
  ∀ (CourseCode : Type) (CourseCode_init : string → result CourseCode)
    (prefix : CourseCode → string) (replace_abbreviations : string → string)
    (similar_zip : list string → gset string → result (list (string * string)))
    (upper : string → string) (self : CourseReader.t CourseCode) (pfx : string)
    (b : Browser) (deps : list (Department.t CourseCode)),
    CourseReader.loaded self = true →
    CourseReader.departments self = Some deps →
    Forall (Department_consistent prefix) deps →
    let r := lookup_prefix CourseCode_init prefix replace_abbreviations similar_zip
               upper self pfx false b in
    raised r = None →
    ∃ deps',
      CourseReader.departments (final r).1 = Some deps'
      ∧ Forall2 same_department deps deps'
      ∧ Forall (λ dep, Department.loaded dep = true) deps'
      ∧ populations (final r).2
        = (populations b + length (filter (λ dep, Department.loaded dep = false) deps))%nat
      ∧ yielded r = filter (λ dep, upper pfx ∈ Department.prefixes dep) deps'
      ∧ Forall (λ dep, upper pfx ∈ Department.prefixes dep ↔
                       ∃ cl c, Department.course_list dep = Some cl ∧ c ∈ cl
                               ∧ prefix (course_code c) = upper pfx) deps'.
Proof.
  intros CourseCode CourseCode_init prefix replace_abbreviations similar_zip upper
    self pfx b deps Hl Hdeps Hsound r Hnone.
  subst r. unfold lookup_prefix, CourseReader.get_departments, CourseReader.auto_load in *.
  rewrite Hl in *. cbn [negb mbind result_bind] in *. rewrite Hdeps in *.
  cbn [yielded raised final fst snd] in *.
  destruct (lookup_prefix_loop_accurate CourseCode_init prefix upper pfx deps b Hsound
              Hnone) as (Hsame & Hloaded & Hyield & Hpop).
  eexists. split; [reflexivity|]. split; [exact Hsame|]. split.
  { eapply Forall_impl; [exact Hloaded|]. by intros dep [? _]. }
  split; [exact Hpop|]. split; [exact Hyield|].
  eapply Forall_impl; [exact Hloaded|]. intros dep [Hdl Hc].
  destruct (Hc Hdl) as (cl & Hcl & Hps). rewrite Hps, elem_of_collect_prefixes.
  split.
  - intros (c & Hin & Hp). by exists cl, c.
  - intros (cl' & c & Hcl' & Hin & Hp). rewrite Hcl in Hcl'. inversion Hcl'; subst cl'.
    by exists c.
Qed.

(** The sample site: by the prefix table both departments match their
    prefix, but the page of the physics department lists no course. On a
    site whose menu is empty the reader's load raises [StopIteration], which
    reaches the caller of the generator as a [RuntimeError]. *)
Lemma lookup_prefix_sample :
  Department.name <$>
    yielded (lookup_prefix Sample.code_init Sample.code_prefix (λ s, s)
               Sample.similar_zip Sample.upper Sample.reader "phy" true Sample.site)
  = ["Physics"]
  ∧ populations
      (final (lookup_prefix Sample.code_init Sample.code_prefix (λ s, s)
                Sample.similar_zip Sample.upper Sample.reader "phy" true Sample.site)).2
    = 1%nat
  ∧ (CourseReader.force_load (CourseCode := string * string) (λ s, s)
       Sample.similar_zip Sample.reader Sample.empty_site).1 = Err StopIteration
  ∧ raised (lookup_prefix Sample.code_init Sample.code_prefix (λ s, s)
              Sample.similar_zip Sample.upper Sample.reader "phy" true Sample.empty_site)
    = Some (RuntimeError "generator raised StopIteration")
  ∧ (final (lookup_prefix Sample.code_init Sample.code_prefix (λ s, s)
              Sample.similar_zip Sample.upper Sample.reader "phy" true
              Sample.empty_site)).1
    = Sample.reader.
Proof.
  destruct (lookup_prefix_fast _ Sample.code_init Sample.code_prefix (λ s, s)
              Sample.similar_zip Sample.upper Sample.reader "phy" Sample.site)
    as (Hpop & _).
  destruct (lookup_prefix_fast _ Sample.code_init Sample.code_prefix (λ s, s)
              Sample.similar_zip Sample.upper Sample.reader "phy" Sample.empty_site)
    as (_ & _ & _ & _ & Hload & _).
  split; [vm_compute; reflexivity|]. split; [exact Hpop|].
  split; [vm_compute; reflexivity|].
  exact (Hload StopIteration eq_refl).
Defined.

(** Asked accurately, the physics department, whose page lists no
    course, is not among the departments for its prefix; both pages were
    fetched. *)
Lemma lookup_prefix_accurate_sample :
  yielded (lookup_prefix Sample.code_init Sample.code_prefix (λ s, s)
             Sample.similar_zip Sample.upper Sample.loaded_reader "phy" false Sample.site)
  = []
  ∧ ∃ deps',
      CourseReader.departments
        (final (lookup_prefix Sample.code_init Sample.code_prefix (λ s, s)
                  Sample.similar_zip Sample.upper Sample.loaded_reader "phy" false
                  Sample.site)).1 = Some deps'
      ∧ Forall (λ dep, Department.loaded dep = true) deps'
      ∧ populations
          (final (lookup_prefix Sample.code_init Sample.code_prefix (λ s, s)
                    Sample.similar_zip Sample.upper Sample.loaded_reader "phy" false
                    Sample.site)).2
        = 2%nat.
Proof.
  split; [vm_compute; reflexivity|].
  destruct (lookup_prefix_accurate _ Sample.code_init Sample.code_prefix (λ s, s)
              Sample.similar_zip Sample.upper Sample.loaded_reader "phy" Sample.site
              [Sample.math; Sample.physics] eq_refl eq_refl)
    as (deps' & Hdeps & _ & Hloaded & Hpop & _).
  - repeat constructor; intros Hl; discriminate Hl.
  - vm_compute. reflexivity.
  - exists deps'. split; [exact Hdeps|]. split; [exact Hloaded | exact Hpop].
Defined.

(** ** Looking up a course *)

Lemma same_department_refl {CourseCode : Type} (dep : Department.t CourseCode) :
  same_department dep dep.
Proof. by repeat split. Qed.

Lemma same_department_trans {CourseCode : Type} (d1 d2 d3 : Department.t CourseCode) :
  same_department d1 d2 → same_department d2 d3 → same_department d1 d3.
Proof.
  intros (H1 & H2 & H3 & H4 & H5) (G1 & G2 & G3 & G4 & G5).
  unfold same_department. rewrite G1, G2, G3, G4, G5. by repeat split.
Qed.

Section LookupCourse.

Context {CourseCode : Type}.
Variable CourseCode_init : string → result CourseCode.
Variable prefix : CourseCode → string.
Variable upper : string → string.
Variable code_eq : CourseCode → CourseCode → bool.

Implicit Types (dep : Department.t CourseCode) (deps : list (Department.t CourseCode))
  (b : Browser).

Lemma auto_load_any dep b :
  populations (Department.auto_load CourseCode_init prefix dep b).2
  = (populations b + if Department.loaded dep then 0 else 1)%nat
  ∧ ∀ dep1, (Department.auto_load CourseCode_init prefix dep b).1 = Ok dep1 →
            same_department dep dep1 ∧ Department.loaded dep1 = true
            ∧ (Department.loaded dep = true → dep1 = dep).
Proof.
  split.
  - by destruct (Department_loads_lazily CourseCode_init prefix)
      as (_ & _ & _ & _ & Hn & _).
  - intros dep1 Hload.
    apply Department_auto_load_Ok in Hload as [[Hl ->]|[Hl Hload]].
    + split; [apply same_department_refl | done].
    + apply Department_force_load_Ok in Hload as (rows & cl & _ & _ & ->).
      split; [by repeat split|]. split; [done|]. intros Hl'. congruence.
Qed.

Lemma get_prefixes_any dep (fast : bool) b :
  populations (Department.get_prefixes CourseCode_init prefix dep fast b).2
  = (populations b + if fast then 0 else if Department.loaded dep then 0 else 1)%nat
  ∧ ∀ dep1 ps,
      (Department.get_prefixes CourseCode_init prefix dep fast b).1 = Ok (dep1, ps) →
      same_department dep dep1
      ∧ ps = Department.prefixes dep1
      ∧ (if fast then dep1 = dep else Department.loaded dep1 = true).
Proof.
  unfold Department.get_prefixes. destruct fast; cbn [negb].
  - simpl. split; [lia|]. intros dep1 ps Heq. inversion Heq; subst.
    split; [apply same_department_refl | done].
  - destruct (auto_load_any dep b) as [Hpop Hok].
    destruct (Department.auto_load CourseCode_init prefix dep b) as [r b1].
    simpl in *. split; [exact Hpop|]. intros dep1 ps Heq.
    apply bind_Ok_inv in Heq as (dep' & -> & Heq). inversion Heq; subst.
    destruct (Hok dep1 eq_refl) as (Hs & Hl & _).
    split; [exact Hs|]. split; [reflexivity | exact Hl].
Qed.

Lemma get_course_list_any dep b :
  populations (Department.get_course_list CourseCode_init prefix dep b).2
  = (populations b + if Department.loaded dep then 0 else 1)%nat
  ∧ ∀ dep1 v,
      (Department.get_course_list CourseCode_init prefix dep b).1 = Ok (dep1, v) →
      same_department dep dep1 ∧ Department.loaded dep1 = true
      ∧ v = Department.course_list dep1
      ∧ (Department.loaded dep = true → dep1 = dep).
Proof.
  unfold Department.get_course_list.
  destruct (auto_load_any dep b) as [Hpop Hok].
  destruct (Department.auto_load CourseCode_init prefix dep b) as [r b1].
  simpl in *. split; [exact Hpop|]. intros dep1 v Heq.
  apply bind_Ok_inv in Heq as (dep' & -> & Heq). inversion Heq; subst.
  destruct (Hok dep1 eq_refl) as (Hs & Hl & Hsame).
  split; [exact Hs|]. split; [exact Hl|]. split; [reflexivity | exact Hsame].
Qed.

(** The test of the prefix and the reading of the course list of one
    department fetch its page once at most. *)
Lemma lookup_course_step_fetches dep (fast : bool) b dep1 ps b1 :
  Department.get_prefixes CourseCode_init prefix dep fast b = (Ok (dep1, ps), b1) →
  (populations (Department.get_course_list CourseCode_init prefix dep1 b1).2
   ≤ populations b + if Department.loaded dep then 0 else 1)%nat.
Proof.
  intros Hget. destruct (get_prefixes_any dep fast b) as [Hpop Hok].
  rewrite Hget in Hpop, Hok. simpl in Hpop.
  destruct (Hok dep1 ps eq_refl) as (_ & _ & Hfast).
  rewrite (proj1 (get_course_list_any dep1 b1)), Hpop.
  destruct fast; [subst dep1; lia|]. rewrite Hfast.
  destruct (Department.loaded dep); lia.
Qed.

Lemma lookup_course_loop_spec (code : CourseCode) (fast : bool) deps b :
  let r := lookup_course_loop CourseCode_init prefix upper code_eq code fast deps b in
  Forall (λ c, code_eq (course_code c) code = true) (yielded r)
  ∧ Forall2 same_department deps (final r).1
  ∧ (populations b ≤ populations (final r).2
     ≤ populations b + length (filter (λ dep, Department.loaded dep = false) deps))%nat
  ∧ (yielded r ≠ [] →
     raised r = None
     ∧ ∃ before before' dep0 dep after cl,
         deps = before ++ dep0 :: after
         ∧ (final r).1 = before' ++ dep :: after
         ∧ length before' = length before
         ∧ Forall (passed_by prefix upper code_eq code) before'
         ∧ (upper (prefix code) ∈ Department.prefixes dep0
            ∨ upper (prefix code) ∈ Department.prefixes dep)
         ∧ Department.loaded dep = true
         ∧ Department.course_list dep = Some cl
         ∧ yielded r = filter (λ c, code_eq (course_code c) code = true) cl)
  ∧ (raised r = None → yielded r = [] →
     Forall (passed_by prefix upper code_eq code) (final r).1)
  ∧ (∀ e, raised r = Some e → yielded r = [] ∧ exc_class e ≠ "StopIteration").
Proof.
  revert b. induction deps as [|dep deps IH]; intros b r.
  - subst r. simpl. split; [constructor|]. split; [constructor|]. split; [lia|].
    split; [done|]. split; [by constructor | discriminate].
  - assert (∀ l : list (Department.t CourseCode), Forall2 same_department l l)
      as Hrefl.
    { intros l. apply Forall_Forall2_diag, Forall_forall. intros.
      apply same_department_refl. }
    assert (length (filter (λ dep, Department.loaded dep = false) (dep :: deps))
            = ((if Department.loaded dep then 0 else 1)
               + length (filter (λ dep, Department.loaded dep = false) deps))%nat)
      as Hcount.
    { rewrite filter_cons. destruct (decide (Department.loaded dep = false)) as [Hu|Hu].
      - by rewrite Hu.
      - by destruct (Department.loaded dep). }
    assert (∀ d' b' (r' := lookup_course_loop CourseCode_init prefix upper code_eq code
                              fast deps b'),
              same_department dep d' →
              (populations b ≤ populations b'
               ≤ populations b + if Department.loaded dep then 0 else 1)%nat →
              passed_by prefix upper code_eq code d' →
              let r2 := {| yielded := yielded r'; raised := raised r';
                           final := (d' :: (final r').1, (final r').2) |} in
              Forall (λ c, code_eq (course_code c) code = true) (yielded r2)
              ∧ Forall2 same_department (dep :: deps) (final r2).1
              ∧ (populations b ≤ populations (final r2).2
                 ≤ populations b
                   + length (filter (λ dep, Department.loaded dep = false) (dep :: deps)))%nat
              ∧ (yielded r2 ≠ [] →
                 raised r2 = None
                 ∧ ∃ before before' dep0 dep' after cl,
                     dep :: deps = before ++ dep0 :: after
                     ∧ (final r2).1 = before' ++ dep' :: after
                     ∧ length before' = length before
                     ∧ Forall (passed_by prefix upper code_eq code) before'
                     ∧ (upper (prefix code) ∈ Department.prefixes dep0
                        ∨ upper (prefix code) ∈ Department.prefixes dep')
                     ∧ Department.loaded dep' = true
                     ∧ Department.course_list dep' = Some cl
                     ∧ yielded r2 = filter (λ c, code_eq (course_code c) code = true) cl)
              ∧ (raised r2 = None → yielded r2 = [] →
                 Forall (passed_by prefix upper code_eq code) (final r2).1)
              ∧ (∀ e, raised r2 = Some e →
                      yielded r2 = [] ∧ exc_class e ≠ "StopIteration"))
      as Hskip.
    { intros d' b' r' Hsame Hpop Hpassed r2. subst r2.
      cbn [yielded raised final fst snd].
      destruct (IH b') as (Hy & Hs & Hp & Hfound & Hnone & Hexc).
      fold r' in Hy, Hs, Hp, Hfound, Hnone, Hexc.
      split; [exact Hy|]. split; [by constructor|]. split; [rewrite Hcount; lia|].
      split; [|split; [|exact Hexc]].
      - intros Hne. destruct (Hfound Hne)
          as (Hraised & before & before' & dep0 & dep' & after & cl
              & Hdeps & Hfinal & Hlen & Hbefore & Hin & Hl & Hcl & Hyield).
        split; [exact Hraised|].
        exists (dep :: before), (d' :: before'), dep0, dep', after, cl.
        rewrite Hdeps, Hfinal. simpl. rewrite Hlen.
        split; [done|]. split; [done|]. split; [done|]. split; [by constructor|].
        by repeat split.
      - intros Hraised Hnil. constructor; [exact Hpassed | by apply Hnone]. }
    subst r. cbn [lookup_course_loop].
    destruct (get_prefixes_any dep fast b) as [Hpop1 Hok1].
    destruct (Department.get_prefixes CourseCode_init prefix dep fast b)
      as [[[dep1 ps]|e] b1] eqn:Hget; cbn [fst snd] in Hpop1, Hok1.
    + destruct (Hok1 dep1 ps eq_refl) as (Hsame1 & Hps & Hfast).
      assert (populations b ≤ populations b1
              ≤ populations b + if Department.loaded dep then 0 else 1)%nat as Hb1.
      { rewrite Hpop1. destruct fast, (Department.loaded dep); lia. }
      destruct (decide (upper (prefix code) ∈ ps)) as [Hin|Hnin];
        [|apply Hskip; [done | done | left; by rewrite <- Hps]].
      pose proof (lookup_course_step_fetches _ _ _ _ _ _ Hget) as Hfetch.
      destruct (get_course_list_any dep1 b1) as [Hpop2 Hok2].
      destruct (Department.get_course_list CourseCode_init prefix dep1 b1)
        as [[[dep2 [courses|]]|e] b2] eqn:Hlist; cbn [fst snd] in Hpop2, Hok2, Hfetch.
      * destruct (Hok2 dep2 (Some courses) eq_refl) as (Hsame2 & Hl2 & Hcl2 & Hkeep).
        assert (populations b ≤ populations b2
                ≤ populations b + if Department.loaded dep then 0 else 1)%nat as Hb2.
        { split; [rewrite Hpop2; lia | exact Hfetch]. }
        destruct (filter (λ c, code_eq (course_code c) code = true) courses)
          as [|c found] eqn:Hfilter.
        -- apply Hskip; [by eapply same_department_trans | exact Hb2|].
           right. split; [exact Hl2|]. by exists courses.
        -- cbn [yielded raised final fst snd]. split.
           { rewrite <- Hfilter. apply Forall_forall. intros c' Hc'.
             by apply list_elem_of_filter in Hc' as [? _]. }
           split.
           { constructor; [by eapply same_department_trans | apply Hrefl]. }
           split; [rewrite Hcount; lia|].
           split; [|split; [discriminate | discriminate]].
           intros _. split; [done|].
           exists [], [], dep, dep2, deps, courses.
           split; [done|]. split; [done|]. split; [done|]. split; [constructor|].
           split; [|by repeat split].
           destruct fast.
           ++ left. subst dep1. by rewrite <- Hps.
           ++ right. rewrite (Hkeep Hfast). by rewrite <- Hps.
      * destruct (Hok2 dep2 None eq_refl) as (Hsame2 & Hl2 & Hcl2 & _).
        cbn [yielded raised final fst snd]. split; [constructor|]. split.
        { constructor; [by eapply same_department_trans | apply Hrefl]. }
        split; [rewrite Hcount; lia|]. split; [done|]. split; [discriminate|].
        intros e He. inversion He; subst e. split; [reflexivity | discriminate].
      * cbn [yielded raised final fst snd]. split; [constructor|]. split.
        { constructor; [done | apply Hrefl]. }
        split; [rewrite Hcount; lia|]. split; [done|]. split; [discriminate|].
        intros e' He. inversion He; subst e'.
        split; [reflexivity | apply generator_raise_class].
    + cbn [yielded raised final fst snd]. split; [constructor|]. split.
      { constructor; [apply same_department_refl | apply Hrefl]. }
      split.
      { rewrite Hcount, Hpop1. destruct fast, (Department.loaded dep); lia. }
      split; [done|]. split; [discriminate|].
      intros e' He. inversion He; subst e'.
      split; [reflexivity | apply generator_raise_class].
Qed.

End LookupCourse.

Section LookupCourseFast.

Context {CourseCode : Type}.
Variable CourseCode_init : string → result CourseCode.
Variable prefix : CourseCode → string.
Variable upper : string → string.
Variable code_eq : CourseCode → CourseCode → bool.

(** With [fast] true the loop changes no department but those that are not
    loaded and are listed under the prefix of the code. *)
Lemma lookup_course_loop_fast (code : CourseCode)
    (deps : list (Department.t CourseCode)) (b : Browser) :
  Forall2 (λ dep dep', dep' = dep
                       ∨ (Department.loaded dep = false
                          ∧ upper (prefix code) ∈ Department.prefixes dep))
    deps (final (lookup_course_loop CourseCode_init prefix upper code_eq code true
                   deps b)).1.
Proof.
  assert (∀ l : list (Department.t CourseCode),
            Forall2 (λ dep dep', dep' = dep
                                 ∨ (Department.loaded dep = false
                                    ∧ upper (prefix code) ∈ Department.prefixes dep)) l l)
    as Hsame.
  { intros l. apply Forall_Forall2_diag, Forall_forall. intros. by left. }
  revert b. induction deps as [|dep deps IH]; intros b; [constructor|].
  cbn [lookup_course_loop]. unfold Department.get_prefixes. cbn [negb mbind result_bind].
  destruct (decide (upper (prefix code) ∈ Department.prefixes dep)) as [Hin|Hnin].
  - destruct (Department.loaded dep) eqn:Hl.
    + unfold Department.get_course_list, Department.auto_load. rewrite Hl.
      cbn [negb mbind result_bind].
      destruct (Department.course_list dep) as [courses|]; cbn [final fst].
      * destruct (filter (λ c, code_eq (course_code c) code = true) courses);
          cbn [final fst]; constructor; auto.
      * constructor; auto.
    + destruct (Department.get_course_list CourseCode_init prefix dep b)
        as [[[dep2 [courses|]]|e] b2]; cbn [final fst].
      * destruct (filter (λ c, code_eq (course_code c) code = true) courses);
          cbn [final fst]; constructor; auto.
      * constructor; auto.
      * constructor; auto.
  - cbn [final fst]. constructor; auto.
Qed.

End LookupCourseFast.

(** X15. [lookup_course] on a loaded reader, for a course code that is a
    [CourseCode] or a string the constructor accepts: every course yielded has
    the code asked for; the departments keep their names and URLs; at most
    one page is fetched for each department that was not loaded; with [fast]
    true only departments that were not loaded and are listed under the
    prefix of the code are changed. The search stops at the first department
    that has the course: when a course is yielded there is no exception, the
    courses yielded are, in order, all the courses with that code of one
    loaded department, listed under the prefix of the code, every department
    before it was passed by (it is not listed under the prefix, or it is
    loaded and has no course with the code), and the departments after it are
    left as they were. When the search ends with no course and no exception,
    every department was passed by. When it ends with an exception nothing
    was yielded, and the exception is no [StopIteration]. *)
Theorem lookup_course_first_department :
  ∀ (CourseCode : Type) (CourseCode_init : string → result CourseCode)
    (prefix : CourseCode → string) (replace_abbreviations : string → string)
    (similar_zip : list string → gset string → result (list (string * string)))
    (upper : string → string) (code_eq : CourseCode → CourseCode → bool)
    (self : CourseReader.t CourseCode) (arg : string + CourseCode) (code : CourseCode)
    (fast : bool) (b : Browser) (deps : list (Department.t CourseCode)),
    CourseReader.loaded self = true →
    CourseReader.departments self = Some deps →
    match arg with inl s => CourseCode_init s | inr c => Ok c end = Ok code →
    let r := lookup_course CourseCode_init prefix replace_abbreviations similar_zip
               upper code_eq self arg fast b in
    Forall (λ c, code_eq (course_code c) code = true) (yielded r)
    ∧ (∃ deps', CourseReader.departments (final r).1 = Some deps'
                ∧ Forall2 same_department deps deps'
                ∧ (fast = true →
                   Forall2 (λ dep dep',
                              dep' = dep
                              ∨ (Department.loaded dep = false
                                 ∧ upper (prefix code) ∈ Department.prefixes dep))
                     deps deps'))
    ∧ (populations b ≤ populations (final r).2
       ≤ populations b + length (filter (λ dep, Department.loaded dep = false) deps))%nat
    ∧ (yielded r ≠ [] →
       raised r = None
       ∧ ∃ before before' dep0 dep after cl,
           deps = before ++ dep0 :: after
           ∧ CourseReader.departments (final r).1 = Some (before' ++ dep :: after)
           ∧ length before' = length before
           ∧ Forall (passed_by prefix upper code_eq code) before'
           ∧ (upper (prefix code) ∈ Department.prefixes dep0
              ∨ upper (prefix code) ∈ Department.prefixes dep)
           ∧ Department.loaded dep = true
           ∧ Department.course_list dep = Some cl
           ∧ yielded r = filter (λ c, code_eq (course_code c) code = true) cl)
    ∧ (raised r = None → yielded r = [] →
       ∃ deps', CourseReader.departments (final r).1 = Some deps'
                ∧ Forall (passed_by prefix upper code_eq code) deps')
    ∧ (∀ e, raised r = Some e → yielded r = [] ∧ exc_class e ≠ "StopIteration").
Proof.
  intros CourseCode CourseCode_init prefix replace_abbreviations similar_zip upper
    code_eq self arg code fast b deps Hloaded Hdeps Hcode r.
  subst r. unfold lookup_course. rewrite Hcode.
  unfold CourseReader.get_departments, CourseReader.auto_load.
  rewrite Hloaded. cbn [negb mbind result_bind]. rewrite Hdeps.
  destruct (lookup_course_loop_spec CourseCode_init prefix upper code_eq code fast deps b)
    as (Hy & Hs & Hp & Hfound & Hnone & Hexc).
  pose proof (lookup_course_loop_fast CourseCode_init prefix upper code_eq code deps b)
    as Hfast.
  cbn [yielded raised final fst snd CourseReader.departments set_departments_of].
  split; [exact Hy|]. split; [|split; [exact Hp|]].
  - eexists. split; [reflexivity|]. split; [exact Hs|]. by intros ->.
  - split; [|split; [|exact Hexc]].
    + intros Hne. destruct (Hfound Hne)
        as (Hraised & before & before' & dep0 & dep & after & cl
            & Hsplit & Hfinal & Hlen & Hbefore & Hin & Hl & Hcl & Hyield).
      split; [exact Hraised|].
      exists before, before', dep0, dep, after, cl. rewrite Hfinal. by repeat split.
    + intros Hraised Hnil. eexists. split; [reflexivity|]. by apply Hnone.
Qed.

(** Two departments are listed under MAC, and the page of the first lists
    no course: the one section of MAC2313 is found in the second, the
    mathematics department, and both pages were fetched. *)
Lemma lookup_course_sample :
  length (yielded (lookup_course Sample.code_init Sample.code_prefix (λ s, s)
                     Sample.similar_zip Sample.upper Sample.code_eq Sample.cross_reader
                     (inl "MAC2313") true Sample.site)) = 1%nat
  ∧ Forall (λ c, Sample.code_eq (course_code c) ("MAC", "2313") = true)
      (yielded (lookup_course Sample.code_init Sample.code_prefix (λ s, s)
                  Sample.similar_zip Sample.upper Sample.code_eq Sample.cross_reader
                  (inl "MAC2313") true Sample.site))
  ∧ raised (lookup_course Sample.code_init Sample.code_prefix (λ s, s)
              Sample.similar_zip Sample.upper Sample.code_eq Sample.cross_reader
              (inl "MAC2313") true Sample.site) = None
  ∧ (Department.name <$> [Sample.statistics; Sample.math] = ["Statistics"; "Mathematics"]
     ∧ ∃ deps',
         CourseReader.departments
           (final (lookup_course Sample.code_init Sample.code_prefix (λ s, s)
                     Sample.similar_zip Sample.upper Sample.code_eq Sample.cross_reader
                     (inl "MAC2313") true Sample.site)).1 = Some deps'
         ∧ Forall2 same_department [Sample.statistics; Sample.math] deps')
  ∧ populations
      (final (lookup_course Sample.code_init Sample.code_prefix (λ s, s)
                Sample.similar_zip Sample.upper Sample.code_eq Sample.cross_reader
                (inl "MAC2313") true Sample.site)).2 = 2%nat.
Proof.
  destruct (lookup_course_first_department _ Sample.code_init Sample.code_prefix (λ s, s)
              Sample.similar_zip Sample.upper Sample.code_eq Sample.cross_reader
              (inl "MAC2313") ("MAC", "2313") true Sample.site
              [Sample.statistics; Sample.math] eq_refl eq_refl eq_refl)
    as (Hy & (deps' & Hdeps' & Hsame & _) & _ & Hfound & _).
  split; [vm_compute; reflexivity|]. split; [exact Hy|].
  split; [|split; [|vm_compute; reflexivity]].
  - apply Hfound. intros Hnil. apply (f_equal length) in Hnil.
    vm_compute in Hnil. discriminate Hnil.
  - split; [reflexivity|]. by exists deps'.
Defined.

(** ** The grouped index of lists of any lengths *)

Section ParallelListsPartition.
Context {K V : Type} `{Countable K}.

(** The number of values held by a grouped index. *)
Lemma add_pair_total (m : gmap K (list V)) (ab : K * V) :
  map_fold (λ _ vs n, (length vs + n)%nat) 0%nat (add_pair m ab)
  = S (map_fold (λ _ vs n, (length vs + n)%nat) 0%nat m).
Proof.
  destruct ab as [k v]. unfold add_pair. cbn [fst snd].
  destruct (m !! k) as [l|] eqn:Hk; cbn [default].
  - rewrite <- (insert_delete_id m k l Hk) at 2.
    rewrite <- insert_delete_eq.
    rewrite !map_fold_insert_L by (intros; lia) || apply lookup_delete_eq.
    rewrite length_app. simpl. lia.
  - rewrite map_fold_insert_L by (intros; lia) || done. simpl. lia.
Qed.

Lemma foldl_add_pair_total (l : list (K * V)) (m : gmap K (list V)) :
  map_fold (λ _ vs n, (length vs + n)%nat) 0%nat (foldl add_pair m l)
  = (map_fold (λ _ vs n, (length vs + n)%nat) 0%nat m + length l)%nat.
Proof.
  revert m. induction l as [|ab l IH]; intros m; simpl; [lia|].
  rewrite IH, add_pair_total. lia.
Qed.

End ParallelListsPartition.

(** X16. The grouped index of two lists of any lengths: the items of the
    longer list past the length of the shorter one are ignored; no key goes
    with an empty tuple; and the tuples hold as many values together as the
    shorter list has items, so that each paired value is in one tuple only. *)
Theorem parallel_lists_partition :
  ∀ (K V : Type) (EqK : EqDecision K) (CntK : Countable K)
    (list_a : list K) (list_b : list V),
    parallel_lists_to_tuple_dict list_a list_b
    = parallel_lists_to_tuple_dict (take (length list_b) list_a)
        (take (length list_a) list_b)
    ∧ (∀ k vs, parallel_lists_to_tuple_dict list_a list_b !! k = Some vs → vs ≠ [])
    ∧ map_fold (λ _ vs n, (length vs + n)%nat) 0%nat
        (parallel_lists_to_tuple_dict list_a list_b)
      = (length list_a `min` length list_b)%nat.
Proof.
  intros K V EqK CntK list_a list_b. split; [|split].
  - unfold parallel_lists_to_tuple_dict.
    by rewrite (zip_with_take_both pair list_a list_b).
  - intros k vs. rewrite parallel_lists_lookup.
    destruct (values_of k list_a list_b); [discriminate|]. by intros [= <-].
  - unfold parallel_lists_to_tuple_dict.
    change (tuple <$> foldl add_pair ∅ (zip list_a list_b))
      with (id <$> foldl add_pair ∅ (zip list_a list_b)). rewrite map_fmap_id.
    rewrite foldl_add_pair_total, map_fold_empty.
    rewrite length_zip_with. lia.
Qed.
